(** * NarcDetect: a shallow embedding of the detection-time calculator

    The development follows the two C programs of the repository: the
    dual-matrix program (saliva and urine, 24 drugs), embedded at top level,
    and the single-matrix program [NARCDTC.C] (23 drugs), embedded in
    [Module Narcdtc], with its chart in [Module NarcdtcChart] and its name
    resolution in [Module NarcdtcNames].  The Fortran source is not
    embedded: its block [IF]s are never closed.

    Numeric model.  A C [float] is modelled as a real number: literals such
    as [0.693f] denote the decimal they spell, arithmetic is exact, [exp],
    [log], [fabs] are [exp], [ln], [Rabs].  Rounding, infinities and NaN are
    not modelled; where C divides by zero the model computes [x * / 0 = 0],
    so statements about such inputs are avoided.  A C [int] is a [Z] in the
    range [INT_MIN .. INT_MAX]; the width is a parameter ([INT_MAX]), since
    the programs target both 16-bit and 32-bit compilers.  A conversion or
    an addition whose result leaves that range has no defined value in C and
    yields [None]. *)

From Stdlib Require Import ZArith Reals Lra Lia Psatz List String Ascii Bool.
Import ListNotations.

Open Scope Z_scope.
Open Scope R_scope.

(* ================================================================= *)
(** ** C numerics *)

Module CNum.

(** Comparisons on [float], as booleans. *)
Definition fgt (x y : R) : bool := if Rgt_dec x y then true else false.
Definition flt (x y : R) : bool := if Rlt_dec x y then true else false.
Definition fge (x y : R) : bool := if Rge_dec x y then true else false.
Definition fle (x y : R) : bool := if Rle_dec x y then true else false.

(** [(int)x]: truncation toward zero. *)
Definition Ztrunc (x : R) : Z := if Rle_dec 0 x then Zfloor x else Zceil x.

(** [pow(x, y)] of <math.h>.  For an integral [y] the result is the integer
    power of [x], also when [x <= 0]; otherwise it is [exp (y * ln x)]. *)
Definition c_pow (x y : R) : R :=
  if Req_dec_T y (IZR (Zfloor y)) then powerRZ x (Zfloor y) else Rpower x y.

Definition max_float (a b : R) : R := if Rgt_dec a b then a else b.
Definition min_float (a b : R) : R := if Rlt_dec a b then a else b.

Section IntRange.
Variable INT_MAX : Z.

Definition INT_MIN : Z := (- INT_MAX - 1)%Z.

Definition in_int (z : Z) : bool := ((INT_MIN <=? z) && (z <=? INT_MAX))%Z.

(** [(int)x] for a float [x]; undefined when the truncated value is not
    representable. *)
Definition float_to_int (x : R) : option Z :=
  let z := Ztrunc x in if in_int z then Some z else None.

(** Signed addition; overflow is undefined. *)
Definition int_add (a b : Z) : option Z :=
  if in_int (a + b) then Some (a + b)%Z else None.
End IntRange.

End CNum.

Import CNum.

(* ================================================================= *)
(** ** Drug and route identifiers *)

Definition NUM_DRUGS : Z := 24.
Definition NUM_ROUTES : Z := 11.
Definition SPECTRUM_WIDTH : nat := 121.
Definition PLOT_HEIGHT : Z := 50.
Definition PLOT_WIDTH : Z := 119.
Definition MAX_PEAKS : nat := 20.

Definition DRUG_FENTANYL : Z := 1.
Definition DRUG_NITAZENES : Z := 2.
Definition DRUG_AMPHETAMINE : Z := 3.
Definition DRUG_METHAMPHETAMINE : Z := 4.
Definition DRUG_DEXTROAMPHETAMINE : Z := 5.
Definition DRUG_HYDROMORPHONE : Z := 6.
Definition DRUG_OXYCODONE : Z := 7.
Definition DRUG_MORPHINE : Z := 8.
Definition DRUG_HYDROCODONE : Z := 9.
Definition DRUG_CODEINE : Z := 10.
Definition DRUG_PETHIDINE : Z := 11.
Definition DRUG_BARBITURATES : Z := 12.
Definition DRUG_BENZODIAZEPINES : Z := 13.
Definition DRUG_ALCOHOL : Z := 14.
Definition DRUG_LSD : Z := 15.
Definition DRUG_KETAMINE : Z := 16.
Definition DRUG_MESCALINE : Z := 17.
Definition DRUG_PSILOCYBIN : Z := 18.
Definition DRUG_DMT : Z := 19.
Definition DRUG_GHB : Z := 20.
Definition DRUG_METHAQUALONE : Z := 21.
Definition DRUG_METHADONE : Z := 22.
Definition DRUG_DEXTROPROPOXYPHENE : Z := 23.
Definition DRUG_DIAMORPHINE : Z := 24.

Definition ROUTE_ORAL : Z := 1.
Definition ROUTE_INTRAVENOUS : Z := 2.
Definition ROUTE_INTRAMUSCULAR : Z := 3.
Definition ROUTE_SUBCUTANEOUS : Z := 4.
Definition ROUTE_INTRANASAL : Z := 5.
Definition ROUTE_INHALATION : Z := 6.
Definition ROUTE_SUBLINGUAL : Z := 7.
Definition ROUTE_TRANSDERMAL : Z := 8.
Definition ROUTE_RECTAL : Z := 9.
Definition ROUTE_BUCCAL : Z := 10.
Definition ROUTE_TOPICAL : Z := 11.

(* ================================================================= *)
(** ** Route table and route adjustment (shared by both programs) *)

Record RouteData := {
  route_name : string;
  bioavailability : R;
  absorption_rate : R;
  oral_factor : R
}.

Definition route_zero : RouteData :=
  {| route_name := ""; bioavailability := 0; absorption_rate := 0; oral_factor := 0 |}.

(** [routes[0 .. NUM_ROUTES]] after [initialize_route_data]; entry 0 of the
    static array is never written and stays zero. *)
Definition routes_table : list RouteData :=
  [ route_zero;
    {| route_name := "ORAL"; bioavailability := 0.7; absorption_rate := 1.5; oral_factor := 0.01 |};
    {| route_name := "INTRAVENOUS"; bioavailability := 1.0; absorption_rate := 0.1; oral_factor := 0.05 |};
    {| route_name := "INTRAMUSCULAR"; bioavailability := 0.9; absorption_rate := 0.5; oral_factor := 0.03 |};
    {| route_name := "SUBCUTANEOUS"; bioavailability := 0.8; absorption_rate := 0.8; oral_factor := 0.025 |};
    {| route_name := "INTRANASAL"; bioavailability := 0.6; absorption_rate := 0.3; oral_factor := 0.02 |};
    {| route_name := "INHALATION"; bioavailability := 0.9; absorption_rate := 0.1; oral_factor := 0.04 |};
    {| route_name := "SUBLINGUAL"; bioavailability := 0.8; absorption_rate := 0.5; oral_factor := 0.02 |};
    {| route_name := "TRANSDERMAL"; bioavailability := 0.9; absorption_rate := 4.0; oral_factor := 0.015 |};
    {| route_name := "RECTAL"; bioavailability := 0.7; absorption_rate := 1.0; oral_factor := 0.015 |};
    {| route_name := "BUCCAL"; bioavailability := 0.75; absorption_rate := 0.8; oral_factor := 0.025 |};
    {| route_name := "TOPICAL"; bioavailability := 0.1; absorption_rate := 8.0; oral_factor := 0.005 |} ].

(** [routes[route]]; an index outside the array is not modelled (the callers
    pass identifiers that [main] has checked). *)
Definition routes (route : Z) : RouteData := nth (Z.to_nat route) routes_table route_zero.

(** The three locals that [adjust_route_parameters] updates through
    pointers. *)
Record RouteParams := {
  bioavail : R;
  oral_fac : R;
  absorpt : R
}.

Definition set_bioavail (p : RouteParams) (v : R) : RouteParams :=
  {| bioavail := v; oral_fac := oral_fac p; absorpt := absorpt p |}.
Definition set_oral_fac (p : RouteParams) (v : R) : RouteParams :=
  {| bioavail := bioavail p; oral_fac := v; absorpt := absorpt p |}.
Definition set_absorpt (p : RouteParams) (v : R) : RouteParams :=
  {| bioavail := bioavail p; oral_fac := oral_fac p; absorpt := v |}.

(** The drug-specific blocks of [adjust_route_parameters], in source order.
    Each takes the current values and returns the updated ones. *)
Definition adjust_alcohol (drug route : Z) (p : RouteParams) : RouteParams :=
  if (drug =? DRUG_ALCOHOL)%Z then
    let p := if ((route =? ROUTE_INTRAVENOUS) || (route =? ROUTE_INTRAMUSCULAR)
                 || (route =? ROUTE_SUBCUTANEOUS))%Z
             then set_bioavail p (bioavail p * 0.1) else p in
    if (route =? ROUTE_INHALATION)%Z then set_absorpt (set_bioavail p 0.95) 0.05 else p
  else p.

Definition adjust_fentanyl (drug route : Z) (p : RouteParams) : RouteParams :=
  if (drug =? DRUG_FENTANYL)%Z then
    let p := if (route =? ROUTE_TRANSDERMAL)%Z
             then set_bioavail (set_absorpt p 12.0) 0.92 else p in
    if (route =? ROUTE_SUBLINGUAL)%Z then set_bioavail p 0.8 else p
  else p.

Definition adjust_stimulants (drug route : Z) (p : RouteParams) : RouteParams :=
  if ((DRUG_AMPHETAMINE <=? drug) && (drug <=? DRUG_DEXTROAMPHETAMINE))%Z then
    let p := if (route =? ROUTE_INTRANASAL)%Z
             then set_absorpt (set_bioavail p 0.8) 0.2 else p in
    if (route =? ROUTE_INHALATION)%Z then set_absorpt (set_bioavail p 0.7) 0.08 else p
  else p.

(** The opioid block; [is_opioid] is the block's condition, which is the one
    place where the two programs differ. *)
Definition adjust_opioids (is_opioid : bool) (route : Z) (p : RouteParams) : RouteParams :=
  if is_opioid then
    let p := if (route =? ROUTE_INTRAVENOUS)%Z
             then set_oral_fac (set_bioavail p 1.0) 0.08 else p in
    if (route =? ROUTE_INTRANASAL)%Z then set_bioavail p 0.65 else p
  else p.

Definition adjust_psychedelics (drug route : Z) (p : RouteParams) : RouteParams :=
  if ((DRUG_LSD <=? drug) && (drug <=? DRUG_DMT))%Z then
    let p := if ((route =? ROUTE_INHALATION) && negb (drug =? DRUG_DMT))%Z
             then set_bioavail p (bioavail p * 0.3) else p in
    if ((drug =? DRUG_DMT) && (route =? ROUTE_INHALATION))%Z
    then set_absorpt (set_bioavail p 0.8) 0.02 else p
  else p.

Definition adjust_benzodiazepines (drug route : Z) (p : RouteParams) : RouteParams :=
  if (drug =? DRUG_BENZODIAZEPINES)%Z then
    let p := if (route =? ROUTE_SUBLINGUAL)%Z
             then set_absorpt (set_bioavail p 0.9) 0.3 else p in
    if (route =? ROUTE_RECTAL)%Z then set_absorpt (set_bioavail p 0.8) 0.5 else p
  else p.

Definition adjust_ketamine (drug route : Z) (p : RouteParams) : RouteParams :=
  if (drug =? DRUG_KETAMINE)%Z then
    let p := if (route =? ROUTE_INTRANASAL)%Z
             then set_absorpt (set_bioavail p 0.5) 0.3 else p in
    if (route =? ROUTE_INTRAMUSCULAR)%Z then set_absorpt (set_bioavail p 0.93) 0.3 else p
  else p.

Definition adjust_ghb (drug route : Z) (p : RouteParams) : RouteParams :=
  if ((drug =? DRUG_GHB) && negb (route =? ROUTE_ORAL))%Z
  then set_bioavail p (bioavail p * 0.5) else p.

Definition adjust_topical (drug route : Z) (p : RouteParams) : RouteParams :=
  if (route =? ROUTE_TOPICAL)%Z then
    if (negb (drug =? DRUG_FENTANYL) && negb (drug =? DRUG_METHADONE))%Z
    then set_oral_fac (set_bioavail p 0.05) 0.002 else p
  else p.

Definition adjust_route_with (is_opioid : bool) (drug route : Z) (p : RouteParams) : RouteParams :=
  let p := adjust_alcohol drug route p in
  let p := adjust_fentanyl drug route p in
  let p := adjust_stimulants drug route p in
  let p := adjust_opioids is_opioid route p in
  let p := adjust_psychedelics drug route p in
  let p := adjust_benzodiazepines drug route p in
  let p := adjust_ketamine drug route p in
  let p := adjust_ghb drug route p in
  adjust_topical drug route p.

(** [fentanyl_dose_constant], a static initialised to [1.0f] and never
    written. *)
Definition fentanyl_dose_constant : R := 1.0.

(** The age and metabolism factors of [calculate_detection_time]. *)
Definition age_factor_of (age : Z) : R :=
  if (age <? 35)%Z then 1.15
  else if (age <? 50)%Z then 1.0
  else if (age <? 65)%Z then 0.85
  else 0.7.

Definition metab_factor_of (metab : Z) : R :=
  if (metab =? 1)%Z then 0.7
  else if (metab =? 2)%Z then 1.0
  else 1.4.

(** Flip-flop correction of a half-life. *)
Definition flip_flop (absorpt halflife : R) : R :=
  if fgt absorpt (halflife * 0.693)
  then halflife * (1.0 + absorpt / (halflife * 0.693))
  else halflife.

(** The value assigned to [accumulation_factor]. *)
Definition accumulation_of (r_factor : R) (num_doses : Z) : R :=
  if flt (Rabs (r_factor - 1.0)) 0.001
  then IZR num_doses
  else (1.0 - c_pow r_factor (IZR num_doses)) / (1.0 - r_factor).

(** The detection-time branch. *)
Definition detection_time_of (total_conc cutoff elim_rate : R) : R :=
  if fgt total_conc cutoff then ln (total_conc / cutoff) / elim_rate else 0.0.

(** The buildup percentage with its upper clamp. *)
Definition buildup_of (total_conc steady_conc : R) : R :=
  let buildup := (total_conc / steady_conc) * 100.0 in
  if fgt buildup 100.0 then 100.0 else buildup.

(** [single_conc] as computed by the three-way branch on the drug. *)
Definition single_conc_of (drug dosage weight : Z) (oral_fac bioavail : R) : R :=
  if (drug =? DRUG_FENTANYL)%Z then
    fentanyl_dose_constant * 1000.0 * oral_fac * bioavail / IZR weight
  else if (drug =? DRUG_ALCOHOL)%Z then
    IZR dosage * oral_fac * bioavail * 0.5 / IZR weight
  else
    IZR dosage * oral_fac * bioavail / IZR weight.

(** Conversion of a detection time to days, hours, minutes and seconds;
    integer division is C's (truncating). *)
Record Readable := {
  rd_total : Z;     (* (int)(detection_time * 3600.0f) *)
  rd_days : Z;
  rd_hours : Z;
  rd_minutes : Z;
  rd_seconds : Z
}.

Definition split_seconds (seconds0 : Z) : Readable :=
  let seconds := seconds0 in
  let hours := (seconds ÷ 3600)%Z in
  let minutes := ((seconds - hours * 3600) ÷ 60)%Z in
  let seconds := (seconds - hours * 3600 - minutes * 60)%Z in
  let days := (hours ÷ 24)%Z in
  let hours := (hours - days * 24)%Z in
  {| rd_total := seconds0; rd_days := days; rd_hours := hours;
     rd_minutes := minutes; rd_seconds := seconds |}.

(* ================================================================= *)
(** ** The single-matrix program, NARCDTC.C *)

Module Narcdtc.

Definition NUM_DRUGS : Z := 23.

Record DrugData := {
  name : string;
  halflife : R;
  cutoff : R;
  dosing_interval : R
}.

Definition drug_zero : DrugData :=
  {| name := ""; halflife := 0; cutoff := 0; dosing_interval := 0 |}.

(** [drugs[0 .. NUM_DRUGS]] after [initialize_drug_data]. *)
Definition drugs_table : list DrugData :=
  [ drug_zero;
    {| name := "FENTANYL"; halflife := 2.0; cutoff := 1.0; dosing_interval := 4.0 |};
    {| name := "NITAZENES"; halflife := 3.5; cutoff := 0.5; dosing_interval := 6.0 |};
    {| name := "AMPHETAMINE"; halflife := 12.0; cutoff := 25.0; dosing_interval := 12.0 |};
    {| name := "METHAMPHETAMINE"; halflife := 10.0; cutoff := 25.0; dosing_interval := 8.0 |};
    {| name := "DEXTROAMPHETAMINE"; halflife := 11.0; cutoff := 25.0; dosing_interval := 12.0 |};
    {| name := "HYDROMORPHONE"; halflife := 2.3; cutoff := 1.0; dosing_interval := 4.0 |};
    {| name := "OXYCODONE"; halflife := 3.2; cutoff := 5.0; dosing_interval := 6.0 |};
    {| name := "MORPHINE"; halflife := 2.0; cutoff := 10.0; dosing_interval := 4.0 |};
    {| name := "HYDROCODONE"; halflife := 3.8; cutoff := 5.0; dosing_interval := 6.0 |};
    {| name := "CODEINE"; halflife := 2.9; cutoff := 10.0; dosing_interval := 6.0 |};
    {| name := "PETHIDINE"; halflife := 3.2; cutoff := 25.0; dosing_interval := 6.0 |};
    {| name := "BARBITURATES"; halflife := 72.0; cutoff := 50.0; dosing_interval := 24.0 |};
    {| name := "BENZODIAZEPINES"; halflife := 43.0; cutoff := 10.0; dosing_interval := 24.0 |};
    {| name := "ALCOHOL"; halflife := 1.0; cutoff := 5.0; dosing_interval := 2.0 |};
    {| name := "LSD"; halflife := 3.6; cutoff := 0.5; dosing_interval := 12.0 |};
    {| name := "KETAMINE"; halflife := 2.5; cutoff := 25.0; dosing_interval := 4.0 |};
    {| name := "MESCALINE"; halflife := 6.0; cutoff := 25.0; dosing_interval := 12.0 |};
    {| name := "PSILOCYBIN"; halflife := 2.5; cutoff := 1.0; dosing_interval := 8.0 |};
    {| name := "DMT"; halflife := 0.25; cutoff := 1.0; dosing_interval := 1.0 |};
    {| name := "GHB"; halflife := 0.5; cutoff := 5.0; dosing_interval := 2.0 |};
    {| name := "METHAQUALONE"; halflife := 24.0; cutoff := 25.0; dosing_interval := 12.0 |};
    {| name := "METHADONE"; halflife := 22.0; cutoff := 25.0; dosing_interval := 24.0 |};
    {| name := "DEXTROPROPOXYPHENE"; halflife := 14.0; cutoff := 10.0; dosing_interval := 8.0 |} ].

Definition drugs (drug : Z) : DrugData := nth (Z.to_nat drug) drugs_table drug_zero.

Definition adjust_route_parameters (drug route : Z) (p : RouteParams) : RouteParams :=
  adjust_route_with
    (((DRUG_HYDROMORPHONE <=? drug) && (drug <=? DRUG_PETHIDINE)) || (drug =? DRUG_METHADONE))%Z
    drug route p.

(** The locals of [calculate_detection_time] at the point where the results
    are printed. *)
Record Calc := {
  res_params : RouteParams;
  res_halflife : R;
  res_num_doses : Z;
  single_conc : R;
  elim_rate : R;
  r_factor : R;
  accumulation_factor : R;
  total_conc : R;
  steady_conc : R;
  buildup : R;
  detection_time : R
}.

Section Calculation.
Variable INT_MAX : Z.

Definition calculate_detection_time
    (drug route dosage weight age metab : Z) (duration : R) : option Calc :=
  let halflife := halflife (drugs drug) in
  let cutoff := cutoff (drugs drug) in
  let dosing_interval := dosing_interval (drugs drug) in
  let p := {| bioavail := bioavailability (routes route);
              oral_fac := oral_factor (routes route);
              absorpt := absorption_rate (routes route) |} in
  let p := adjust_route_parameters drug route p in
  let single_conc := single_conc_of drug dosage weight (oral_fac p) (bioavail p) in
  let halflife := flip_flop (absorpt p) halflife in
  let age_factor := age_factor_of age in
  let metab_factor := metab_factor_of metab in
  let elim_rate := 0.693 / halflife in
  let elim_rate := elim_rate * age_factor * metab_factor in
  match float_to_int INT_MAX (duration / dosing_interval) with
  | None => None
  | Some q =>
    match int_add INT_MAX q 1 with
    | None => None
    | Some num_doses =>
      let r_factor := 1.0 - exp (- elim_rate * dosing_interval) in
      let accumulation_factor := accumulation_of r_factor num_doses in
      let total_conc := single_conc * accumulation_factor in
      let steady_conc := single_conc / (1.0 - exp (- elim_rate * dosing_interval)) in
      let buildup := buildup_of total_conc steady_conc in
      let detection_time := detection_time_of total_conc cutoff elim_rate in
      Some {| res_params := p; res_halflife := halflife; res_num_doses := num_doses;
              single_conc := single_conc; elim_rate := elim_rate; r_factor := r_factor;
              accumulation_factor := accumulation_factor; total_conc := total_conc;
              steady_conc := steady_conc; buildup := buildup;
              detection_time := detection_time |}
    end
  end.
End Calculation.

End Narcdtc.

(* ================================================================= *)
(** ** The dual-matrix program *)

Record DrugData := {
  name : string;
  halflife_saliva : R;
  halflife_urine : R;
  cutoff_saliva : R;
  cutoff_urine : R;
  dosing_interval : R;
  metabolite_info : string
}.

Definition drug_zero : DrugData :=
  {| name := ""; halflife_saliva := 0; halflife_urine := 0; cutoff_saliva := 0;
     cutoff_urine := 0; dosing_interval := 0; metabolite_info := "" |}.

Definition mk_drug (n : string) (hs hu cs cu di : R) (m : string) : DrugData :=
  {| name := n; halflife_saliva := hs; halflife_urine := hu; cutoff_saliva := cs;
     cutoff_urine := cu; dosing_interval := di; metabolite_info := m |}.

(** [drugs[0 .. NUM_DRUGS]] after [initialize_drug_data]. *)
Definition drugs_table : list DrugData :=
  [ drug_zero;
    mk_drug "FENTANYL" 7.0 20.0 1.0 2.0 4.0 "Parent drug + norfentanyl";
    mk_drug "NITAZENES" 8.0 24.0 0.5 1.0 6.0 "Parent drug + hydroxy metabolites";
    mk_drug "AMPHETAMINE" 8.0 30.0 50.0 500.0 12.0 "Unchanged drug (80%) + metabolites";
    mk_drug "METHAMPHETAMINE" 12.0 36.0 50.0 500.0 8.0 "Parent drug + amphetamine metabolite";
    mk_drug "DEXTROAMPHETAMINE" 9.0 32.0 50.0 500.0 12.0
            "Unchanged drug + hydroxylated metabolites";
    mk_drug "HYDROMORPHONE" 3.0 11.0 1.0 10.0 4.0 "Parent drug + hydromorphone-3-glucuronide";
    mk_drug "OXYCODONE" 4.5 19.0 5.0 100.0 6.0 "Parent drug + oxymorphone + glucuronides";
    mk_drug "MORPHINE" 3.5 15.0 10.0 300.0 4.0 "Parent drug + morphine-3-glucuronide + M6G";
    mk_drug "HYDROCODONE" 4.0 18.0 5.0 100.0 6.0 "Parent drug + hydromorphone + glucuronides";
    mk_drug "CODEINE" 3.0 12.0 10.0 300.0 6.0 "Parent drug + morphine + norcodeine";
    mk_drug "PETHIDINE" 4.0 16.0 25.0 200.0 6.0 "Parent drug + norpethidine";
    mk_drug "BARBITURATES" 120.0 240.0 50.0 200.0 24.0 "Parent drugs + hydroxylated metabolites";
    mk_drug "BENZODIAZEPINES" 72.0 168.0 10.0 200.0 24.0 "Parent drugs + oxazepam + glucuronides";
    mk_drug "ALCOHOL" 1.0 2.0 25.0 100.0 2.0 "Ethanol + EtG (up to 80 hours urine)";
    mk_drug "LSD" 5.0 8.0 0.5 0.5 12.0 "Parent drug + iso-LSD + nor-LSD";
    mk_drug "KETAMINE" 3.5 14.0 25.0 100.0 4.0 "Parent drug + norketamine + dehydronorketamine";
    mk_drug "MESCALINE" 8.0 36.0 25.0 100.0 12.0
            "Parent drug + 3,4,5-trimethoxyphenylacetic acid";
    mk_drug "PSILOCYBIN" 3.0 13.0 1.0 10.0 8.0 "Psilocin (active metabolite) + glucuronide";
    mk_drug "DMT" 0.5 2.0 1.0 10.0 1.0 "Indole-3-acetic acid + 6-hydroxyindole-3-acetic acid";
    mk_drug "GHB" 1.0 6.0 5.0 10.0 2.0 "Parent drug (endogenous levels present)";
    mk_drug "METHAQUALONE" 36.0 72.0 25.0 200.0 12.0 "Parent drug + hydroxylated metabolites";
    mk_drug "METHADONE" 48.0 86.0 25.0 200.0 24.0 "Parent drug + EDDP + EMDP metabolites";
    mk_drug "DEXTROPROPOXYPHENE" 18.0 48.0 10.0 300.0 8.0 "Parent drug + norpropoxyphene";
    mk_drug "DIAMORPHINE" 8.0 24.0 2.0 10.0 4.0
            "6-MAM (specific) + morphine + morphine glucuronides" ].

(** [drugs[drug]]; an index outside the array is not modelled. *)
Definition drugs (drug : Z) : DrugData := nth (Z.to_nat drug) drugs_table drug_zero.

Definition adjust_route_parameters (drug route : Z) (p : RouteParams) : RouteParams :=
  adjust_route_with
    (((DRUG_HYDROMORPHONE <=? drug) && (drug <=? DRUG_PETHIDINE)) || (drug =? DRUG_METHADONE)
     || (drug =? DRUG_DIAMORPHINE))%Z
    drug route p.

(** The locals of [calculate_detection_time] at the point where the results
    are printed.  [accumulation_factor] is assigned twice; both values are
    kept. *)
Record Calc := {
  res_params : RouteParams;
  res_halflife_saliva : R;
  res_halflife_urine : R;
  res_num_doses : Z;
  single_conc_saliva : R;
  single_conc_urine : R;
  elim_rate_saliva : R;
  elim_rate_urine : R;
  r_factor_saliva : R;
  r_factor_urine : R;
  accumulation_factor_saliva : R;
  accumulation_factor_urine : R;
  total_conc_saliva : R;
  total_conc_urine : R;
  steady_conc_saliva : R;
  steady_conc_urine : R;
  buildup_saliva : R;
  buildup_urine : R;
  detection_time_saliva : R;
  detection_time_urine : R
}.

Section Calculation.
Variable INT_MAX : Z.

Definition calculate_detection_time
    (drug route dosage weight age metab : Z) (duration : R) : option Calc :=
  let halflife_saliva := halflife_saliva (drugs drug) in
  let halflife_urine := halflife_urine (drugs drug) in
  let cutoff_saliva := cutoff_saliva (drugs drug) in
  let cutoff_urine := cutoff_urine (drugs drug) in
  let dosing_interval := dosing_interval (drugs drug) in
  let p := {| bioavail := bioavailability (routes route);
              oral_fac := oral_factor (routes route);
              absorpt := absorption_rate (routes route) |} in
  let p := adjust_route_parameters drug route p in
  let single_conc_saliva := single_conc_of drug dosage weight (oral_fac p) (bioavail p) in
  let single_conc_urine := single_conc_saliva in
  let halflife_saliva := flip_flop (absorpt p) halflife_saliva in
  let halflife_urine := flip_flop (absorpt p) halflife_urine in
  let age_factor := age_factor_of age in
  let metab_factor := metab_factor_of metab in
  let elim_rate_saliva := 0.693 / halflife_saliva in
  let elim_rate_saliva := elim_rate_saliva * age_factor * metab_factor in
  let elim_rate_urine := 0.693 / halflife_urine in
  let elim_rate_urine := elim_rate_urine * age_factor * metab_factor in
  match float_to_int INT_MAX (duration / dosing_interval) with
  | None => None
  | Some q =>
    match int_add INT_MAX q 1 with
    | None => None
    | Some num_doses =>
      let r_factor_saliva := 1.0 - exp (- elim_rate_saliva * dosing_interval) in
      let r_factor_urine := 1.0 - exp (- elim_rate_urine * dosing_interval) in
      let accumulation_factor_saliva := accumulation_of r_factor_saliva num_doses in
      let total_conc_saliva := single_conc_saliva * accumulation_factor_saliva in
      let steady_conc_saliva :=
        single_conc_saliva / (1.0 - exp (- elim_rate_saliva * dosing_interval)) in
      let buildup_saliva := buildup_of total_conc_saliva steady_conc_saliva in
      let accumulation_factor_urine := accumulation_of r_factor_urine num_doses in
      let total_conc_urine := single_conc_urine * accumulation_factor_urine in
      let steady_conc_urine :=
        single_conc_urine / (1.0 - exp (- elim_rate_urine * dosing_interval)) in
      let buildup_urine := buildup_of total_conc_urine steady_conc_urine in
      let detection_time_saliva :=
        detection_time_of total_conc_saliva cutoff_saliva elim_rate_saliva in
      let detection_time_urine :=
        detection_time_of total_conc_urine cutoff_urine elim_rate_urine in
      Some {| res_params := p;
              res_halflife_saliva := halflife_saliva;
              res_halflife_urine := halflife_urine;
              res_num_doses := num_doses;
              single_conc_saliva := single_conc_saliva;
              single_conc_urine := single_conc_urine;
              elim_rate_saliva := elim_rate_saliva;
              elim_rate_urine := elim_rate_urine;
              r_factor_saliva := r_factor_saliva;
              r_factor_urine := r_factor_urine;
              accumulation_factor_saliva := accumulation_factor_saliva;
              accumulation_factor_urine := accumulation_factor_urine;
              total_conc_saliva := total_conc_saliva;
              total_conc_urine := total_conc_urine;
              steady_conc_saliva := steady_conc_saliva;
              steady_conc_urine := steady_conc_urine;
              buildup_saliva := buildup_saliva;
              buildup_urine := buildup_urine;
              detection_time_saliva := detection_time_saliva;
              detection_time_urine := detection_time_urine |}
    end
  end.

(** The readable form of a detection time: the [int] second count and its
    decomposition. *)
Definition readable (detection_time : R) : option Readable :=
  match float_to_int INT_MAX (detection_time * 3600.0) with
  | None => None
  | Some seconds => Some (split_seconds seconds)
  end.
End Calculation.

(* ----------------------------------------------------------------- *)
(** *** The concentration curve *)

(** The trailing analysis printed by [plot_concentration_curve]: either the
    time to non-detection with the peak, or the message that the peak is
    below the cutoff. *)
Inductive Analysis :=
| TimeToNonDetection (detection_time cmax : R)
| PeakBelowCutoff (cmax : R).

Record Curve := {
  cv_tmax : R;
  cv_num_doses : Z;
  cv_time : list R;      (* time[0..60] *)
  cv_conc : list R;      (* conc[0..60] *)
  cv_cmax : R;           (* after the two scaling adjustments *)
  cv_analysis : Analysis
}.

(** The indices [0 .. n-1] of a counting loop. *)
Definition indices (n : Z) : list Z := map Z.of_nat (seq 0 (Z.to_nat n)).

Definition ka_of (absorption_rate : R) : R :=
  let ka := 0.693 / absorption_rate in
  if flt ka 0.1 then 0.1 else ka.

(** One iteration of the dose loop: the new value of [conc[i]]. *)
Definition add_dose (kelim dosing_interval single_dose_conc absorption_rate ka time_i : R)
    (conc_i : R) (dose_num : Z) : R :=
  let dose_time := IZR dose_num * dosing_interval in
  if fge time_i dose_time then
    let time_since_last_dose := time_i - dose_time in
    let absorbed_conc :=
      if flt absorption_rate 0.5 then single_dose_conc
      else single_dose_conc * (1.0 - exp (- ka * time_since_last_dose)) in
    let eliminated_conc := absorbed_conc * exp (- kelim * time_since_last_dose) in
    conc_i + eliminated_conc
  else conc_i.

(** [conc[i]] at the end of iteration [i] of the sampling loop. *)
Definition sample_conc (kelim duration dosing_interval single_dose_conc absorption_rate ka : R)
    (num_doses : Z) (time_i : R) : R :=
  let conc_i :=
    fold_left (add_dose kelim dosing_interval single_dose_conc absorption_rate ka time_i)
              (indices num_doses) 0.0 in
  if fgt time_i duration then
    let time_since_end := time_i - duration in
    conc_i * exp (- kelim * time_since_end)
  else conc_i.

(** The running maximum kept in [cmax]. *)
Definition track_max (cmax conc_i : R) : R := if fgt conc_i cmax then conc_i else cmax.

(** The analysis loop, from row 60 down to row 0: the time of the first row
    found above the cutoff, [0.0f] when there is none. *)
Fixpoint scan_above (cutoff : R) (rows : list (R * R)) : R :=
  match rows with
  | [] => 0.0
  | (time_i, conc_i) :: rest => if fgt conc_i cutoff then time_i else scan_above cutoff rest
  end.

Definition analysis_of (cutoff cmax : R) (time conc : list R) : Analysis :=
  if fgt cmax cutoff
  then TimeToNonDetection (scan_above cutoff (rev (combine time conc))) cmax
  else PeakBelowCutoff cmax.

Section Plot.
Variable INT_MAX : Z.

(** [plot_concentration_curve], without the character rows of the chart. *)
Definition plot_concentration_curve
    (c0 kelim cutoff thalf duration dosing_interval single_dose_conc absorption_rate : R)
    : option Curve :=
  let ka := ka_of absorption_rate in
  let tmax := max_float (duration + 8.0 * thalf) 24.0 in
  let dt := tmax / 60.0 in
  match float_to_int INT_MAX (duration / dosing_interval) with
  | None => None
  | Some q =>
    match int_add INT_MAX q 1 with
    | None => None
    | Some num_doses =>
      let time := map (fun i => IZR i * dt) (indices 61) in
      let conc :=
        map (sample_conc kelim duration dosing_interval single_dose_conc
                         absorption_rate ka num_doses) time in
      let cmax := fold_left track_max conc 0.0 in
      let cmax := if flt cmax (cutoff * 2.0) then cutoff * 2.0 else cmax in
      let cmax := if flt cmax 1.0 then 1.0 else cmax in
      Some {| cv_tmax := tmax; cv_num_doses := num_doses; cv_time := time;
              cv_conc := conc; cv_cmax := cmax;
              cv_analysis := analysis_of cutoff cmax time conc |}
    end
  end.

(** The curve that [calculate_detection_time] plots: the saliva matrix. *)
Definition plotted_curve (drug route dosage weight age metab : Z) (duration : R)
    : option Curve :=
  match calculate_detection_time INT_MAX drug route dosage weight age metab duration with
  | None => None
  | Some c =>
    plot_concentration_curve (total_conc_saliva c) (elim_rate_saliva c)
      (cutoff_saliva (drugs drug)) (res_halflife_saliva c) duration
      (dosing_interval (drugs drug)) (single_conc_saliva c) (absorpt (res_params c))
  end.
End Plot.

(* ----------------------------------------------------------------- *)
(** *** The synthetic spectrum *)

Record NMRData := {
  shifts : list R;        (* float shifts[MAX_PEAKS] *)
  intensities : list R;   (* float intensities[MAX_PEAKS] *)
  widths : list R;        (* float widths[MAX_PEAKS] *)
  num_peaks : Z
}.

(** The first [MAX_PEAKS] cells of an array whose leading cells are [l] and
    whose other cells hold [d]. *)
Definition cells (l : list R) (d : R) : list R :=
  firstn MAX_PEAKS (l ++ repeat d MAX_PEAKS).

(** The peak positions and intensities that [generate_nmr_data] writes for a
    drug, with the final [num_peaks]. *)
Definition peaks_of (drug : Z) : list R * list R * Z :=
  if (drug =? DRUG_FENTANYL)%Z then
    ([7.2; 3.8; 2.4; 1.2], [100.0; 150.0; 200.0; 120.0], 4%Z)
  else if ((drug =? DRUG_AMPHETAMINE) || (drug =? DRUG_METHAMPHETAMINE)
           || (drug =? DRUG_DEXTROAMPHETAMINE))%Z then
    ([7.3; 2.8; 3.1; 1.1],
     [100.0; 80.0; 60.0; if (drug =? DRUG_METHAMPHETAMINE)%Z then 90.0 else 0.0],
     if negb (drug =? DRUG_METHAMPHETAMINE)%Z then 3%Z else 4%Z)
  else if ((drug =? DRUG_MORPHINE) || (drug =? DRUG_HYDROMORPHONE) || (drug =? DRUG_OXYCODONE)
           || (drug =? DRUG_HYDROCODONE) || (drug =? DRUG_CODEINE)
           || (drug =? DRUG_DIAMORPHINE))%Z then
    ([6.8; 6.5; 4.2; 3.0; 2.1], [50.0; 50.0; 60.0; 90.0; 100.0], 5%Z)
  else if (drug =? DRUG_KETAMINE)%Z then
    ([7.5; 4.1; 2.5], [80.0; 60.0; 100.0], 3%Z)
  else if (drug =? DRUG_LSD)%Z then
    ([8.1; 7.4; 7.0; 6.8; 4.0; 1.3], [30.0; 50.0; 50.0; 50.0; 60.0; 90.0], 6%Z)
  else
    ([7.0; 3.5; 1.5], [100.0; 80.0; 120.0], 3%Z).

(** [generate_nmr_data]; [rand k] is the value of the [k]-th call of the C
    library's [rand()]. *)
Definition generate_nmr_data (rand : nat -> Z) (drug : Z) : NMRData :=
  let '(sh, ints, n) := peaks_of drug in
  {| shifts := cells sh 0.0;
     intensities := cells ints 0.0;
     widths := cells (map (fun k => 0.08 + IZR (Z.rem (rand k) 20) / 1000.0)
                          (seq 0 (Z.to_nat n))) 0.1;
     num_peaks := n |}.

(** One iteration of the peak loop on cell [i] of [spectrum]. *)
Definition add_peak (nmr_data : NMRData) (concentration freq_i : R)
    (spectrum_i : R) (j : Z) : R :=
  let shift := nth (Z.to_nat j) (shifts nmr_data) 0 in
  if fge shift 0.0 && fle shift 12.0 then
    let width := max_float 0.05 (nth (Z.to_nat j) (widths nmr_data) 0) in
    let intensity := nth (Z.to_nat j) (intensities nmr_data) 0 * concentration / 100.0 in
    let delta := Rabs (freq_i - shift) in
    let peak_val := intensity / (1.0 + c_pow (delta / width) 2.0) in
    spectrum_i + peak_val
  else spectrum_i.

Definition freq (i : Z) : R := 12.0 - IZR i * 0.1.

(** [spectrum[0 .. SPECTRUM_WIDTH-1]] after the peak loop. *)
Definition spectrum_of (nmr_data : NMRData) (concentration : R) : list R :=
  map (fun i => fold_left (add_peak nmr_data concentration (freq i))
                          (indices (num_peaks nmr_data)) 0.0)
      (indices (Z.of_nat SPECTRUM_WIDTH)).

(** [spec_max], with the replacement of a non-positive maximum. *)
Definition spec_max_of (spectrum : list R) : R :=
  let spec_max := fold_left max_float spectrum 0.0 in
  if fle spec_max 0.0 then 1.0 else spec_max.

(** Apply [f] to every cell of a row together with its column. *)
Fixpoint mapi_from {A B : Type} (f : Z -> A -> B) (i : Z) (l : list A) : list B :=
  match l with
  | [] => []
  | a :: rest => f i a :: mapi_from f (i + 1)%Z rest
  end.

Definition ascii_eqb (a b : ascii) : bool := Ascii.eqb a b.

(** The passes over [plot_line] for one row, in source order. *)
Definition clear_line : list ascii := repeat " "%char SPECTRUM_WIDTH.

Definition horizontal_grid (line : Z) (plot_line : list ascii) : list ascii :=
  if (Z.rem line 10 =? 0)%Z then
    map (fun c => if ascii_eqb c " " then "-"%char else c) plot_line
  else if (Z.rem line 5 =? 0)%Z then
    map (fun c => if ascii_eqb c " " then "."%char else c) plot_line
  else plot_line.

Fixpoint mark_points (thresh : R) (spectrum : list R) (plot_line : list ascii) : list ascii :=
  match spectrum, plot_line with
  | s :: spectrum', c :: plot_line' =>
      (if fge s thresh then "*"%char else c) :: mark_points thresh spectrum' plot_line'
  | _, _ => plot_line
  end.

Definition major_grid (plot_line : list ascii) : list ascii :=
  mapi_from (fun i c => if ((Z.rem i 20 =? 0)%Z && negb (ascii_eqb c "*"))
                        then "|"%char else c) 0 plot_line.

Definition minor_grid (plot_line : list ascii) : list ascii :=
  mapi_from (fun i c => if ((10 <=? i)%Z && (Z.rem i 10 =? 0)%Z && negb (Z.rem i 20 =? 0)%Z
                            && negb (ascii_eqb c "*") && negb (ascii_eqb c "|"))
                        then "+"%char else c) 0 plot_line.

Definition spectrum_row (spec_max : R) (spectrum : list R) (line : Z) : list ascii :=
  let thresh := spec_max * IZR line / IZR PLOT_HEIGHT in
  minor_grid (major_grid (mark_points thresh spectrum (horizontal_grid line clear_line))).

(** The rows printed by [nmr_plot], from line [PLOT_HEIGHT] down to 1. *)
Record Spectrum := {
  sp_spectrum : list R;
  sp_max : R;
  sp_rows : list (list ascii)
}.

Definition nmr_plot (nmr_data : NMRData) (concentration : R) : Spectrum :=
  let spectrum := spectrum_of nmr_data concentration in
  let spec_max := spec_max_of spectrum in
  {| sp_spectrum := spectrum; sp_max := spec_max;
     sp_rows := map (fun k => spectrum_row spec_max spectrum (PLOT_HEIGHT - k)%Z)
                    (indices PLOT_HEIGHT) |}.

(* ----------------------------------------------------------------- *)
(** *** Name resolution and [main] *)

Open Scope string_scope.

Definition NUL : ascii := Ascii.zero.
Definition NEWLINE : ascii := "010"%char.

Definition toupper (c : ascii) : ascii :=
  let n := nat_of_ascii c in
  if ((97 <=? n) && (n <=? 122))%nat then ascii_of_nat (n - 32) else c.

Fixpoint str_upper (s : string) : string :=
  match s with
  | EmptyString => EmptyString
  | String c rest => String (toupper c) (str_upper rest)
  end.

(** The prefix of [s] before the first character satisfying [stop]. *)
Fixpoint take_until (stop : ascii -> bool) (s : string) : string :=
  match s with
  | EmptyString => EmptyString
  | String c rest => if stop c then EmptyString else String c (take_until stop rest)
  end.

(** The C string held in a buffer: the characters before the first NUL. *)
Definition c_string (buf : string) : string := take_until (Ascii.eqb NUL) buf.

(** [strcspn(s, "\n")]. *)
Definition strcspn_newline (s : string) : nat :=
  String.length (take_until (Ascii.eqb NEWLINE) s).

(** [strcmp] on C strings: zero when equal, otherwise the difference of the
    first two characters that differ (the end of a string counts as 0). *)
Fixpoint strcmp (s1 s2 : string) : Z :=
  match s1, s2 with
  | EmptyString, EmptyString => 0
  | EmptyString, String c _ => (0 - Z.of_nat (nat_of_ascii c))
  | String c _, EmptyString => Z.of_nat (nat_of_ascii c)
  | String c1 r1, String c2 r2 =>
      if Ascii.eqb c1 c2 then strcmp r1 r2
      else (Z.of_nat (nat_of_ascii c1) - Z.of_nat (nat_of_ascii c2))
  end%Z.

(** The first [n] characters of a string. *)
Definition str_take (n : nat) (s : string) : string := substring 0 n s.

(** [str_compare_upper]: both arguments are copied, at most 99 characters
    each, in upper case, and compared with [strcmp]. *)
Definition str_compare_upper (str1 str2 : string) : Z :=
  strcmp (str_upper (str_take 99 str1)) (str_upper (str_take 99 str2)).

(** The table search of the two selection functions: names are those of
    entries [i, i+1, ...]; the result is the index of the first match, 0 when
    the loop ends without one. *)
Fixpoint search_table (input : string) (i : Z) (names : list string) : Z :=
  match names with
  | [] => 0%Z
  | n :: rest =>
      if (str_compare_upper input n =? 0)%Z then i
      else search_table input (i + 1)%Z rest
  end.

(** A list of alternatives tried in order: the identifier of the first one
    equal to the input, 0 when none is. *)
Fixpoint search_alternatives (input : string) (alts : list (string * Z)) : Z :=
  match alts with
  | [] => 0%Z
  | (a, id) :: rest =>
      if (str_compare_upper input a =? 0)%Z then id
      else search_alternatives input rest
  end.

(** [fgets(buf, n, stdin)]: at most [n - 1] characters, up to and including
    the first newline; [None] at end of input, when nothing is stored. *)
Fixpoint read_line (k : nat) (stdin : string) : string * string :=
  match k, stdin with
  | S k', String c rest =>
      if Ascii.eqb c NEWLINE then (String c EmptyString, rest)
      else let '(l, r) := read_line k' rest in (String c l, r)
  | _, _ => (EmptyString, stdin)
  end.

Definition fgets (n : nat) (stdin : string) : option (string * string) :=
  match stdin with
  | EmptyString => None
  | _ => Some (read_line (n - 1) stdin)
  end.

(** The buffer after the newline is cut off and [str_upper] is applied. *)
Definition prepare_input (buf : string) : string :=
  let s := c_string buf in
  str_upper (str_take (strcspn_newline s) s).

Definition drug_alternatives : list (string * Z) :=
  [ ("MEPERIDINE", DRUG_PETHIDINE); ("ETHANOL", DRUG_ALCOHOL);
    ("PROPOXYPHENE", DRUG_DEXTROPROPOXYPHENE); ("HEROIN", DRUG_DIAMORPHINE) ].

Definition route_alternatives : list (string * Z) :=
  [ ("IV", ROUTE_INTRAVENOUS); ("I.V.", ROUTE_INTRAVENOUS); ("I.V", ROUTE_INTRAVENOUS);
    ("INJECTION", ROUTE_INTRAVENOUS);
    ("IM", ROUTE_INTRAMUSCULAR); ("I.M.", ROUTE_INTRAMUSCULAR); ("I.M", ROUTE_INTRAMUSCULAR);
    ("MUSCLE", ROUTE_INTRAMUSCULAR);
    ("SC", ROUTE_SUBCUTANEOUS); ("SQ", ROUTE_SUBCUTANEOUS); ("SUBQ", ROUTE_SUBCUTANEOUS);
    ("S.C.", ROUTE_SUBCUTANEOUS); ("SUB-Q", ROUTE_SUBCUTANEOUS);
    ("IN", ROUTE_INTRANASAL); ("NASAL", ROUTE_INTRANASAL); ("SNORT", ROUTE_INTRANASAL);
    ("SNORTING", ROUTE_INTRANASAL); ("NOSE", ROUTE_INTRANASAL);
    ("INH", ROUTE_INHALATION); ("INHALED", ROUTE_INHALATION); ("SMOKING", ROUTE_INHALATION);
    ("SMOKE", ROUTE_INHALATION); ("VAPING", ROUTE_INHALATION); ("VAPE", ROUTE_INHALATION);
    ("PO", ROUTE_ORAL); ("P.O.", ROUTE_ORAL); ("MOUTH", ROUTE_ORAL); ("SWALLOW", ROUTE_ORAL);
    ("PILL", ROUTE_ORAL); ("TABLET", ROUTE_ORAL);
    ("SL", ROUTE_SUBLINGUAL); ("S.L.", ROUTE_SUBLINGUAL); ("UNDER TONGUE", ROUTE_SUBLINGUAL);
    ("SUB", ROUTE_SUBLINGUAL);
    ("TD", ROUTE_TRANSDERMAL); ("PATCH", ROUTE_TRANSDERMAL); ("SKIN", ROUTE_TRANSDERMAL);
    ("PR", ROUTE_RECTAL); ("P.R.", ROUTE_RECTAL); ("RECTAL", ROUTE_RECTAL);
    ("SUPPOSITORY", ROUTE_RECTAL);
    ("BUC", ROUTE_BUCCAL); ("CHEEK", ROUTE_BUCCAL);
    ("TOP", ROUTE_TOPICAL); ("CREAM", ROUTE_TOPICAL); ("GEL", ROUTE_TOPICAL) ].

(** The value returned by [get_drug_selection] when [fgets] has stored
    [buf]. *)
Definition drug_of_buffer (buf : string) : Z :=
  let input := prepare_input buf in
  let i := search_table input 1 (map name (tl drugs_table)) in
  if (i =? 0)%Z then search_alternatives input drug_alternatives else i.

(** The value returned by [get_route_selection] when [fgets] has stored
    [buf]. *)
Definition route_of_buffer (buf : string) : Z :=
  let input := prepare_input buf in
  let i := search_table input 1 (map route_name (tl routes_table)) in
  if (i =? 0)%Z then search_alternatives input route_alternatives else i.

(** The selection functions on the input stream; [None] when the stream is
    at its end, where the buffer they read is uninitialised. *)
Definition get_drug_selection (stdin : string) : option (Z * string) :=
  match fgets 50 stdin with
  | None => None
  | Some (buf, rest) => Some (drug_of_buffer buf, rest)
  end.

Definition get_route_selection (stdin : string) : option (Z * string) :=
  match fgets 50 stdin with
  | None => None
  | Some (buf, rest) => Some (route_of_buffer buf, rest)
  end.

(** The values stored by [get_input_parameters]. *)
Record Inputs := {
  in_dosage : Z;
  in_weight : Z;
  in_age : Z;
  in_metab : Z;
  in_duration : R
}.

(** What one run of [main] does. *)
Inductive Run :=
| InvalidDrug                (* prints the message and returns 1 *)
| InvalidRoute               (* prints the message and returns 1 *)
| Calculated (drug route : Z) (inputs : Inputs) (result : option Calc).

Definition exit_code (r : Run) : Z :=
  match r with
  | InvalidDrug | InvalidRoute => 1
  | Calculated _ _ _ _ => 0
  end%Z.

(** The arguments with which [calculate_detection_time] is called in a run,
    if it is called. *)
Definition calculation_of (r : Run) : option (Z * Z * Inputs) :=
  match r with
  | Calculated drug route inputs _ => Some (drug, route, inputs)
  | _ => None
  end.

Section Main.
Variable INT_MAX : Z.
(** [get_input_parameters]: the five [scanf] conversions on the rest of the
    input, which this development does not look into. *)
Variable get_input_parameters : string -> Inputs.

(** [main] up to the end of the call of [calculate_detection_time]; [None]
    when a selection function reads at end of input. *)
Definition main (stdin : string) : option Run :=
  match get_drug_selection stdin with
  | None => None
  | Some (drug, stdin) =>
    if (drug =? 0)%Z then Some InvalidDrug
    else
      match get_route_selection stdin with
      | None => None
      | Some (route, stdin) =>
        if (route =? 0)%Z then Some InvalidRoute
        else
          let inputs := get_input_parameters stdin in
          Some (Calculated drug route inputs
                  (calculate_detection_time INT_MAX drug route (in_dosage inputs)
                     (in_weight inputs) (in_age inputs) (in_metab inputs)
                     (in_duration inputs)))
      end
  end.
End Main.

Close Scope string_scope.

(* ================================================================= *)
(** ** Further parts of the programs *)

(** *** The character rows of the concentration chart *)

(** [plot_line[k] = c], for [k] inside the line. *)
Fixpoint store (plot_line : list ascii) (k : nat) (c : ascii) : list ascii :=
  match plot_line, k with
  | [], _ => []
  | _ :: rest, O => c :: rest
  | a :: rest, S k' => a :: store rest k' c
  end.

Definition clear_plot_line : list ascii := repeat " "%char (Z.to_nat PLOT_WIDTH).

(** The time grid: columns 9, 19, ... of every sixth row. *)
Definition time_grid (i : Z) (plot_line : list ascii) : list ascii :=
  if (Z.rem i 6 =? 0)%Z then
    mapi_from (fun j c => if ((9 <=? j)%Z && (Z.rem (j - 9) 10 =? 0)%Z && ascii_eqb c " ")
                          then "+"%char else c) 0 plot_line
  else plot_line.

Section ChartRows.
Variable INT_MAX : Z.

(** The marker of the end of the dosing period. *)
Definition end_marker (duration dt time_i : R) (plot_line : list ascii)
    : option (list ascii) :=
  if fgt duration 0 && flt (Rabs (time_i - duration)) dt then
    match float_to_int INT_MAX (IZR PLOT_WIDTH * 0.1) with
    | None => None
    | Some end_pos =>
        Some (if ((0 <=? end_pos)%Z && (end_pos <? PLOT_WIDTH)%Z
                  && ascii_eqb (nth (Z.to_nat end_pos) plot_line " "%char) " ")
              then store plot_line (Z.to_nat end_pos) "|"%char
              else plot_line)
    end
  else Some plot_line.

(** The concentration point. *)
Definition conc_point (cmax conc_i : R) (plot_line : list ascii) : option (list ascii) :=
  if fgt conc_i 0.001 then
    match float_to_int INT_MAX (conc_i * IZR (PLOT_WIDTH - 2) / cmax) with
    | None => None
    | Some pos =>
        Some (if ((0 <=? pos)%Z && (pos <? PLOT_WIDTH)%Z)
              then store plot_line (Z.to_nat pos) "*"%char
              else plot_line)
    end
  else Some plot_line.

(** The cutoff line. *)
Definition cutoff_point (cutoff cmax : R) (plot_line : list ascii) : option (list ascii) :=
  match float_to_int INT_MAX (cutoff * IZR (PLOT_WIDTH - 2) / cmax) with
  | None => None
  | Some cutoff_pos =>
      Some (if ((0 <=? cutoff_pos)%Z && (cutoff_pos <? PLOT_WIDTH)%Z
                && negb (ascii_eqb (nth (Z.to_nat cutoff_pos) plot_line " "%char) "*"))
            then store plot_line (Z.to_nat cutoff_pos) "-"%char
            else plot_line)
  end.

(** Row [i] of the chart as it is printed. *)
Definition chart_row (duration dt cutoff cmax : R) (i : Z) (time_i conc_i : R)
    : option (list ascii) :=
  match end_marker duration dt time_i (time_grid i clear_plot_line) with
  | None => None
  | Some plot_line =>
      match conc_point cmax conc_i plot_line with
      | None => None
      | Some plot_line => cutoff_point cutoff cmax plot_line
      end
  end.

(** The rows of a curve, first to last. *)
Definition chart_rows (duration cutoff : R) (cv : Curve) : list (option (list ascii)) :=
  map (fun row => chart_row duration (cv_tmax cv / 60.0) cutoff (cv_cmax cv)
                    (fst row) (fst (snd row)) (snd (snd row)))
      (combine (indices 61) (combine (cv_time cv) (cv_conc cv))).
End ChartRows.

(** *** The chart of the single-matrix program *)

Module NarcdtcChart.

Record Curve := {
  cv_tmax : R;
  cv_time : list R;
  cv_conc : list R;
  cv_cmax : R;
  (** the time printed in the analysis, when the analysis is printed *)
  cv_final_time : option R
}.

(** [plot_concentration_curve] of NARCDTC.C, without the character rows. *)
Definition plot_concentration_curve (c0 kelim cutoff thalf duration : R) : Curve :=
  let tmax := max_float (8.0 * thalf) (duration * 2.0) in
  let dt := tmax / 60.0 in
  let cmax := c0 in
  let time := map (fun i => IZR i * dt) (indices 61) in
  let conc := map (fun time_i => c0 * exp (- kelim * time_i)) time in
  {| cv_tmax := tmax; cv_time := time; cv_conc := conc; cv_cmax := cmax;
     cv_final_time := if fgt c0 cutoff then Some (ln (c0 / cutoff) / kelim) else None |}.

(** The curve plotted by [calculate_detection_time]. *)
Definition plotted_curve (drug : Z) (duration : R) (c : Narcdtc.Calc) : Curve :=
  plot_concentration_curve (Narcdtc.total_conc c) (Narcdtc.elim_rate c)
    (Narcdtc.cutoff (Narcdtc.drugs drug)) (Narcdtc.res_halflife c) duration.

End NarcdtcChart.

(** *** Name resolution in the single-matrix program *)

Module NarcdtcNames.

(** [str_compare_upper] of NARCDTC.C copies both arguments with [strcpy] into
    buffers of 100 characters: it is defined for strings shorter than that. *)
Definition str_compare_upper (str1 str2 : string) : option Z :=
  if ((String.length str1 <? 100) && (String.length str2 <? 100))%nat
  then Some (strcmp (str_upper str1) (str_upper str2))
  else None.

Fixpoint search_table (input : string) (i : Z) (names : list string) : option Z :=
  match names with
  | [] => Some 0%Z
  | n :: rest =>
      match str_compare_upper input n with
      | None => None
      | Some r => if (r =? 0)%Z then Some i else search_table input (i + 1)%Z rest
      end
  end.

Fixpoint search_alternatives (input : string) (alts : list (string * Z)) : option Z :=
  match alts with
  | [] => Some 0%Z
  | (a, id) :: rest =>
      match str_compare_upper input a with
      | None => None
      | Some r => if (r =? 0)%Z then Some id else search_alternatives input rest
      end
  end.

Definition drug_alternatives : list (string * Z) :=
  [ ("MEPERIDINE"%string, DRUG_PETHIDINE); ("ETHANOL"%string, DRUG_ALCOHOL);
    ("PROPOXYPHENE"%string, DRUG_DEXTROPROPOXYPHENE) ].

Definition route_alternatives : list (string * Z) :=
  [ ("IV"%string, ROUTE_INTRAVENOUS); ("IM"%string, ROUTE_INTRAMUSCULAR);
    ("SC"%string, ROUTE_SUBCUTANEOUS); ("NASAL"%string, ROUTE_INTRANASAL);
    ("INHALED"%string, ROUTE_INHALATION); ("SMOKING"%string, ROUTE_INHALATION);
    ("SL"%string, ROUTE_SUBLINGUAL); ("PATCH"%string, ROUTE_TRANSDERMAL);
    ("PR"%string, ROUTE_RECTAL) ].

(** The value returned by [get_drug_selection] when [fgets] has stored
    [buf]. *)
Definition drug_of_buffer (buf : string) : option Z :=
  let input := prepare_input buf in
  match search_table input 1 (map Narcdtc.name (tl Narcdtc.drugs_table)) with
  | None => None
  | Some i => if (i =? 0)%Z then search_alternatives input drug_alternatives else Some i
  end.

(** The value returned by [get_route_selection] when [fgets] has stored
    [buf]. *)
Definition route_of_buffer (buf : string) : option Z :=
  let input := prepare_input buf in
  match search_table input 1 (map route_name (tl routes_table)) with
  | None => None
  | Some i => if (i =? 0)%Z then search_alternatives input route_alternatives else Some i
  end.

End NarcdtcNames.

(** *** The names under which the dual-matrix program knows a drug or route *)

(** The table names with their indices, then the alternatives, in the order
    in which the selection functions try them. *)
Fixpoint numbered_from (i : Z) (names : list string) : list (string * Z) :=
  match names with
  | [] => []
  | n :: rest => (n, i) :: numbered_from (i + 1)%Z rest
  end.

Definition numbered (names : list string) : list (string * Z) := numbered_from 1 names.

Definition drug_dictionary : list (string * Z) :=
  numbered (map name (tl drugs_table)) ++ drug_alternatives.

Definition route_dictionary : list (string * Z) :=
  numbered (map route_name (tl routes_table)) ++ route_alternatives.

(** A string holds no NUL character. *)
Fixpoint no_nul (s : string) : bool :=
  match s with
  | EmptyString => true
  | String c rest => negb (Ascii.eqb c NUL) && no_nul rest
  end.

(** A table or alias name as the programs spell them: upper case, shorter
    than the comparison buffer, without NUL. *)
Definition well_named (n : string) : bool :=
  (String.eqb (str_upper n) n && (String.length n <? 99)%nat && no_nul n)%bool.

(** The search of a selection function on a prepared input: the table first,
    then the alternatives. *)
Definition resolve (names : list string) (alts : list (string * Z)) (input : string) : Z :=
  let i := search_table input 1 names in
  if (i =? 0)%Z then search_alternatives input alts else i.

Definition dict_mem (e : string * Z) (d : list (string * Z)) : bool :=
  existsb (fun e' => String.eqb (fst e) (fst e') && (snd e =? snd e')%Z)%bool d.

(** The entries of a dictionary resolve to their own identifier, which is
    not 0: a check that runs the search on every key. *)
Definition self_resolving (names : list string) (alts : list (string * Z)) : bool :=
  forallb (fun e => (resolve names alts (fst e) =? snd e)%Z && negb (snd e =? 0)%Z)
          (numbered names ++ alts).

(** The names under which the single-matrix program knows a drug or route. *)
Definition narcdtc_drug_dictionary : list (string * Z) :=
  numbered (map Narcdtc.name (tl Narcdtc.drugs_table)) ++ NarcdtcNames.drug_alternatives.

Definition narcdtc_route_dictionary : list (string * Z) :=
  numbered (map route_name (tl routes_table)) ++ NarcdtcNames.route_alternatives.

(** The ranges in which the route parameters stay. *)
Definition bounded_params (p : RouteParams) : Prop :=
  0 < bioavail p <= 1 /\ 0 < oral_fac p <= 0.08 /\ 0 < absorpt p <= 12.

(** The table entry of a route, as the three locals are initialised. *)
Definition base_params (route : Z) : RouteParams :=
  {| bioavail := bioavailability (routes route);
     oral_fac := oral_factor (routes route);
     absorpt := absorption_rate (routes route) |}.

(** What a printed chart row shows for a sample [conc_i], whatever the
    columns computed for it: the line has [PLOT_WIDTH] characters; the
    cutoff marker, or the curve marker in its place, stands in the left
    half; a sample above 0.001 has its curve marker; and a curve marker is
    never right of column [PLOT_WIDTH - 2] nor drawn for a smaller sample. *)
Definition row_drawn (conc_i : R) (line : list ascii) : Prop :=
  List.length line = Z.to_nat PLOT_WIDTH /\
  (exists cutoff_pos,
     (cutoff_pos <= 58)%nat /\
     (nth cutoff_pos line " "%char = "-"%char \/
      nth cutoff_pos line " "%char = "*"%char)) /\
  (conc_i > 0.001 ->
   exists pos, (pos <= 117)%nat /\ nth pos line " "%char = "*"%char) /\
  (forall j, nth j line " "%char = "*"%char -> (j <= 117)%nat /\ conc_i > 0.001).

(** *** Peak labels *)

(** The label chosen by the chemical-shift region. *)
Definition region_label (shift : R) : string :=
  if fge shift 10.0 then "AROMATIC H"%string
  else if fge shift 7.0 then "AROMATIC/VINYL H"%string
  else if fge shift 4.0 then "O-CH, N-CH"%string
  else if fge shift 2.0 then "CH2, CH3 ALPHA"%string
  else if fge shift 1.0 then "CH2, CH3 BETA"%string
  else "CH3 ALIPHATIC"%string.

(** [get_peak_label]: the string left in [label]. *)
Definition get_peak_label (drug peak_no : Z) (shift : R) : string :=
  let label := region_label shift in
  if (drug =? DRUG_FENTANYL)%Z then
    if (peak_no =? 1)%Z then "PHENYL H"%string
    else if (peak_no =? 2)%Z then "FENTANYL N-CH3"%string
    else if (peak_no =? 3)%Z then "PIPERIDINE H"%string
    else if (peak_no =? 4)%Z then "ETHYL H"%string
    else label
  else if ((DRUG_AMPHETAMINE <=? drug) && (drug <=? DRUG_DEXTROAMPHETAMINE))%Z then
    if (peak_no =? 1)%Z then "PHENYL H"%string
    else if (peak_no =? 2)%Z then "CH2-PHENYL"%string
    else if (peak_no =? 3)%Z then "CH-NH2"%string
    else if (peak_no =? 4)%Z then "CH3 (IF METH)"%string
    else label
  else label.

(** The labels of the peaks that [nmr_plot] lists, in order. *)
Definition peak_labels (drug : Z) (nmr_data : NMRData) : list string :=
  map (fun j => get_peak_label drug (j + 1) (nth (Z.to_nat j) (shifts nmr_data) 0))
      (filter (fun j => let shift := nth (Z.to_nat j) (shifts nmr_data) 0 in
                        fge shift 0.0 && fle shift 12.0)
              (indices (num_peaks nmr_data))).

(* ================================================================= *)
(** ** Predicates used in the statements *)

(** The dose count [(int)(duration / dosing_interval) + 1] is representable:
    the condition under which C defines the calculation. *)
Definition dose_count_fits (INT_MAX : Z) (duration dosing_interval : R) : Prop :=
  (INT_MIN INT_MAX <= Ztrunc (duration / dosing_interval))%Z /\
  (Ztrunc (duration / dosing_interval) + 1 <= INT_MAX)%Z.

Definition positive_params (p : RouteParams) : Prop :=
  0 < bioavail p /\ 0 < oral_fac p /\ 0 < absorpt p.

Definition all_zero (l : list R) : Prop := Forall (fun s => s = 0) l.

Definition no_marker (row : list ascii) : Prop := Forall (fun c => c <> "*"%char) row.

(** A stand-in for [get_input_parameters] where its values do not matter. *)
Definition no_inputs (_ : string) : Inputs :=
  {| in_dosage := 0; in_weight := 0; in_age := 0; in_metab := 0; in_duration := 0 |}.

(* ================================================================= *)
(** * Properties *)

(** ** Numeric helpers *)

Lemma fgt_true (x y : R) : x > y -> fgt x y = true.
Proof. intros H; unfold fgt; destruct (Rgt_dec x y); [reflexivity | contradiction]. Qed.

Lemma fgt_false (x y : R) : x <= y -> fgt x y = false.
Proof. intros H; unfold fgt; destruct (Rgt_dec x y); [lra | reflexivity]. Qed.

Lemma flt_true (x y : R) : x < y -> flt x y = true.
Proof. intros H; unfold flt; destruct (Rlt_dec x y); [reflexivity | contradiction]. Qed.

Lemma flt_false (x y : R) : y <= x -> flt x y = false.
Proof. intros H; unfold flt; destruct (Rlt_dec x y); [lra | reflexivity]. Qed.

Lemma fge_true (x y : R) : x >= y -> fge x y = true.
Proof. intros H; unfold fge; destruct (Rge_dec x y); [reflexivity | contradiction]. Qed.

Lemma fge_false (x y : R) : x < y -> fge x y = false.
Proof. intros H; unfold fge; destruct (Rge_dec x y); [lra | reflexivity]. Qed.

Lemma fle_true (x y : R) : x <= y -> fle x y = true.
Proof. intros H; unfold fle; destruct (Rle_dec x y); [reflexivity | contradiction]. Qed.

Lemma Ztrunc_nonneg (x : R) : 0 <= x -> Ztrunc x = Zfloor x.
Proof. intros H; unfold Ztrunc; destruct (Rle_dec 0 x); [reflexivity | contradiction]. Qed.

Lemma Ztrunc_eq (x : R) (z : Z) : 0 <= x -> IZR z <= x < IZR z + 1 -> Ztrunc x = z.
Proof. intros H0 H; rewrite Ztrunc_nonneg by exact H0; apply Zfloor_eq; exact H. Qed.

Lemma Zfloor_nonneg (x : R) : 0 <= x -> (0 <= Zfloor x)%Z.
Proof. intros H; apply Zfloor_lub; simpl; exact H. Qed.

Lemma c_pow_IZR (x : R) (n : Z) : c_pow x (IZR n) = powerRZ x n.
Proof.
  unfold c_pow; rewrite ZfloorZ.
  destruct (Req_dec_T (IZR n) (IZR n)); [reflexivity | congruence].
Qed.

Lemma powerRZ_to_nat (x : R) (n : Z) : (0 <= n)%Z -> powerRZ x n = x ^ Z.to_nat n.
Proof. intros H; rewrite pow_powerRZ, Z2Nat.id by exact H; reflexivity. Qed.

Lemma float_to_int_some (M : Z) (x : R) (z : Z) :
  float_to_int M x = Some z -> z = Ztrunc x /\ (INT_MIN M <= z <= M)%Z.
Proof.
  unfold float_to_int, in_int; intros H.
  destruct ((INT_MIN M <=? Ztrunc x)%Z && (Ztrunc x <=? M)%Z) eqn:E; [| discriminate].
  injection H as <-. apply andb_true_iff in E; destruct E as [E1 E2].
  apply Z.leb_le in E1, E2. auto.
Qed.

Lemma int_add_some (M a b z : Z) : int_add M a b = Some z -> z = (a + b)%Z.
Proof.
  unfold int_add; intros H; destruct (in_int M (a + b)); [| discriminate].
  injection H as <-; reflexivity.
Qed.

Lemma float_to_int_intro (M : Z) (x : R) (z : Z) :
  Ztrunc x = z -> (INT_MIN M <= z <= M)%Z -> float_to_int M x = Some z.
Proof.
  intros Hz [H1 H2]; unfold float_to_int, in_int; rewrite Hz.
  apply Z.leb_le in H1, H2; rewrite H1, H2; reflexivity.
Qed.

Lemma int_add_intro (M a b : Z) :
  (INT_MIN M <= a + b <= M)%Z -> int_add M a b = Some (a + b)%Z.
Proof.
  intros [H1 H2]; unfold int_add, in_int.
  apply Z.leb_le in H1, H2; rewrite H1, H2; reflexivity.
Qed.

(** The dose count of a defined calculation. *)
Lemma num_doses_spec (M : Z) (duration di : R) (q n : Z) :
  float_to_int M (duration / di) = Some q -> int_add M q 1 = Some n ->
  n = (Ztrunc (duration / di) + 1)%Z.
Proof.
  intros Hq Hn; apply float_to_int_some in Hq; destruct Hq as [-> _].
  apply int_add_some in Hn; exact Hn.
Qed.

(** Inversion of a defined calculation: the dose count and every field. *)
Lemma calculate_inv (M drug route dosage weight age metab : Z) (duration : R) (c : Calc) :
  calculate_detection_time M drug route dosage weight age metab duration = Some c ->
  let d := drugs drug in
  let p := adjust_route_parameters drug route
             {| bioavail := bioavailability (routes route);
                oral_fac := oral_factor (routes route);
                absorpt := absorption_rate (routes route) |} in
  let n := (Ztrunc (duration / dosing_interval d) + 1)%Z in
  let ks := 0.693 / flip_flop (absorpt p) (halflife_saliva d)
            * age_factor_of age * metab_factor_of metab in
  let ku := 0.693 / flip_flop (absorpt p) (halflife_urine d)
            * age_factor_of age * metab_factor_of metab in
  let single := single_conc_of drug dosage weight (oral_fac p) (bioavail p) in
  let rs := 1.0 - exp (- ks * dosing_interval d) in
  let ru := 1.0 - exp (- ku * dosing_interval d) in
  res_params c = p /\ res_num_doses c = n /\
  single_conc_saliva c = single /\ single_conc_urine c = single /\
  elim_rate_saliva c = ks /\ elim_rate_urine c = ku /\
  r_factor_saliva c = rs /\ r_factor_urine c = ru /\
  accumulation_factor_saliva c = accumulation_of rs n /\
  accumulation_factor_urine c = accumulation_of ru n /\
  total_conc_saliva c = single * accumulation_of rs n /\
  total_conc_urine c = single * accumulation_of ru n /\
  steady_conc_saliva c = single / rs /\ steady_conc_urine c = single / ru /\
  buildup_saliva c = buildup_of (single * accumulation_of rs n) (single / rs) /\
  buildup_urine c = buildup_of (single * accumulation_of ru n) (single / ru) /\
  detection_time_saliva c = detection_time_of (total_conc_saliva c) (cutoff_saliva d) ks /\
  detection_time_urine c = detection_time_of (total_conc_urine c) (cutoff_urine d) ku /\
  res_halflife_saliva c = flip_flop (absorpt p) (halflife_saliva d) /\
  (INT_MIN M <= n - 1 <= M)%Z /\ (INT_MIN M <= n <= M)%Z.
Proof.
  unfold calculate_detection_time; intros H.
  destruct (float_to_int M _) as [q |] eqn:Hq; [| discriminate].
  destruct (int_add M q 1) as [n |] eqn:Hn; [| discriminate].
  pose proof (num_doses_spec _ _ _ _ _ Hq Hn) as Hnum.
  apply float_to_int_some in Hq; destruct Hq as [Hq Hqr].
  assert (Hnr : (INT_MIN M <= n <= M)%Z).
  { unfold int_add, in_int in Hn.
    destruct ((INT_MIN M <=? q + 1)%Z && (q + 1 <=? M)%Z) eqn:E; [| discriminate].
    injection Hn as <-. apply andb_true_iff in E; destruct E as [E1 E2].
    apply Z.leb_le in E1, E2; auto. }
  injection H as <-; cbn [res_params res_num_doses single_conc_saliva single_conc_urine
    elim_rate_saliva elim_rate_urine r_factor_saliva r_factor_urine
    accumulation_factor_saliva accumulation_factor_urine total_conc_saliva total_conc_urine
    steady_conc_saliva steady_conc_urine buildup_saliva buildup_urine
    detection_time_saliva detection_time_urine res_halflife_saliva].
  subst n. rewrite <- Hq.
  repeat split; try reflexivity; lia.
Qed.

(** ** The reference tables hold positive constants *)

Lemma valid_index (hi i : Z) :
  (1 <= i <= hi)%Z -> exists k : nat, (k < Z.to_nat hi)%nat /\ Z.to_nat i = S k.
Proof. intros H; exists (Z.to_nat i - 1)%nat; lia. Qed.

Lemma drugs_positive (drug : Z) :
  (1 <= drug <= NUM_DRUGS)%Z ->
  0 < halflife_saliva (drugs drug) /\ 0 < halflife_urine (drugs drug) /\
  0 < cutoff_saliva (drugs drug) /\ 0 < cutoff_urine (drugs drug) /\
  0 < dosing_interval (drugs drug).
Proof.
  intros H; destruct (valid_index _ _ H) as [k [Hk E]].
  unfold drugs; rewrite E; clear E H.
  change (Z.to_nat NUM_DRUGS) with 24%nat in Hk.
  do 24 (destruct k as [| k];
         [cbn [nth drugs_table mk_drug halflife_saliva halflife_urine cutoff_saliva
               cutoff_urine dosing_interval]; repeat split; lra |]).
  lia.
Qed.

Lemma routes_positive (route : Z) :
  (1 <= route <= NUM_ROUTES)%Z ->
  0 < bioavailability (routes route) /\ 0 < absorption_rate (routes route) /\
  0 < oral_factor (routes route).
Proof.
  intros H; destruct (valid_index _ _ H) as [k [Hk E]].
  unfold routes; rewrite E; clear E H.
  change (Z.to_nat NUM_ROUTES) with 11%nat in Hk.
  do 11 (destruct k as [| k];
         [cbn [nth routes_table bioavailability absorption_rate oral_factor];
          repeat split; lra |]).
  lia.
Qed.

Lemma narcdtc_drugs_positive (drug : Z) :
  (1 <= drug <= Narcdtc.NUM_DRUGS)%Z ->
  0 < Narcdtc.halflife (Narcdtc.drugs drug) /\ 0 < Narcdtc.cutoff (Narcdtc.drugs drug) /\
  0 < Narcdtc.dosing_interval (Narcdtc.drugs drug).
Proof.
  intros H; destruct (valid_index _ _ H) as [k [Hk E]].
  unfold Narcdtc.drugs; rewrite E; clear E H.
  change (Z.to_nat Narcdtc.NUM_DRUGS) with 23%nat in Hk.
  do 23 (destruct k as [| k];
         [cbn [nth Narcdtc.drugs_table Narcdtc.halflife Narcdtc.cutoff
               Narcdtc.dosing_interval]; repeat split; lra |]).
  lia.
Qed.

Lemma age_factor_pos (age : Z) : 0 < age_factor_of age.
Proof.
  unfold age_factor_of.
  destruct (age <? 35)%Z; [lra |]. destruct (age <? 50)%Z; [lra |].
  destruct (age <? 65)%Z; lra.
Qed.

Lemma metab_factor_pos (metab : Z) : 0 < metab_factor_of metab.
Proof.
  unfold metab_factor_of.
  destruct (metab =? 1)%Z; [lra |]. destruct (metab =? 2)%Z; lra.
Qed.

Lemma flip_flop_pos (a h : R) : 0 < h -> 0 < flip_flop a h.
Proof.
  intros Hh; unfold flip_flop, fgt.
  destruct (Rgt_dec a (h * 0.693)) as [Ha |]; [| exact Hh].
  apply Rmult_lt_0_compat; [exact Hh |].
  assert (0 < a / (h * 0.693)).
  { apply Rdiv_lt_0_compat; lra. }
  lra.
Qed.

Lemma elim_rate_pos (a h : R) (age metab : Z) :
  0 < h -> 0 < 0.693 / flip_flop a h * age_factor_of age * metab_factor_of metab.
Proof.
  intros Hh.
  pose proof (flip_flop_pos a h Hh). pose proof (age_factor_pos age).
  pose proof (metab_factor_pos metab).
  apply Rmult_lt_0_compat; [apply Rmult_lt_0_compat |]; try assumption.
  apply Rdiv_lt_0_compat; lra.
Qed.

(** ** The detection-time solver *)

Lemma detection_time_of_below (total cutoff k : R) :
  total <= cutoff -> detection_time_of total cutoff k = 0.
Proof. intros H; unfold detection_time_of; rewrite fgt_false by exact H; lra. Qed.

Lemma detection_time_of_above (total cutoff k : R) :
  total > cutoff -> detection_time_of total cutoff k = ln (total / cutoff) / k.
Proof. intros H; unfold detection_time_of; rewrite fgt_true by exact H; reflexivity. Qed.

Lemma detection_time_of_nonneg (total cutoff k : R) :
  0 < cutoff -> 0 < k -> 0 <= detection_time_of total cutoff k.
Proof.
  intros Hc Hk; unfold detection_time_of, fgt.
  destruct (Rgt_dec total cutoff) as [Hgt |]; [| lra].
  apply Rlt_le, Rdiv_lt_0_compat; [| exact Hk].
  rewrite <- ln_1; apply ln_increasing; [lra |].
  apply (Rmult_lt_reg_r cutoff); [exact Hc |].
  unfold Rdiv; rewrite Rmult_assoc, Rinv_l by lra; lra.
Qed.

(** A calculation is defined as soon as the dose count fits an [int]. *)
Lemma calculate_defined (M drug route dosage weight age metab : Z) (duration : R) :
  dose_count_fits M duration (dosing_interval (drugs drug)) ->
  exists c, calculate_detection_time M drug route dosage weight age metab duration = Some c.
Proof.
  intros [H1 H2]; unfold calculate_detection_time.
  rewrite (float_to_int_intro M _ _ eq_refl) by lia.
  rewrite int_add_intro by lia. eexists; reflexivity.
Qed.

Lemma narcdtc_calculate_defined
    (M drug route dosage weight age metab : Z) (duration : R) :
  dose_count_fits M duration (Narcdtc.dosing_interval (Narcdtc.drugs drug)) ->
  exists c,
    Narcdtc.calculate_detection_time M drug route dosage weight age metab duration = Some c.
Proof.
  intros [H1 H2]; unfold Narcdtc.calculate_detection_time.
  rewrite (float_to_int_intro M _ _ eq_refl) by lia.
  rewrite int_add_intro by lia. eexists; reflexivity.
Qed.

(** Conversely, a defined calculation has a dose count that fits. *)
Lemma calculate_some_fits (M drug route dosage weight age metab : Z) (duration : R) (c : Calc) :
  calculate_detection_time M drug route dosage weight age metab duration = Some c ->
  dose_count_fits M duration (dosing_interval (drugs drug)).
Proof.
  intros H; pose proof (calculate_inv _ _ _ _ _ _ _ _ _ H) as I; cbv zeta in I.
  unfold dose_count_fits.
  do 19 (destruct I as [_ I]).
  lia.
Qed.

(** A dose count between 0 and 25 fits every [int] of at least 16 bits. *)
Lemma small_dose_count_fits (M : Z) (duration di : R) :
  (32767 <= M)%Z -> 0 <= duration / di <= 25 -> dose_count_fits M duration di.
Proof.
  intros HM [H0 H25]; unfold dose_count_fits.
  rewrite Ztrunc_nonneg by exact H0.
  pose proof (Zfloor_nonneg _ H0).
  assert (Zfloor (duration / di) <= Zfloor 25)%Z by (apply Zfloor_le; exact H25).
  rewrite (ZfloorZ 25) in H1. unfold INT_MIN; lia.
Qed.

(** C1.  In the dual-matrix program, for every drug and route of the tables
    and every input with a positive weight whose dose count is representable,
    the calculation returns a result in which the saliva and the urine
    detection times are 0 when the total accumulated concentration is at most
    the cutoff, and ln(total / cutoff) / eliminationRate otherwise; they are
    never negative.  The single-matrix program NARCDTC.C computes its one
    detection time in the same way. *)
Theorem detection_time_solver
    (M drug route dosage weight age metab : Z) (duration : R) :
  (1 <= route <= NUM_ROUTES)%Z -> (0 < weight)%Z ->
  ((1 <= drug <= NUM_DRUGS)%Z ->
   dose_count_fits M duration (dosing_interval (drugs drug)) ->
   exists c,
     calculate_detection_time M drug route dosage weight age metab duration = Some c /\
     (total_conc_saliva c <= cutoff_saliva (drugs drug) -> detection_time_saliva c = 0) /\
     (total_conc_saliva c > cutoff_saliva (drugs drug) ->
      detection_time_saliva c
      = ln (total_conc_saliva c / cutoff_saliva (drugs drug)) / elim_rate_saliva c) /\
     (total_conc_urine c <= cutoff_urine (drugs drug) -> detection_time_urine c = 0) /\
     (total_conc_urine c > cutoff_urine (drugs drug) ->
      detection_time_urine c
      = ln (total_conc_urine c / cutoff_urine (drugs drug)) / elim_rate_urine c) /\
     0 <= detection_time_saliva c /\ 0 <= detection_time_urine c) /\
  ((1 <= drug <= Narcdtc.NUM_DRUGS)%Z ->
   dose_count_fits M duration (Narcdtc.dosing_interval (Narcdtc.drugs drug)) ->
   exists c,
     Narcdtc.calculate_detection_time M drug route dosage weight age metab duration
     = Some c /\
     (Narcdtc.total_conc c <= Narcdtc.cutoff (Narcdtc.drugs drug) ->
      Narcdtc.detection_time c = 0) /\
     (Narcdtc.total_conc c > Narcdtc.cutoff (Narcdtc.drugs drug) ->
      Narcdtc.detection_time c
      = ln (Narcdtc.total_conc c / Narcdtc.cutoff (Narcdtc.drugs drug))
        / Narcdtc.elim_rate c) /\
     0 <= Narcdtc.detection_time c).
Proof.
  intros _ _; split; intros Hdrug Hfit.
  - destruct (calculate_defined M drug route dosage weight age metab duration Hfit)
      as [c Hc].
    exists c; split; [exact Hc |].
    pose proof (calculate_inv _ _ _ _ _ _ _ _ _ Hc) as I; cbv zeta in I.
    destruct I as (_ & _ & _ & _ & Eks & Eku & _ & _ & _ & _ & _ & _ & _ & _ & _ & _
                   & Eds & Edu & _).
    rewrite Eds, Edu, Eks, Eku.
    destruct (drugs_positive drug Hdrug) as (Hs & Hu & Hcs & Hcu & _).
    repeat split.
    + apply detection_time_of_below.
    + apply detection_time_of_above.
    + apply detection_time_of_below.
    + apply detection_time_of_above.
    + apply detection_time_of_nonneg; [exact Hcs | apply elim_rate_pos; exact Hs].
    + apply detection_time_of_nonneg; [exact Hcu | apply elim_rate_pos; exact Hu].
  - destruct (narcdtc_calculate_defined M drug route dosage weight age metab duration Hfit)
      as [c Hc].
    exists c; split; [exact Hc |].
    unfold Narcdtc.calculate_detection_time in Hc.
    destruct (float_to_int M _) as [q |]; [| discriminate].
    destruct (int_add M q 1) as [n |]; [| discriminate].
    injection Hc as <-;
      cbn [Narcdtc.total_conc Narcdtc.detection_time Narcdtc.elim_rate].
    destruct (narcdtc_drugs_positive drug Hdrug) as (Hh & Hcut & _).
    repeat split.
    + apply detection_time_of_below.
    + apply detection_time_of_above.
    + apply detection_time_of_nonneg; [exact Hcut | apply elim_rate_pos; exact Hh].
Qed.

(** Morphine has a dosing interval of 4 hours in both tables: durations of up
    to 100 hours give a dose count that fits 16 bits. *)
Lemma morphine_fits (d : R) :
  0 <= d <= 100 -> dose_count_fits 32767 d (dosing_interval (drugs 8)).
Proof.
  intros Hd; apply small_dose_count_fits; [lia |].
  change (dosing_interval (drugs 8)) with 4.0; lra.
Qed.

Lemma narcdtc_morphine_fits :
  dose_count_fits 32767 48 (Narcdtc.dosing_interval (Narcdtc.drugs 8)).
Proof.
  apply small_dose_count_fits; [lia |].
  change (Narcdtc.dosing_interval (Narcdtc.drugs 8)) with 4.0; lra.
Qed.

Lemma detection_time_solver_witness :
  (exists c,
     calculate_detection_time 32767 8 2 1000 76 28 3 48 = Some c /\
     0 <= detection_time_saliva c /\ 0 <= detection_time_urine c) /\
  (exists c,
     Narcdtc.calculate_detection_time 32767 8 2 1000 76 28 3 48 = Some c /\
     0 <= Narcdtc.detection_time c).
Proof.
  assert (R48 : 0 <= 48 <= 100) by lra.
  assert (Vr : (1 <= 2 <= NUM_ROUTES)%Z) by (unfold NUM_ROUTES; lia).
  assert (Vw : (0 < 76)%Z) by lia.
  assert (V1 : (1 <= 8 <= NUM_DRUGS)%Z) by (unfold NUM_DRUGS; lia).
  assert (V2 : (1 <= 8 <= Narcdtc.NUM_DRUGS)%Z) by (unfold Narcdtc.NUM_DRUGS; lia).
  destruct (detection_time_solver 32767 8 2 1000 76 28 3 48 Vr Vw) as [T1 T2].
  destruct (T1 V1 (morphine_fits 48 R48)) as (c & Hc & _ & _ & _ & _ & N1).
  destruct (T2 V2 narcdtc_morphine_fits) as (c' & Hc' & _ & _ & N2).
  split.
  - exists c. split; [exact Hc | exact N1].
  - exists c'. split; [exact Hc' | exact N2].
Defined.

(** ** The accumulation engine *)

Lemma accumulation_of_degenerate (r : R) (n : Z) :
  Rabs (r - 1) < 0.001 -> accumulation_of r n = IZR n.
Proof.
  intros H; unfold accumulation_of.
  replace 1.0 with 1 by lra.
  rewrite flt_true; [reflexivity | exact H].
Qed.

Lemma accumulation_of_series (r : R) (n : Z) :
  ~ Rabs (r - 1) < 0.001 -> (0 <= n)%Z ->
  accumulation_of r n = (1 - r ^ Z.to_nat n) / (1 - r).
Proof.
  intros H Hn; unfold accumulation_of.
  replace 1.0 with 1 by lra.
  rewrite flt_false by lra.
  rewrite c_pow_IZR, powerRZ_to_nat by exact Hn.
  reflexivity.
Qed.

Lemma num_doses_floor (duration di : R) :
  0 <= duration -> 0 < di ->
  (Ztrunc (duration / di) + 1)%Z = (Zfloor (duration / di) + 1)%Z /\
  (1 <= Ztrunc (duration / di) + 1)%Z.
Proof.
  intros Hd Hdi.
  assert (0 <= duration / di) by (apply Rle_mult_inv_pos; assumption).
  rewrite Ztrunc_nonneg by assumption.
  split; [reflexivity |]. pose proof (Zfloor_nonneg _ H); lia.
Qed.




(** ** The dose-response calculator *)

(** C3.  For a drug and a route of the tables, weight > 0 and a representable
    dose count, the calculation returns a result whose single-dose
    concentration is dosage * oralFactor *
    bioavailability / weight (the route-adjusted factors) for every drug
    other than fentanyl and alcohol; for fentanyl the dosage is replaced by
    the constant 1000, so that any other dosage gives the same concentration;
    for alcohol the generic value is multiplied by 0.5.  The urine value is
    the saliva value. *)
Theorem dose_response
    (M drug route dosage weight age metab : Z) (duration : R) :
  (1 <= drug <= NUM_DRUGS)%Z -> (1 <= route <= NUM_ROUTES)%Z ->
  dose_count_fits M duration (dosing_interval (drugs drug)) ->
  (0 < weight)%Z ->
  exists c,
    calculate_detection_time M drug route dosage weight age metab duration = Some c /\
    let p := res_params c in
    p = adjust_route_parameters drug route
          {| bioavail := bioavailability (routes route);
             oral_fac := oral_factor (routes route);
             absorpt := absorption_rate (routes route) |} /\
    (drug <> DRUG_FENTANYL -> drug <> DRUG_ALCOHOL ->
     single_conc_saliva c = IZR dosage * oral_fac p * bioavail p / IZR weight) /\
    (drug = DRUG_FENTANYL ->
     single_conc_saliva c = 1000 * oral_fac p * bioavail p / IZR weight /\
     forall dosage',
     exists c',
       calculate_detection_time M drug route dosage' weight age metab duration = Some c' /\
       single_conc_saliva c' = single_conc_saliva c) /\
    (drug = DRUG_ALCOHOL ->
     single_conc_saliva c = (IZR dosage * oral_fac p * bioavail p / IZR weight) * 0.5) /\
    single_conc_urine c = single_conc_saliva c.
Proof.
  intros _ _ Hfit Hw.
  destruct (calculate_defined M drug route dosage weight age metab duration Hfit)
    as [c Hc].
  exists c; split; [exact Hc |]. intros p.
  pose proof (calculate_inv _ _ _ _ _ _ _ _ _ Hc) as I; cbv zeta in I.
  destruct I as (Ep & _ & Ess & Esu & _).
  subst p; rewrite Ess, Esu, Ep.
  split; [reflexivity |].
  unfold single_conc_of, fentanyl_dose_constant.
  repeat split.
  - intros Hf Ha.
    apply Z.eqb_neq in Hf, Ha; rewrite Hf, Ha; reflexivity.
  - subst drug; rewrite Z.eqb_refl.
    replace (1.0 * 1000.0) with 1000 by lra; reflexivity.
  - intros dosage'.
    destruct (calculate_defined M drug route dosage' weight age metab duration Hfit)
      as [c' Hc'].
    exists c'; split; [exact Hc' |].
    pose proof (calculate_inv _ _ _ _ _ _ _ _ _ Hc') as I'; cbv zeta in I'.
    destruct I' as (_ & _ & Ess' & _).
    rewrite Ess'. unfold single_conc_of. subst drug; rewrite Z.eqb_refl. reflexivity.
  - intros ->. change (DRUG_ALCOHOL =? DRUG_FENTANYL)%Z with false.
    rewrite Z.eqb_refl. generalize 0.5; intros h. unfold Rdiv; ring.
Qed.

(** Fentanyl has a dosing interval of 4 hours: 48 hours give 13 doses. *)
Lemma fentanyl_fits : dose_count_fits 32767 48 (dosing_interval (drugs DRUG_FENTANYL)).
Proof.
  apply small_dose_count_fits; [lia |].
  change (dosing_interval (drugs DRUG_FENTANYL)) with 4.0; lra.
Qed.

Lemma dose_response_witness :
  exists c c',
    calculate_detection_time 32767 DRUG_FENTANYL ROUTE_TRANSDERMAL 5 76 28 3 48 = Some c /\
    calculate_detection_time 32767 DRUG_FENTANYL ROUTE_TRANSDERMAL 900 76 28 3 48
    = Some c' /\
    single_conc_saliva c' = single_conc_saliva c.
Proof.
  assert (Hw : (0 < 76)%Z) by lia.
  assert (Vd : (1 <= DRUG_FENTANYL <= NUM_DRUGS)%Z)
    by (unfold DRUG_FENTANYL, NUM_DRUGS; lia).
  assert (Vr : (1 <= ROUTE_TRANSDERMAL <= NUM_ROUTES)%Z)
    by (unfold ROUTE_TRANSDERMAL, NUM_ROUTES; lia).
  destruct (dose_response 32767 DRUG_FENTANYL ROUTE_TRANSDERMAL 5 76 28 3 48
              Vd Vr fentanyl_fits Hw) as (c & Hc & _ & _ & F & _).
  destruct (F eq_refl) as [_ Indep].
  destruct (Indep 900%Z) as (c' & Hc' & E).
  exists c, c'. split; [exact Hc |]. split; [exact Hc' | exact E].
Defined.

(** ** The readable form of a detection time *)

Lemma split_seconds_spec (s : Z) :
  (0 <= s)%Z ->
  let rd := split_seconds s in
  (rd_days rd * 86400 + rd_hours rd * 3600 + rd_minutes rd * 60 + rd_seconds rd = s)%Z /\
  (0 <= rd_days rd)%Z /\ (0 <= rd_hours rd <= 23)%Z /\
  (0 <= rd_minutes rd <= 59)%Z /\ (0 <= rd_seconds rd <= 59)%Z.
Proof.
  intros Hs; unfold split_seconds;
    cbn [rd_days rd_hours rd_minutes rd_seconds rd_total].
  assert (Hh : (s ÷ 3600 = s / 3600)%Z) by (apply Z.quot_div_nonneg; lia).
  rewrite Hh.
  assert (H0 : (0 <= s / 3600)%Z) by (apply Z.div_pos; lia).
  assert (H1 : (0 <= s - s / 3600 * 3600)%Z)
    by (pose proof (Z.mul_div_le s 3600); lia).
  rewrite (Z.quot_div_nonneg (s - s / 3600 * 3600) 60) by lia.
  rewrite (Z.quot_div_nonneg (s / 3600) 24) by lia.
  Z.to_euclidean_division_equations; lia.
Qed.

(** No intermediate value of the decomposition leaves the range of the
    second count. *)
Lemma split_seconds_no_overflow (s : Z) :
  (0 <= s)%Z ->
  (0 <= (s ÷ 3600) * 3600 <= s)%Z /\
  (0 <= ((s - (s ÷ 3600) * 3600) ÷ 60) * 60 <= s)%Z /\
  (0 <= ((s ÷ 3600) ÷ 24) * 24 <= s)%Z.
Proof.
  intros Hs.
  assert (Hh : (s ÷ 3600 = s / 3600)%Z) by (apply Z.quot_div_nonneg; lia).
  rewrite Hh.
  assert (H1 : (0 <= s - s / 3600 * 3600)%Z)
    by (pose proof (Z.mul_div_le s 3600); lia).
  assert (H0 : (0 <= s / 3600)%Z) by (apply Z.div_pos; lia).
  rewrite (Z.quot_div_nonneg (s - s / 3600 * 3600) 60) by lia.
  rewrite (Z.quot_div_nonneg (s / 3600) 24) by lia.
  Z.to_euclidean_division_equations; lia.
Qed.

(** C8.  For every non-negative detection time whose second count
    (int)(detectionTime * 3600) is representable, the conversion returns that
    count together with days, hours, minutes and seconds that recombine to
    it, d*86400 + h*3600 + m*60 + s, with hours in 0..23 and minutes and
    seconds in 0..59. *)
Theorem readable_round_trip (M : Z) (detection_time : R) :
  0 <= detection_time -> detection_time * 3600 < IZR M + 1 ->
  exists rd,
    readable M detection_time = Some rd /\
    rd_total rd = Ztrunc (detection_time * 3600) /\
    (0 <= rd_total rd)%Z /\
    (rd_days rd * 86400 + rd_hours rd * 3600 + rd_minutes rd * 60 + rd_seconds rd
     = rd_total rd)%Z /\
    (0 <= rd_days rd)%Z /\ (0 <= rd_hours rd <= 23)%Z /\
    (0 <= rd_minutes rd <= 59)%Z /\ (0 <= rd_seconds rd <= 59)%Z.
Proof.
  intros Hd Hfit.
  assert (H0 : 0 <= detection_time * 3600) by nra.
  set (s := Ztrunc (detection_time * 3600)).
  assert (Hpos : (0 <= s)%Z).
  { subst s; rewrite Ztrunc_nonneg by exact H0. apply Zfloor_nonneg; exact H0. }
  assert (Hle : (s <= M)%Z).
  { subst s; rewrite Ztrunc_nonneg by exact H0.
    pose proof (Zfloor_bound (detection_time * 3600)) as [Hb _].
    apply Z.lt_succ_r, lt_IZR. rewrite succ_IZR. lra. }
  exists (split_seconds s).
  split.
  - unfold readable.
    replace (detection_time * 3600.0) with (detection_time * 3600) by lra.
    rewrite (float_to_int_intro M _ s eq_refl); [reflexivity |].
    unfold INT_MIN; lia.
  - split; [reflexivity |]. split; [exact Hpos |].
    exact (split_seconds_spec s Hpos).
Qed.

Lemma readable_round_trip_witness :
  exists rd,
    readable 32767 2.5 = Some rd /\
    (rd_days rd * 86400 + rd_hours rd * 3600 + rd_minutes rd * 60 + rd_seconds rd
     = rd_total rd)%Z /\
    (0 <= rd_hours rd <= 23)%Z /\ (0 <= rd_minutes rd <= 59)%Z /\
    (0 <= rd_seconds rd <= 59)%Z.
Proof.
  assert (Hd : 0 <= 2.5) by lra.
  assert (Hfit : 2.5 * 3600 < IZR 32767 + 1) by lra.
  destruct (readable_round_trip 32767 2.5 Hd Hfit)
    as (rd & Hr & _ & _ & Hsum & _ & Hh & Hm & Hsec).
  exists rd. split; [exact Hr |]. split; [exact Hsum |].
  split; [exact Hh |]. split; [exact Hm | exact Hsec].
Defined.

(** ** Positivity of the route-adjusted parameters *)

Ltac adjust_cases :=
  repeat match goal with
         | |- context [if ?b then _ else _] => destruct b
         end;
  unfold set_bioavail, set_oral_fac, set_absorpt; cbn [bioavail oral_fac absorpt];
  repeat split; try assumption; try lra; try nra.

Lemma adjust_route_with_positive (o : bool) (drug route : Z) (p : RouteParams) :
  positive_params p -> positive_params (adjust_route_with o drug route p).
Proof.
  unfold adjust_route_with; intros H.
  assert (A1 : positive_params (adjust_alcohol drug route p)).
  { destruct H as (? & ? & ?); unfold positive_params, adjust_alcohol; adjust_cases. }
  assert (A2 : positive_params (adjust_fentanyl drug route (adjust_alcohol drug route p))).
  { revert A1; generalize (adjust_alcohol drug route p); intros q (? & ? & ?).
    unfold positive_params, adjust_fentanyl; adjust_cases. }
  revert A2; generalize (adjust_fentanyl drug route (adjust_alcohol drug route p)).
  clear; intros q A.
  assert (A3 : positive_params (adjust_stimulants drug route q)).
  { destruct A as (? & ? & ?); unfold positive_params, adjust_stimulants; adjust_cases. }
  revert A3; generalize (adjust_stimulants drug route q); clear; intros q A.
  assert (A4 : positive_params (adjust_opioids o route q)).
  { destruct A as (? & ? & ?); unfold positive_params, adjust_opioids; adjust_cases. }
  revert A4; generalize (adjust_opioids o route q); clear; intros q A.
  assert (A5 : positive_params (adjust_psychedelics drug route q)).
  { destruct A as (? & ? & ?); unfold positive_params, adjust_psychedelics; adjust_cases. }
  revert A5; generalize (adjust_psychedelics drug route q); clear; intros q A.
  assert (A6 : positive_params (adjust_benzodiazepines drug route q)).
  { destruct A as (? & ? & ?); unfold positive_params, adjust_benzodiazepines; adjust_cases. }
  revert A6; generalize (adjust_benzodiazepines drug route q); clear; intros q A.
  assert (A7 : positive_params (adjust_ketamine drug route q)).
  { destruct A as (? & ? & ?); unfold positive_params, adjust_ketamine; adjust_cases. }
  revert A7; generalize (adjust_ketamine drug route q); clear; intros q A.
  assert (A8 : positive_params (adjust_ghb drug route q)).
  { destruct A as (? & ? & ?); unfold positive_params, adjust_ghb; adjust_cases. }
  revert A8; generalize (adjust_ghb drug route q); clear; intros q A.
  destruct A as (? & ? & ?); unfold positive_params, adjust_topical; adjust_cases.
Qed.

Lemma adjusted_positive (drug route : Z) :
  (1 <= route <= NUM_ROUTES)%Z ->
  positive_params
    (adjust_route_parameters drug route
       {| bioavail := bioavailability (routes route);
          oral_fac := oral_factor (routes route);
          absorpt := absorption_rate (routes route) |}).
Proof.
  intros H; unfold adjust_route_parameters; apply adjust_route_with_positive.
  destruct (routes_positive route H) as (? & ? & ?).
  unfold positive_params; cbn [bioavail oral_fac absorpt]; auto.
Qed.

Lemma single_conc_of_nonneg (drug dosage weight : Z) (o b : R) :
  (0 <= dosage)%Z -> (0 < weight)%Z -> 0 < o -> 0 < b ->
  0 <= single_conc_of drug dosage weight o b.
Proof.
  intros Hd Hw Ho Hb.
  assert (0 <= IZR dosage) by (apply IZR_le in Hd; exact Hd).
  assert (0 < IZR weight) by (apply IZR_lt in Hw; exact Hw).
  assert (0 < / IZR weight) by (apply Rinv_0_lt_compat; assumption).
  assert (0 < o * b) by (apply Rmult_lt_0_compat; assumption).
  unfold single_conc_of, fentanyl_dose_constant, Rdiv.
  destruct (drug =? DRUG_FENTANYL)%Z; [| destruct (drug =? DRUG_ALCOHOL)%Z].
  - replace (1.0 * 1000.0 * o * b) with (1000 * (o * b)) by lra. nra.
  - replace (IZR dosage * o * b * 0.5) with (IZR dosage * (o * b) * 0.5) by lra.
    assert (0 <= IZR dosage * (o * b)) by nra. nra.
  - replace (IZR dosage * o * b) with (IZR dosage * (o * b)) by lra.
    assert (0 <= IZR dosage * (o * b)) by nra. nra.
Qed.

Lemma single_conc_of_pos (drug dosage weight : Z) (o b : R) :
  (0 < dosage)%Z -> (0 < weight)%Z -> 0 < o -> 0 < b ->
  0 < single_conc_of drug dosage weight o b.
Proof.
  intros Hd Hw Ho Hb.
  assert (0 < IZR dosage) by (apply IZR_lt in Hd; exact Hd).
  assert (0 < IZR weight) by (apply IZR_lt in Hw; exact Hw).
  assert (0 < / IZR weight) by (apply Rinv_0_lt_compat; assumption).
  assert (0 < o * b) by (apply Rmult_lt_0_compat; assumption).
  unfold single_conc_of, fentanyl_dose_constant, Rdiv.
  destruct (drug =? DRUG_FENTANYL)%Z; [| destruct (drug =? DRUG_ALCOHOL)%Z].
  - replace (1.0 * 1000.0 * o * b) with (1000 * (o * b)) by lra. nra.
  - replace (IZR dosage * o * b * 0.5) with (IZR dosage * (o * b) * 0.5) by lra.
    assert (0 < IZR dosage * (o * b)) by nra. nra.
  - replace (IZR dosage * o * b) with (IZR dosage * (o * b)) by lra.
    assert (0 < IZR dosage * (o * b)) by nra. nra.
Qed.

(** ** The fraction eliminated per interval and the geometric sum *)

Lemma r_factor_range (k di : R) : 0 < k -> 0 < di -> 0 < 1.0 - exp (- k * di) < 1.
Proof.
  intros Hk Hdi.
  assert (Hneg : - k * di < 0) by nra.
  pose proof (exp_pos (- k * di)).
  pose proof (exp_increasing _ _ Hneg) as Hlt; rewrite exp_0 in Hlt.
  lra.
Qed.

Lemma pow_le_one (r : R) (n : nat) : 0 <= r <= 1 -> 0 <= r ^ n <= 1.
Proof.
  intros Hr; induction n as [| n IH]; simpl; [lra | nra].
Qed.

Lemma pow_antitone (r : R) (n m : nat) : 0 <= r <= 1 -> (n <= m)%nat -> r ^ m <= r ^ n.
Proof.
  intros Hr Hnm.
  replace m with (n + (m - n))%nat by lia.
  rewrite pow_add.
  pose proof (pow_le_one r n Hr). pose proof (pow_le_one r (m - n) Hr). nra.
Qed.

Lemma accumulation_of_monotone (r : R) (n m : Z) :
  0 < r < 1 -> (0 <= n <= m)%Z -> accumulation_of r n <= accumulation_of r m.
Proof.
  intros Hr Hnm.
  destruct (Rlt_dec (Rabs (r - 1)) 0.001) as [Hd | Hd].
  - rewrite !accumulation_of_degenerate by exact Hd. apply IZR_le; lia.
  - rewrite !accumulation_of_series by (exact Hd || lia).
    assert (Hp : r ^ Z.to_nat m <= r ^ Z.to_nat n)
      by (apply pow_antitone; [lra | lia]).
    assert (0 < / (1 - r)) by (apply Rinv_0_lt_compat; lra).
    unfold Rdiv; nra.
Qed.

Lemma accumulation_of_nonneg (r : R) (n : Z) :
  0 < r < 1 -> (1 <= n)%Z -> 0 <= accumulation_of r n.
Proof.
  intros Hr Hn.
  destruct (Rlt_dec (Rabs (r - 1)) 0.001) as [Hd | Hd].
  - rewrite accumulation_of_degenerate by exact Hd.
    apply IZR_le with (n := 0%Z); lia.
  - rewrite accumulation_of_series by (exact Hd || lia).
    assert (Hp : 0 <= r ^ Z.to_nat n <= 1) by (apply pow_le_one; lra).
    assert (0 < / (1 - r)) by (apply Rinv_0_lt_compat; lra).
    unfold Rdiv; nra.
Qed.

Lemma num_doses_monotone (d1 d2 di : R) :
  0 <= d1 <= d2 -> 0 < di ->
  (1 <= Ztrunc (d1 / di) + 1 <= Ztrunc (d2 / di) + 1)%Z.
Proof.
  intros Hd Hdi.
  assert (Hi : 0 < / di) by (apply Rinv_0_lt_compat; exact Hdi).
  assert (H1 : 0 <= d1 / di) by (unfold Rdiv; nra).
  assert (H2 : d1 / di <= d2 / di) by (unfold Rdiv; nra).
  rewrite !Ztrunc_nonneg by lra.
  pose proof (Zfloor_nonneg _ H1). pose proof (Zfloor_le _ _ H2). lia.
Qed.

Lemma buildup_of_range (total steady : R) :
  0 <= total -> 0 < steady ->
  buildup_of total steady = Rmin (total / steady * 100) 100 /\
  0 <= buildup_of total steady <= 100.
Proof.
  intros Ht Hs.
  assert (0 < / steady) by (apply Rinv_0_lt_compat; exact Hs).
  assert (Hq : 0 <= total / steady) by (unfold Rdiv; nra).
  unfold buildup_of, fgt.
  replace 100.0 with 100 by lra.
  destruct (Rgt_dec (total / steady * 100) 100) as [Hgt | Hle].
  - rewrite Rmin_right by lra. lra.
  - rewrite Rmin_left by lra. lra.
Qed.

(** C4.  For every valid input (a drug and a route of the tables, positive
    dosage and weight, non-negative duration) whose dose count is
    representable, the calculation returns a result whose buildup percentage
    is (totalConc / steadyStateConc) * 100 clamped from above at 100, and
    lies in [0, 100]; the lower bound follows from the non-negativity of the
    concentrations.  This holds for both matrices. *)
Theorem buildup_percent_range
    (M drug route dosage weight age metab : Z) (duration : R) :
  (1 <= drug <= NUM_DRUGS)%Z -> (1 <= route <= NUM_ROUTES)%Z ->
  (0 < dosage)%Z -> (0 < weight)%Z -> 0 <= duration ->
  dose_count_fits M duration (dosing_interval (drugs drug)) ->
  exists c,
    calculate_detection_time M drug route dosage weight age metab duration = Some c /\
    (buildup_saliva c = Rmin (total_conc_saliva c / steady_conc_saliva c * 100) 100 /\
     0 <= buildup_saliva c <= 100) /\
    (buildup_urine c = Rmin (total_conc_urine c / steady_conc_urine c * 100) 100 /\
     0 <= buildup_urine c <= 100) /\
    0 <= total_conc_saliva c /\ 0 < steady_conc_saliva c /\
    0 <= total_conc_urine c /\ 0 < steady_conc_urine c.
Proof.
  intros Hdrug Hroute Hdos Hw Hdur Hfit.
  destruct (calculate_defined M drug route dosage weight age metab duration Hfit)
    as [c Hc].
  exists c; split; [exact Hc |].
  pose proof (calculate_inv _ _ _ _ _ _ _ _ _ Hc) as I; cbv zeta in I.
  destruct I as (_ & _ & _ & _ & _ & _ & _ & _ & _ & _ & Ets & Etu & Ess & Esu
                 & Ebs & Ebu & _).
  destruct (drugs_positive drug Hdrug) as (Hhs & Hhu & _ & _ & Hdi).
  destruct (adjusted_positive drug route Hroute) as (Hb & Ho & Ha).
  set (p := adjust_route_parameters drug route _) in *.
  pose proof (single_conc_of_pos drug dosage weight _ _ Hdos Hw Ho Hb) as Hsingle.
  set (single := single_conc_of drug dosage weight (oral_fac p) (bioavail p)) in *.
  destruct (num_doses_floor duration _ Hdur Hdi) as [_ Hn].
  set (n := (Ztrunc (duration / dosing_interval (drugs drug)) + 1)%Z) in *.
  pose proof (r_factor_range _ _ (elim_rate_pos (absorpt p) _ age metab Hhs) Hdi) as Hrs.
  pose proof (r_factor_range _ _ (elim_rate_pos (absorpt p) _ age metab Hhu) Hdi) as Hru.
  match type of Hrs with 0 < ?r < 1 => set (rs := r) in * end.
  match type of Hru with 0 < ?r < 1 => set (ru := r) in * end.
  pose proof (accumulation_of_nonneg rs n Hrs Hn) as Has.
  pose proof (accumulation_of_nonneg ru n Hru Hn) as Hau.
  assert (Hts : 0 <= single * accumulation_of rs n) by nra.
  assert (Htu : 0 <= single * accumulation_of ru n) by nra.
  assert (Hss : 0 < single / rs) by (apply Rdiv_lt_0_compat; lra).
  assert (Hsu : 0 < single / ru) by (apply Rdiv_lt_0_compat; lra).
  rewrite Ebs, Ebu, Ets, Etu, Ess, Esu.
  split; [apply buildup_of_range; assumption |].
  split; [apply buildup_of_range; assumption |].
  auto.
Qed.

Lemma buildup_percent_range_witness :
  exists c,
    calculate_detection_time 32767 8 2 1000 76 28 3 48 = Some c /\
    0 <= buildup_saliva c <= 100 /\ 0 <= buildup_urine c <= 100.
Proof.
  assert (R48 : 0 <= 48 <= 100) by lra.
  assert (H1 : (1 <= 8 <= NUM_DRUGS)%Z) by (unfold NUM_DRUGS; lia).
  assert (H2 : (1 <= 2 <= NUM_ROUTES)%Z) by (unfold NUM_ROUTES; lia).
  assert (H3 : (0 < 1000)%Z) by lia.
  assert (H4 : (0 < 76)%Z) by lia.
  assert (H5 : 0 <= 48) by lra.
  destruct (buildup_percent_range 32767 8 2 1000 76 28 3 48 H1 H2 H3 H4 H5
              (morphine_fits 48 R48))
    as (c & Hc & (_ & Bs) & (_ & Bu) & _).
  exists c. split; [exact Hc |]. split; assumption.
Defined.

(** C7.  For a drug of the table and fixed route, dosage, weight, age and
    metabolism class, and two non-negative durations d1 <= d2 whose dose
    counts are representable, both calculations return a result, and the
    longer duration never gives a smaller accumulation factor; with a route
    of the table, a non-negative dosage and a positive weight it never gives
    a smaller total accumulated concentration.  This holds for both
    matrices. *)
Theorem accumulation_monotone
    (M drug route dosage weight age metab : Z) (d1 d2 : R) :
  (1 <= drug <= NUM_DRUGS)%Z ->
  0 <= d1 <= d2 ->
  dose_count_fits M d1 (dosing_interval (drugs drug)) ->
  dose_count_fits M d2 (dosing_interval (drugs drug)) ->
  exists c1 c2,
    calculate_detection_time M drug route dosage weight age metab d1 = Some c1 /\
    calculate_detection_time M drug route dosage weight age metab d2 = Some c2 /\
    (res_num_doses c1 <= res_num_doses c2)%Z /\
    accumulation_factor_saliva c1 <= accumulation_factor_saliva c2 /\
    accumulation_factor_urine c1 <= accumulation_factor_urine c2 /\
    ((1 <= route <= NUM_ROUTES)%Z -> (0 <= dosage)%Z -> (0 < weight)%Z ->
     total_conc_saliva c1 <= total_conc_saliva c2 /\
     total_conc_urine c1 <= total_conc_urine c2).
Proof.
  intros Hdrug Hd Hfit1 Hfit2.
  destruct (calculate_defined M drug route dosage weight age metab d1 Hfit1) as [c1 Hc1].
  destruct (calculate_defined M drug route dosage weight age metab d2 Hfit2) as [c2 Hc2].
  exists c1, c2. split; [exact Hc1 |]. split; [exact Hc2 |].
  pose proof (calculate_inv _ _ _ _ _ _ _ _ _ Hc1) as I1; cbv zeta in I1.
  pose proof (calculate_inv _ _ _ _ _ _ _ _ _ Hc2) as I2; cbv zeta in I2.
  destruct I1 as (_ & En1 & _ & _ & _ & _ & _ & _ & Eas1 & Eau1 & Ets1 & Etu1 & _).
  destruct I2 as (_ & En2 & _ & _ & _ & _ & _ & _ & Eas2 & Eau2 & Ets2 & Etu2 & _).
  destruct (drugs_positive drug Hdrug) as (Hhs & Hhu & _ & _ & Hdi).
  set (p := adjust_route_parameters drug route _) in *.
  pose proof (num_doses_monotone d1 d2 _ Hd Hdi) as Hn.
  set (n1 := (Ztrunc (d1 / dosing_interval (drugs drug)) + 1)%Z) in *.
  set (n2 := (Ztrunc (d2 / dosing_interval (drugs drug)) + 1)%Z) in *.
  pose proof (r_factor_range _ _ (elim_rate_pos (absorpt p) _ age metab Hhs) Hdi) as Hrs.
  pose proof (r_factor_range _ _ (elim_rate_pos (absorpt p) _ age metab Hhu) Hdi) as Hru.
  match type of Hrs with 0 < ?r < 1 => set (rs := r) in * end.
  match type of Hru with 0 < ?r < 1 => set (ru := r) in * end.
  assert (Hnm : (0 <= n1 <= n2)%Z) by lia.
  pose proof (accumulation_of_monotone rs n1 n2 Hrs Hnm) as Ms.
  pose proof (accumulation_of_monotone ru n1 n2 Hru Hnm) as Mu.
  rewrite En1, En2, Eas1, Eas2, Eau1, Eau2, Ets1, Ets2, Etu1, Etu2.
  split; [lia |]. split; [exact Ms |]. split; [exact Mu |].
  intros Hroute Hdos Hw.
  destruct (adjusted_positive drug route Hroute) as (Hb & Ho & _).
  fold p in Hb, Ho.
  pose proof (single_conc_of_nonneg drug dosage weight _ _ Hdos Hw Ho Hb) as Hsingle.
  split; apply Rmult_le_compat_l; assumption.
Qed.

Lemma accumulation_monotone_witness :
  exists c1 c2,
    calculate_detection_time 32767 8 2 1000 76 28 3 24 = Some c1 /\
    calculate_detection_time 32767 8 2 1000 76 28 3 48 = Some c2 /\
    accumulation_factor_saliva c1 <= accumulation_factor_saliva c2 /\
    accumulation_factor_urine c1 <= accumulation_factor_urine c2 /\
    total_conc_saliva c1 <= total_conc_saliva c2 /\
    total_conc_urine c1 <= total_conc_urine c2.
Proof.
  assert (R1 : 0 <= 24 <= 100) by lra.
  assert (R2 : 0 <= 48 <= 100) by lra.
  assert (H1 : (1 <= 8 <= NUM_DRUGS)%Z) by (unfold NUM_DRUGS; lia).
  assert (H2 : 0 <= 24 <= 48) by lra.
  destruct (accumulation_monotone 32767 8 2 1000 76 28 3 24 48 H1 H2
              (morphine_fits 24 R1) (morphine_fits 48 R2))
    as (c1 & c2 & Hc1 & Hc2 & _ & As & Au & T).
  assert (H3 : (1 <= 2 <= NUM_ROUTES)%Z) by (unfold NUM_ROUTES; lia).
  assert (H4 : (0 <= 1000)%Z) by lia.
  assert (H5 : (0 < 76)%Z) by lia.
  destruct (T H3 H4 H5) as [Ts Tu].
  exists c1, c2. repeat split; assumption.
Defined.

(** ** The synthetic spectrum *)

Lemma add_peak_zero (nmr_data : NMRData) (concentration f s : R) (j : Z) :
  concentration = 0 \/ all_zero (intensities nmr_data) ->
  add_peak nmr_data concentration f s j = s.
Proof.
  intros H; unfold add_peak.
  destruct (fge _ 0.0 && fle _ 12.0); [| reflexivity].
  assert (E : nth (Z.to_nat j) (intensities nmr_data) 0 * concentration / 100.0 = 0).
  { destruct H as [-> | Hz].
    - unfold Rdiv; rewrite Rmult_0_r, Rmult_0_l; reflexivity.
    - assert (Hn : nth (Z.to_nat j) (intensities nmr_data) 0 = 0).
      { unfold all_zero in Hz; rewrite Forall_forall in Hz.
        destruct (Nat.lt_ge_cases (Z.to_nat j) (List.length (intensities nmr_data))) as [Hl | Hl].
        - apply Hz, nth_In; exact Hl.
        - apply nth_overflow; exact Hl. }
      rewrite Hn; unfold Rdiv; rewrite !Rmult_0_l; reflexivity. }
  rewrite E; unfold Rdiv; rewrite Rmult_0_l; lra.
Qed.

Lemma fold_add_peak_zero (nmr_data : NMRData) (concentration f : R) (js : list Z) (s : R) :
  concentration = 0 \/ all_zero (intensities nmr_data) ->
  fold_left (add_peak nmr_data concentration f) js s = s.
Proof.
  intros H; revert s; induction js as [| j js IH]; intros s; simpl; [reflexivity |].
  rewrite add_peak_zero by exact H; apply IH.
Qed.

Lemma spectrum_of_zero (nmr_data : NMRData) (concentration : R) :
  concentration = 0 \/ all_zero (intensities nmr_data) ->
  all_zero (spectrum_of nmr_data concentration).
Proof.
  intros H; unfold all_zero, spectrum_of.
  apply Forall_forall; intros s Hs.
  apply in_map_iff in Hs; destruct Hs as [i [<- _]].
  rewrite fold_add_peak_zero by exact H; lra.
Qed.

Lemma fold_max_zero (spectrum : list R) : all_zero spectrum -> fold_left max_float spectrum 0 = 0.
Proof.
  induction 1 as [| s l Hs Hl IH]; simpl; [reflexivity |].
  subst s; unfold max_float at 2.
  destruct (Rgt_dec 0 0); exact IH.
Qed.

Lemma spec_max_of_zero (spectrum : list R) : all_zero spectrum -> spec_max_of spectrum = 1.
Proof.
  intros H; unfold spec_max_of.
  replace 0.0 with 0 by lra.
  rewrite fold_max_zero by exact H.
  rewrite fle_true by lra; lra.
Qed.

Lemma mapi_from_no_marker (f : Z -> ascii -> ascii) (i : Z) (row : list ascii) :
  (forall j c, c <> "*"%char -> f j c <> "*"%char) -> no_marker row ->
  no_marker (mapi_from f i row).
Proof.
  intros Hf H; revert i; induction H as [| c l Hc Hl IH]; intros i; simpl;
    constructor; [apply Hf; exact Hc | apply IH].
Qed.

Lemma map_no_marker (f : ascii -> ascii) (row : list ascii) :
  (forall c, c <> "*"%char -> f c <> "*"%char) -> no_marker row -> no_marker (map f row).
Proof.
  intros Hf H; induction H as [| c l Hc Hl IH]; simpl; constructor;
    [apply Hf; exact Hc | exact IH].
Qed.

Lemma clear_line_no_marker : no_marker clear_line.
Proof.
  unfold no_marker, clear_line; apply Forall_forall; intros c Hc.
  apply repeat_spec in Hc; subst c; discriminate.
Qed.

Lemma horizontal_grid_no_marker (line : Z) (row : list ascii) :
  no_marker row -> no_marker (horizontal_grid line row).
Proof.
  intros H; unfold horizontal_grid.
  destruct (Z.rem line 10 =? 0)%Z; [| destruct (Z.rem line 5 =? 0)%Z]; try exact H;
    apply map_no_marker; try exact H; intros c Hc;
    destruct (ascii_eqb c " "); try exact Hc; discriminate.
Qed.

Lemma mark_points_below (thresh : R) (spectrum : list R) (row : list ascii) :
  0 < thresh -> all_zero spectrum -> mark_points thresh spectrum row = row.
Proof.
  intros Ht H; revert row; induction H as [| s l Hs Hl IH]; intros row.
  - destruct row; reflexivity.
  - destruct row as [| c row]; [reflexivity |]; simpl.
    subst s; rewrite fge_false by exact Ht. rewrite IH; reflexivity.
Qed.

Lemma major_grid_no_marker (row : list ascii) : no_marker row -> no_marker (major_grid row).
Proof.
  intros H; unfold major_grid; apply mapi_from_no_marker; [| exact H].
  intros j c Hc; destruct (_ && _); [discriminate | exact Hc].
Qed.

Lemma minor_grid_no_marker (row : list ascii) : no_marker row -> no_marker (minor_grid row).
Proof.
  intros H; unfold minor_grid; apply mapi_from_no_marker; [| exact H].
  intros j c Hc; destruct (_ && _); [discriminate | exact Hc].
Qed.

Lemma threshold_positive (line : Z) :
  (1 <= line <= PLOT_HEIGHT)%Z -> 0 < 1 * IZR line / IZR PLOT_HEIGHT.
Proof.
  intros [H1 _]. apply IZR_le in H1.
  apply Rdiv_lt_0_compat; [lra | unfold PLOT_HEIGHT; lra].
Qed.

Lemma spectrum_row_no_marker (spectrum : list R) (line : Z) :
  all_zero spectrum -> (1 <= line <= PLOT_HEIGHT)%Z ->
  no_marker (spectrum_row 1 spectrum line).
Proof.
  intros Hz Hl; unfold spectrum_row.
  rewrite mark_points_below by (exact Hz || apply threshold_positive; exact Hl).
  apply minor_grid_no_marker, major_grid_no_marker, horizontal_grid_no_marker,
    clear_line_no_marker.
Qed.

(** C10.  When the summed intensity array is zero everywhere (as it is for a
    displayed concentration of 0, or when every peak intensity is 0), the
    normalising maximum is replaced by 1.0; the threshold of each of the 50
    rows is then positive, and no row carries a peak marker. *)
Theorem zero_spectrum_plot (nmr_data : NMRData) (concentration : R) :
  concentration = 0 \/ all_zero (intensities nmr_data)
  \/ all_zero (spectrum_of nmr_data concentration) ->
  let sp := nmr_plot nmr_data concentration in
  all_zero (sp_spectrum sp) /\
  sp_max sp = 1 /\
  List.length (sp_rows sp) = 50%nat /\
  (forall line, (1 <= line <= PLOT_HEIGHT)%Z ->
     0 < sp_max sp * IZR line / IZR PLOT_HEIGHT) /\
  Forall no_marker (sp_rows sp).
Proof.
  intros H sp.
  assert (Hz : all_zero (spectrum_of nmr_data concentration)).
  { destruct H as [H | [H | H]]; [apply spectrum_of_zero; left; exact H
                                 | apply spectrum_of_zero; right; exact H | exact H]. }
  assert (Hmax : sp_max sp = 1) by (apply spec_max_of_zero; exact Hz).
  split; [exact Hz |]. split; [exact Hmax |].
  split; [reflexivity |].
  split.
  - intros line Hl; rewrite Hmax; apply threshold_positive; exact Hl.
  - subst sp; unfold nmr_plot; cbn [sp_rows].
    rewrite (spec_max_of_zero _ Hz).
    apply Forall_forall; intros row Hrow.
    apply in_map_iff in Hrow; destruct Hrow as [k [<- Hk]].
    apply spectrum_row_no_marker; [exact Hz |].
    unfold indices in Hk; apply in_map_iff in Hk; destruct Hk as [m [<- Hm]].
    apply in_seq in Hm. change (Z.to_nat PLOT_HEIGHT) with 50%nat in Hm.
    unfold PLOT_HEIGHT; lia.
Qed.

Lemma zero_spectrum_plot_witness :
  let sp := nmr_plot (generate_nmr_data (fun _ => 7%Z) DRUG_DIAMORPHINE) 0 in
  sp_max sp = 1 /\ Forall no_marker (sp_rows sp).
Proof.
  intros sp.
  destruct (zero_spectrum_plot (generate_nmr_data (fun _ => 7%Z) DRUG_DIAMORPHINE) 0
              (or_introl eq_refl)) as (_ & Hmax & _ & _ & Hrows).
  split; [exact Hmax | exact Hrows].
Defined.

(** ** Name resolution *)

Lemma search_table_range (input : string) (names : list string) (i : Z) :
  search_table input i names = 0%Z \/
  (i <= search_table input i names < i + Z.of_nat (List.length names))%Z.
Proof.
  revert i; induction names as [| n names IH]; intros i; simpl; [left; reflexivity |].
  destruct (str_compare_upper input n =? 0)%Z.
  - right; lia.
  - destruct (IH (i + 1)%Z) as [H | H]; [left; exact H | right; lia].
Qed.

Lemma search_alternatives_range (input : string) (alts : list (string * Z)) (hi : Z) :
  Forall (fun a => (1 <= snd a <= hi)%Z) alts ->
  search_alternatives input alts = 0%Z \/ (1 <= search_alternatives input alts <= hi)%Z.
Proof.
  induction 1 as [| [a id] alts Ha Halts IH]; simpl; [left; reflexivity |].
  destruct (str_compare_upper input a =? 0)%Z; [right; exact Ha | exact IH].
Qed.

Lemma drug_alternatives_valid :
  Forall (fun a => (1 <= snd a <= NUM_DRUGS)%Z) drug_alternatives.
Proof. unfold drug_alternatives; repeat constructor; simpl; discriminate. Qed.

Lemma route_alternatives_valid :
  Forall (fun a => (1 <= snd a <= NUM_ROUTES)%Z) route_alternatives.
Proof. unfold route_alternatives; repeat constructor; simpl; discriminate. Qed.

Lemma drug_of_buffer_range (buf : string) :
  drug_of_buffer buf = 0%Z \/ (1 <= drug_of_buffer buf <= NUM_DRUGS)%Z.
Proof.
  unfold drug_of_buffer.
  set (input := prepare_input buf).
  destruct (search_table_range input (map name (tl drugs_table)) 1) as [H | H].
  - rewrite H; simpl (0 =? 0)%Z; cbv iota.
    apply search_alternatives_range, drug_alternatives_valid.
  - change (Z.of_nat (List.length (map name (tl drugs_table)))) with 24%Z in H.
    destruct (search_table input 1 (map name (tl drugs_table)) =? 0)%Z eqn:E.
    + apply Z.eqb_eq in E; lia.
    + right; unfold NUM_DRUGS; lia.
Qed.

Lemma route_of_buffer_range (buf : string) :
  route_of_buffer buf = 0%Z \/ (1 <= route_of_buffer buf <= NUM_ROUTES)%Z.
Proof.
  unfold route_of_buffer.
  set (input := prepare_input buf).
  destruct (search_table_range input (map route_name (tl routes_table)) 1) as [H | H].
  - rewrite H; simpl (0 =? 0)%Z; cbv iota.
    apply search_alternatives_range, route_alternatives_valid.
  - change (Z.of_nat (List.length (map route_name (tl routes_table)))) with 11%Z in H.
    destruct (search_table input 1 (map route_name (tl routes_table)) =? 0)%Z eqn:E.
    + apply Z.eqb_eq in E; lia.
    + right; unfold NUM_ROUTES; lia.
Qed.

(** The synonyms and abbreviations named in the interface description, in
    either case. *)
Lemma documented_aliases :
  drug_of_buffer "heroin
" = DRUG_DIAMORPHINE /\
  drug_of_buffer "Meperidine
" = DRUG_PETHIDINE /\
  drug_of_buffer "DIAMORPHINE
" = DRUG_DIAMORPHINE /\
  route_of_buffer "IV
" = ROUTE_INTRAVENOUS /\
  route_of_buffer "sc
" = ROUTE_SUBCUTANEOUS /\
  route_of_buffer "SL
" = ROUTE_SUBLINGUAL /\
  route_of_buffer "topical
" = ROUTE_TOPICAL /\
  drug_of_buffer "cocaine
" = 0%Z /\
  route_of_buffer "by air
" = 0%Z.
Proof. repeat split; reflexivity. Qed.

Lemma fgets_defined (n : nat) (stdin : string) :
  stdin <> EmptyString -> exists buf rest, fgets n stdin = Some (buf, rest).
Proof.
  intros H; unfold fgets; destruct stdin as [| c r]; [contradiction |].
  destruct (read_line (n - 1) (String c r)) as [buf rest]. exists buf, rest; reflexivity.
Qed.

(** C9.  For every input buffer the drug resolution returns 0 or an
    identifier in 1..24 and the route resolution returns 0 or an identifier
    in 1..11; the synonyms heroin and meperidine and the abbreviations IV, SC
    and SL resolve to their drug or route.  On a non-empty input [main] reads a drug; when its resolution
    is 0 the run ends with exit code 1 and without a call of the calculation;
    otherwise, the input not being exhausted, it reads a route; when that
    resolution is 0 the run ends in the same way, and otherwise the
    calculation is called with a drug in 1..24 and a route in 1..11. *)
Theorem name_resolution
    (M : Z) (get_input_parameters : string -> Inputs) (stdin : string) :
  (forall buf, drug_of_buffer buf = 0%Z \/ (1 <= drug_of_buffer buf <= NUM_DRUGS)%Z) /\
  (forall buf, route_of_buffer buf = 0%Z \/ (1 <= route_of_buffer buf <= NUM_ROUTES)%Z) /\
  (drug_of_buffer "heroin
" = DRUG_DIAMORPHINE /\
   drug_of_buffer "meperidine
" = DRUG_PETHIDINE /\
   route_of_buffer "IV
" = ROUTE_INTRAVENOUS /\
   route_of_buffer "SC
" = ROUTE_SUBCUTANEOUS /\
   route_of_buffer "SL
" = ROUTE_SUBLINGUAL) /\
  (stdin <> EmptyString ->
   exists drug rest,
     get_drug_selection stdin = Some (drug, rest) /\
     (drug = 0%Z ->
      main M get_input_parameters stdin = Some InvalidDrug /\
      exit_code InvalidDrug = 1%Z /\ calculation_of InvalidDrug = None) /\
     (drug <> 0%Z -> rest <> EmptyString ->
      exists route rest',
        get_route_selection rest = Some (route, rest') /\
        (route = 0%Z ->
         main M get_input_parameters stdin = Some InvalidRoute /\
         exit_code InvalidRoute = 1%Z /\ calculation_of InvalidRoute = None) /\
        (route <> 0%Z ->
         (1 <= drug <= NUM_DRUGS)%Z /\ (1 <= route <= NUM_ROUTES)%Z /\
         exists result,
           main M get_input_parameters stdin
           = Some (Calculated drug route (get_input_parameters rest') result)))).
Proof.
  split; [exact drug_of_buffer_range |].
  split; [exact route_of_buffer_range |].
  split; [repeat split; reflexivity |].
  intros Hne.
  destruct (fgets_defined 50 stdin Hne) as (buf & rest & Hf).
  exists (drug_of_buffer buf), rest.
  assert (Hd : get_drug_selection stdin = Some (drug_of_buffer buf, rest))
    by (unfold get_drug_selection; rewrite Hf; reflexivity).
  split; [exact Hd |].
  split.
  - intros H0. unfold main; rewrite Hd, H0. repeat split.
  - intros Hnz Hrest.
    destruct (fgets_defined 50 rest Hrest) as (buf' & rest' & Hf').
    exists (route_of_buffer buf'), rest'.
    assert (Hr : get_route_selection rest = Some (route_of_buffer buf', rest'))
      by (unfold get_route_selection; rewrite Hf'; reflexivity).
    split; [exact Hr |].
    apply Z.eqb_neq in Hnz.
    split.
    + intros H0. unfold main; rewrite Hd, Hnz, Hr, H0. repeat split.
    + intros Hrz.
      destruct (drug_of_buffer_range buf) as [H | H];
        [apply Z.eqb_neq in Hnz; contradiction |].
      destruct (route_of_buffer_range buf') as [H' | H']; [contradiction |].
      split; [exact H |]. split; [exact H' |].
      apply Z.eqb_neq in Hrz.
      eexists. unfold main; rewrite Hd, Hnz, Hr, Hrz. reflexivity.
Qed.

Lemma name_resolution_witness :
  main 32767 no_inputs "cocaine
" = Some InvalidDrug /\
  exit_code InvalidDrug = 1%Z /\ calculation_of InvalidDrug = None.
Proof.
  assert (Hne : "cocaine
"%string <> EmptyString) by discriminate.
  destruct (name_resolution 32767 no_inputs "cocaine
") as (_ & _ & _ & Hmain).
  destruct (Hmain Hne) as (drug & rest & Hsel & Hzero & _).
  assert (Hd : drug = 0%Z).
  { assert (E : get_drug_selection "cocaine
" = Some (0%Z, EmptyString)) by reflexivity.
    rewrite E in Hsel; injection Hsel as <- _; reflexivity. }
  exact (Hzero Hd).
Defined.

(** ** The concentration curve *)

Lemma some_eq {A : Type} (a b : A) : Some a = Some b -> a = b.
Proof. intros H; injection H as H; exact H. Qed.

Lemma exp_nonpos_range (x : R) : x <= 0 -> 0 < exp x <= 1.
Proof.
  intros H; split; [apply exp_pos |].
  destruct H as [H | ->]; [| rewrite exp_0; lra].
  pose proof (exp_increasing _ _ H) as Hlt; rewrite exp_0 in Hlt; lra.
Qed.

Lemma ka_of_pos (absorption_rate : R) : 0 < ka_of absorption_rate.
Proof.
  unfold ka_of, flt.
  destruct (Rlt_dec (0.693 / absorption_rate) 0.1); lra.
Qed.

Lemma add_dose_bounds (kelim di single a ka t conc_i : R) (j : Z) :
  0 <= single -> 0 <= kelim -> 0 <= ka ->
  conc_i <= add_dose kelim di single a ka t conc_i j <= conc_i + single.
Proof.
  intros Hs Hk Hka; unfold add_dose, fge.
  destruct (Rge_dec t (IZR j * di)) as [Ht |]; [| lra].
  assert (Htsl : 0 <= t - IZR j * di) by lra.
  set (tsl := t - IZR j * di) in *.
  assert (H1 : - kelim * tsl <= 0) by nra.
  assert (H2 : - ka * tsl <= 0) by nra.
  pose proof (exp_nonpos_range _ H1) as E1.
  pose proof (exp_nonpos_range _ H2) as E2.
  set (e1 := exp (- kelim * tsl)) in *. set (e2 := exp (- ka * tsl)) in *.
  replace 1.0 with 1 by lra.
  destruct (flt a 0.5); [nra |].
  assert (Hab : 0 <= single * (1 - e2) <= single) by nra.
  set (ab := single * (1 - e2)) in *. nra.
Qed.

Lemma fold_add_dose_bounds (kelim di single a ka t : R) (js : list Z) (s : R) :
  0 <= single -> 0 <= kelim -> 0 <= ka ->
  s <= fold_left (add_dose kelim di single a ka t) js s
    <= s + INR (List.length js) * single.
Proof.
  intros Hs Hk Hka; revert s; induction js as [| j js IH]; intros s.
  - simpl; lra.
  - cbn [fold_left]. change (List.length (j :: js)) with (S (List.length js)).
    rewrite S_INR.
    pose proof (add_dose_bounds kelim di single a ka t s j Hs Hk Hka) as B.
    specialize (IH (add_dose kelim di single a ka t s j)).
    nra.
Qed.

Lemma indices_length (n : Z) : List.length (indices n) = Z.to_nat n.
Proof. unfold indices; rewrite length_map, length_seq; reflexivity. Qed.

Lemma sample_conc_bounds (kelim duration di single a ka : R) (n : Z) (t : R) :
  0 <= single -> 0 <= kelim -> 0 <= ka -> (0 <= n)%Z ->
  0 <= sample_conc kelim duration di single a ka n t <= IZR n * single.
Proof.
  intros Hs Hk Hka Hn; unfold sample_conc.
  pose proof (fold_add_dose_bounds kelim di single a ka t (indices n) 0.0 Hs Hk Hka) as B.
  rewrite indices_length, INR_IZR_INZ, Z2Nat.id in B by exact Hn.
  set (c := fold_left _ _ _) in *.
  assert (0 <= IZR n) by (apply IZR_le in Hn; exact Hn).
  unfold fgt; destruct (Rgt_dec t duration) as [Ht |]; [| lra].
  assert (H1 : - kelim * (t - duration) <= 0) by nra.
  pose proof (exp_nonpos_range _ H1) as E1.
  set (e := exp _) in *. nra.
Qed.

Lemma fold_track_max_bound (conc : list R) (b m : R) :
  Forall (fun c => c <= b) conc -> m <= b -> fold_left track_max conc m <= b.
Proof.
  intros H; revert m; induction H as [| c l Hc Hl IH]; intros m Hm; simpl; [exact Hm |].
  apply IH. unfold track_max, fgt; destruct (Rgt_dec c m); assumption.
Qed.

Lemma scan_above_none (cutoff : R) (rows : list (R * R)) :
  Forall (fun row => snd row <= cutoff) rows -> scan_above cutoff rows = 0.
Proof.
  induction 1 as [| [t c] rows Hc Hrows IH]; simpl; [lra |].
  simpl in Hc; rewrite fgt_false by exact Hc; exact IH.
Qed.

Lemma combine_snd_bound (cutoff : R) (time conc : list R) :
  Forall (fun c => c <= cutoff) conc ->
  Forall (fun row => snd row <= cutoff) (combine time conc).
Proof.
  intros H; apply Forall_forall; intros [t c] Hin.
  apply in_combine_r in Hin. rewrite Forall_forall in H. simpl; apply H; exact Hin.
Qed.

(** With a positive cutoff the scaled maximum is at least twice the cutoff,
    so the analysis never takes the branch that prints that the peak is
    below the cutoff. *)
Lemma analysis_never_below_cutoff
    (M : Z) (c0 kelim cutoff thalf duration di single a : R) (cv : Curve) :
  0 < cutoff ->
  plot_concentration_curve M c0 kelim cutoff thalf duration di single a = Some cv ->
  cutoff * 2 <= cv_cmax cv /\
  exists t, cv_analysis cv = TimeToNonDetection t (cv_cmax cv).
Proof.
  intros Hc H; unfold plot_concentration_curve in H.
  destruct (float_to_int M _) as [q |]; [| discriminate].
  destruct (int_add M q 1) as [n |]; [| discriminate].
  cbv zeta in H; apply some_eq in H; subst cv; unfold cv_cmax, cv_analysis.
  set (m0 := fold_left track_max _ _).
  set (m1 := if flt m0 (cutoff * 2.0) then cutoff * 2.0 else m0).
  set (m2 := if flt m1 1.0 then 1.0 else m1).
  assert (H1 : cutoff * 2 <= m1).
  { subst m1; unfold flt; destruct (Rlt_dec m0 (cutoff * 2.0)); lra. }
  assert (H2 : cutoff * 2 <= m2).
  { subst m2; unfold flt; destruct (Rlt_dec m1 1.0); lra. }
  split; [exact H2 |].
  unfold analysis_of. rewrite fgt_true by lra. eexists; reflexivity.
Qed.

Lemma plot_defined (M : Z) (c0 kelim cutoff thalf duration di single a : R) :
  dose_count_fits M duration di ->
  exists cv,
    plot_concentration_curve M c0 kelim cutoff thalf duration di single a = Some cv /\
    cv_num_doses cv = (Ztrunc (duration / di) + 1)%Z.
Proof.
  intros [H1 H2]; unfold plot_concentration_curve.
  rewrite (float_to_int_intro M _ _ eq_refl) by lia.
  rewrite int_add_intro by lia. eexists; split; reflexivity.
Qed.

(** C5 (what the code does).  For positive cutoff, dosing interval and
    absorption rate and non-negative elimination rate, single-dose
    concentration and duration: when no sample can exceed the cutoff, since
    the number of doses times the single-dose concentration is at most the
    cutoff, the curve is computed, every sampled concentration is at most the
    cutoff, and yet the analysis is the time-to-non-detection report, with
    time 0 and with the scaled maximum max(2 * cutoff, 1) as the peak, not
    the message that the peak is below the cutoff. *)
Theorem low_peak_reported_as_time_zero
    (M : Z) (c0 kelim cutoff thalf duration di single a : R) :
  0 < cutoff -> 0 <= kelim -> 0 <= single -> 0 <= duration -> 0 < di -> 0 < a ->
  dose_count_fits M duration di ->
  IZR (Zfloor (duration / di) + 1) * single <= cutoff ->
  exists cv,
    plot_concentration_curve M c0 kelim cutoff thalf duration di single a = Some cv /\
    cv_num_doses cv = (Zfloor (duration / di) + 1)%Z /\
    Forall (fun c => c <= cutoff) (cv_conc cv) /\
    cv_cmax cv = Rmax (cutoff * 2) 1 /\
    cv_analysis cv = TimeToNonDetection 0 (cv_cmax cv) /\
    (forall m, cv_analysis cv <> PeakBelowCutoff m).
Proof.
  intros Hc Hk Hs Hdur Hdi _ Hfit Hpeak.
  destruct (plot_defined M c0 kelim cutoff thalf duration di single a Hfit)
    as (cv & H & Hnum).
  destruct (num_doses_floor duration di Hdur Hdi) as [Efl Hn].
  rewrite Efl in Hnum. rewrite Efl in Hn.
  exists cv. split; [exact H |]. split; [exact Hnum |].
  unfold plot_concentration_curve in H.
  destruct (float_to_int M _) as [q |]; [| discriminate].
  destruct (int_add M q 1) as [n |]; [| discriminate].
  cbv zeta in H; apply some_eq in H; subst cv;
    unfold cv_cmax, cv_analysis, cv_conc, cv_num_doses in *.
  subst n.
  set (n := (Zfloor (duration / di) + 1)%Z) in *.
  set (time := map _ (indices 61)).
  set (conc := map _ time).
  assert (Hconc : Forall (fun c => c <= cutoff) conc).
  { subst conc; apply Forall_forall; intros c Hin.
    apply in_map_iff in Hin; destruct Hin as [t [<- _]].
    pose proof (sample_conc_bounds kelim duration di single a (ka_of a) n t Hs Hk
                  (Rlt_le _ _ (ka_of_pos a))) as B.
    assert (0 <= n)%Z by lia. specialize (B H). lra. }
  set (m0 := fold_left track_max conc 0.0).
  assert (Hm0 : m0 <= cutoff)
    by (apply fold_track_max_bound; [exact Hconc | lra]).
  set (m1 := if flt m0 (cutoff * 2.0) then cutoff * 2.0 else m0).
  assert (Hm1 : m1 = cutoff * 2) by (subst m1; rewrite flt_true by lra; lra).
  set (m2 := if flt m1 1.0 then 1.0 else m1).
  assert (Hm2 : m2 = Rmax (cutoff * 2) 1).
  { subst m2; rewrite Hm1; unfold flt, Rmax.
    destruct (Rlt_dec (cutoff * 2) 1.0); destruct (Rle_dec (cutoff * 2) 1); lra. }
  assert (Hgt : m2 > cutoff).
  { rewrite Hm2; unfold Rmax; destruct (Rle_dec (cutoff * 2) 1); lra. }
  split; [exact Hconc |]. split; [exact Hm2 |].
  assert (Ha : analysis_of cutoff m2 time conc = TimeToNonDetection 0 m2).
  { unfold analysis_of; rewrite fgt_true by exact Hgt.
    rewrite scan_above_none; [reflexivity |].
    apply Forall_rev, combine_snd_bound; exact Hconc. }
  split; [exact Ha |].
  intros m; rewrite Ha; discriminate.
Qed.

(** Morphine, intravenous, 1 mg, 70 kg, 40 years, normal metabolism, a single
    dose: the single-dose concentration is 0.08 / 70 ng/mL against a cutoff
    of 10 ng/mL. *)
Lemma low_dose_run :
  exists c,
    calculate_detection_time 32767 8 2 1 70 40 2 0 = Some c /\
    single_conc_saliva c = 0.08 / 70 /\ 0 < elim_rate_saliva c /\
    absorpt (res_params c) = 0.1.
Proof.
  assert (R0 : 0 <= 0 <= 100) by lra.
  destruct (calculate_defined 32767 8 2 1 70 40 2 0 (morphine_fits 0 R0)) as [c Hc].
  exists c. split; [exact Hc |].
  pose proof (calculate_inv _ _ _ _ _ _ _ _ _ Hc) as I; cbv zeta in I.
  destruct I as (Ep & _ & Ess & _ & Eks & _).
  split; [| split].
  - rewrite Ess.
    change (single_conc_of 8 1 70 _ _) with (1 * 0.08 * 1.0 / 70). lra.
  - rewrite Eks. apply elim_rate_pos. change (halflife_saliva (drugs 8)) with 3.5. lra.
  - rewrite Ep. reflexivity.
Qed.

Lemma low_peak_reported_as_time_zero_witness :
  exists cv,
    plotted_curve 32767 DRUG_MORPHINE ROUTE_INTRAVENOUS 1 70 40 2 0 = Some cv /\
    Forall (fun c => c <= cutoff_saliva (drugs DRUG_MORPHINE)) (cv_conc cv) /\
    cutoff_saliva (drugs DRUG_MORPHINE) = 10 /\
    cv_cmax cv = 20 /\
    cv_analysis cv = TimeToNonDetection 0 20.
Proof.
  destruct low_dose_run as (c & Hc & Hsingle & Hk & Habs).
  assert (H7 : 0 < absorpt (res_params c)) by (rewrite Habs; lra).
  assert (R0 : 0 <= 0 <= 100) by lra.
  assert (Ecut : cutoff_saliva (drugs 8) = 10)
    by (change (cutoff_saliva (drugs 8)) with 10.0; lra).
  assert (H1 : 0 < cutoff_saliva (drugs 8)) by lra.
  assert (H2 : 0 <= elim_rate_saliva c) by lra.
  assert (H3 : 0 <= single_conc_saliva c) by lra.
  assert (H4 : 0 <= 0) by lra.
  assert (H5 : 0 < dosing_interval (drugs 8))
    by (change (dosing_interval (drugs 8)) with 4.0; lra).
  assert (H6 : IZR (Zfloor (0 / dosing_interval (drugs 8)) + 1) * single_conc_saliva c
               <= cutoff_saliva (drugs 8)).
  { replace (0 / dosing_interval (drugs 8)) with (IZR 0) by (unfold Rdiv; lra).
    rewrite ZfloorZ, Hsingle, Ecut. simpl (0 + 1)%Z. lra. }
  destruct (low_peak_reported_as_time_zero 32767 (total_conc_saliva c)
              (elim_rate_saliva c) (cutoff_saliva (drugs 8)) (res_halflife_saliva c) 0
              (dosing_interval (drugs 8)) (single_conc_saliva c) (absorpt (res_params c))
              H1 H2 H3 H4 H5 H7 (morphine_fits 0 R0) H6)
    as (cv & Hcv & _ & Hconc & Hmax & Han & _).
  exists cv.
  assert (E : Rmax (cutoff_saliva (drugs 8) * 2) 1 = 20)
    by (rewrite Ecut, Rmax_left; lra).
  rewrite E in Hmax. rewrite Hmax in Han.
  split; [unfold plotted_curve, DRUG_MORPHINE, ROUTE_INTRAVENOUS; rewrite Hc; exact Hcv |].
  split; [exact Hconc |]. split; [exact Ecut |]. split; [exact Hmax | exact Han].
Defined.

(** ** The heroin scenario of the README *)

(** Bounds on [exp] from [1 + y <= exp y], and their propagation through a
    doubling of the argument. *)
Lemma exp_bounds_base (y l u : R) :
  l <= 1 + y -> y < 1 -> 1 <= (1 - y) * u -> l <= exp y <= u.
Proof.
  intros Hl Hy Hu.
  pose proof (exp_ineq1_le y) as H1.
  pose proof (exp_ineq1_le (- y)) as H2.
  pose proof (exp_pos y) as Hp.
  rewrite exp_Ropp in H2.
  assert (H3 : exp y * / exp y = 1) by (apply Rinv_r; lra).
  assert (H4 : 0 < / exp y) by (apply Rinv_0_lt_compat; exact Hp).
  split; [lra |].
  assert (H5 : (1 - y) * exp y <= 1) by nra.
  assert (H6 : 0 < 1 - y) by lra.
  nra.
Qed.

Lemma exp_bounds_double (x y l u l' u' : R) :
  y = 2 * x -> l <= exp x <= u -> 0 <= l -> l' <= l * l -> u * u <= u' ->
  l' <= exp y <= u'.
Proof.
  intros -> [H1 H2] Hl Hl' Hu'.
  replace (2 * x) with (x + x) by lra; rewrite exp_plus.
  pose proof (exp_pos x). nra.
Qed.

(** The fraction remaining after one dosing interval at 0.13946625 /hr over 4 hours. *)
Lemma exp_saliva_interval : 0.572342886020 <= exp (-0.557865) <= 0.572516859945.
Proof.
  assert (B0 : 0.999455209960 <= exp (-0.0005447900390625) <= 0.999455506596)
    by (apply exp_bounds_base; lra).
  assert (B1 : 0.998910716716 <= exp (-0.001089580078125) <= 0.998911309666)
    by (apply (exp_bounds_double (-0.0005447900390625) _ 0.999455209960 0.999455506596); [lra | exact B0 | lra | lra | lra]).
  assert (B2 : 0.997822619970 <= exp (-0.00217916015625) <= 0.997823804579)
    by (apply (exp_bounds_double (-0.001089580078125) _ 0.998910716716 0.998911309666); [lra | exact B1 | lra | lra | lra]).
  assert (B3 : 0.995649980923 <= exp (-0.0043583203125) <= 0.995652344985)
    by (apply (exp_bounds_double (-0.00217916015625) _ 0.997822619970 0.997823804579); [lra | exact B2 | lra | lra | lra]).
  assert (B4 : 0.991318884511 <= exp (-0.008716640625) <= 0.991323592075)
    by (apply (exp_bounds_double (-0.0043583203125) _ 0.995649980923 0.995652344985); [lra | exact B3 | lra | lra | lra]).
  assert (B5 : 0.982713130788 <= exp (-0.01743328125) <= 0.982722464205)
    by (apply (exp_bounds_double (-0.008716640625) _ 0.991318884511 0.991323592075); [lra | exact B4 | lra | lra | lra]).
  assert (B6 : 0.965725097423 <= exp (-0.0348665625) <= 0.965743441654)
    by (apply (exp_bounds_double (-0.01743328125) _ 0.982713130788 0.982722464205); [lra | exact B5 | lra | lra | lra]).
  assert (B7 : 0.932624963792 <= exp (-0.069733125) <= 0.932660395098)
    by (apply (exp_bounds_double (-0.0348665625) _ 0.965725097423 0.965743441654); [lra | exact B6 | lra | lra | lra]).
  assert (B8 : 0.869789323088 <= exp (-0.13946625) <= 0.869855412585)
    by (apply (exp_bounds_double (-0.069733125) _ 0.932624963792 0.932660395098); [lra | exact B7 | lra | lra | lra]).
  assert (B9 : 0.756533466557 <= exp (-0.2789325) <= 0.756648438804)
    by (apply (exp_bounds_double (-0.13946625) _ 0.869789323088 0.869855412585); [lra | exact B8 | lra | lra | lra]).
  assert (B10 : 0.572342886020 <= exp (-0.557865) <= 0.572516859945)
    by (apply (exp_bounds_double (-0.2789325) _ 0.756533466557 0.756648438804); [lra | exact B9 | lra | lra | lra]).
  exact B10.
Qed.

(** The fraction remaining after one dosing interval at 0.04648875 /hr over 4 hours. *)
Lemma exp_urine_interval : 0.830296936637 <= exp (-0.185955) <= 0.830324976548.
Proof.
  assert (B0 : 0.999818403320 <= exp (-0.0001815966796875) <= 0.999818436292)
    by (apply exp_bounds_base; lra).
  assert (B1 : 0.999636839617 <= exp (-0.000363193359375) <= 0.999636905550)
    by (apply (exp_bounds_double (-0.0001815966796875) _ 0.999818403320 0.999818436292); [lra | exact B0 | lra | lra | lra]).
  assert (B2 : 0.999273811119 <= exp (-0.00072638671875) <= 0.999273942938)
    by (apply (exp_bounds_double (-0.000363193359375) _ 0.999636839617 0.999636905550); [lra | exact B1 | lra | lra | lra]).
  assert (B3 : 0.998548149588 <= exp (-0.0014527734375) <= 0.998548413035)
    by (apply (exp_bounds_double (-0.00072638671875) _ 0.999273811119 0.999273942938); [lra | exact B2 | lra | lra | lra]).
  assert (B4 : 0.997098407045 <= exp (-0.002905546875) <= 0.997098933175)
    by (apply (exp_bounds_double (-0.0014527734375) _ 0.998548149588 0.998548413035); [lra | exact B3 | lra | lra | lra]).
  assert (B5 : 0.994205233331 <= exp (-0.00581109375) <= 0.994206282539)
    by (apply (exp_bounds_double (-0.002905546875) _ 0.997098407045 0.997098933175); [lra | exact B4 | lra | lra | lra]).
  assert (B6 : 0.988444045982 <= exp (-0.0116221875) <= 0.988446132241)
    by (apply (exp_bounds_double (-0.00581109375) _ 0.994205233331 0.994206282539); [lra | exact B5 | lra | lra | lra]).
  assert (B7 : 0.977021632037 <= exp (-0.023244375) <= 0.977025756343)
    by (apply (exp_bounds_double (-0.0116221875) _ 0.988444045982 0.988446132241); [lra | exact B6 | lra | lra | lra]).
  assert (B8 : 0.954571269468 <= exp (-0.04648875) <= 0.954579328558)
    by (apply (exp_bounds_double (-0.023244375) _ 0.977021632037 0.977025756343); [lra | exact B7 | lra | lra | lra]).
  assert (B9 : 0.911206308493 <= exp (-0.0929775) <= 0.911221694511)
    by (apply (exp_bounds_double (-0.04648875) _ 0.954571269468 0.954579328558); [lra | exact B8 | lra | lra | lra]).
  assert (B10 : 0.830296936637 <= exp (-0.185955) <= 0.830324976548)
    by (apply (exp_bounds_double (-0.0929775) _ 0.911206308493 0.911221694511); [lra | exact B9 | lra | lra | lra]).
  exact B10.
Qed.
Lemma scenario_params :
  adjust_route_parameters 24 2
    {| bioavail := bioavailability (routes 2); oral_fac := oral_factor (routes 2);
       absorpt := absorption_rate (routes 2) |}
  = {| bioavail := 1.0; oral_fac := 0.08; absorpt := 0.1 |}.
Proof. reflexivity. Qed.

Lemma flip_flop_unchanged (a h : R) : a <= h * 0.693 -> flip_flop a h = h.
Proof. intros H; unfold flip_flop; rewrite fgt_false by exact H; reflexivity. Qed.

(** Thirteen doses with a remaining fraction [e] per interval taken as the
    series ratio's complement: bounds on the accumulation factor. *)
Lemma accumulation_thirteen (e el eh lo hi : R) :
  el <= e <= eh -> 1 / 2 <= el -> eh < 0.99 ->
  lo * eh <= 1 - / 8192 -> 1 <= hi * el ->
  lo <= accumulation_of (1.0 - e) 13 <= hi.
Proof.
  intros He Hel Heh Hlo Hhi.
  replace (1.0 - e) with (1 - e) by lra.
  rewrite accumulation_of_series; [| | lia].
  2:{ intros H; apply Rabs_def2 in H; lra. }
  change (Z.to_nat 13) with 13%nat.
  assert (Hr : 0 <= 1 - e <= 1 / 2) by lra.
  assert (Hp : 0 <= (1 - e) ^ 13 <= / 8192).
  { split; [apply pow_le; lra |].
    replace (/ 8192) with ((1 / 2) ^ 13) by (simpl; lra).
    apply pow_incr; exact Hr. }
  set (P := (1 - e) ^ 13) in *.
  replace (1 - (1 - e)) with e by lra.
  assert (He0 : 0 < e) by lra.
  assert (Hi : / eh <= / e <= / el).
  { split; apply Rinv_le_contravar; lra. }
  assert (Hih : lo <= (1 - / 8192) * / eh).
  { assert (H : eh * / eh = 1) by (apply Rinv_r; lra).
    assert (0 < / eh) by (apply Rinv_0_lt_compat; lra). nra. }
  assert (Hil : / el <= hi).
  { assert (H : el * / el = 1) by (apply Rinv_r; lra).
    assert (0 < / el) by (apply Rinv_0_lt_compat; lra). nra. }
  assert (0 < / eh) by (apply Rinv_0_lt_compat; lra).
  unfold Rdiv. split; nra.
Qed.

(** C6 (as the dual-matrix program computes it).  For diamorphine,
    intravenous, 1000 mg, 76 kg, 28 years, fast metabolism, 48 hours, the
    bioavailability resolves to 1.0 and the oral factor to 0.08, the
    single-dose concentration is about 1.05 ng/mL and there are 13 doses.
    With the table's saliva half-life of 8 h the elimination rate is
    0.13946625 /hr, the accumulation factor about 1.75 and the total about
    1.84 ng/mL, below the saliva cutoff of 2 ng/mL: the saliva detection time
    is 0.  With the urine half-life of 24 h the rate is 0.04648875 /hr, the
    factor about 1.20 and the total about 1.27 ng/mL, below the urine cutoff
    of 10 ng/mL: the urine detection time is 0. *)
Theorem diamorphine_scenario (M : Z) :
  (13 <= M)%Z ->
  exists c,
    calculate_detection_time M DRUG_DIAMORPHINE ROUTE_INTRAVENOUS 1000 76 28 3 48 = Some c /\
    bioavail (res_params c) = 1 /\ oral_fac (res_params c) = 0.08 /\
    1.05 < single_conc_saliva c < 1.06 /\
    single_conc_urine c = single_conc_saliva c /\
    res_num_doses c = 13%Z /\
    (cutoff_saliva (drugs DRUG_DIAMORPHINE) = 2 /\
     elim_rate_saliva c = 0.13946625 /\
     1.746 < accumulation_factor_saliva c < 1.748 /\
     1.838 < total_conc_saliva c < 1.840 /\
     detection_time_saliva c = 0) /\
    (cutoff_urine (drugs DRUG_DIAMORPHINE) = 10 /\
     elim_rate_urine c = 0.04648875 /\
     1.204 < accumulation_factor_urine c < 1.205 /\
     1.267 < total_conc_urine c < 1.268 /\
     detection_time_urine c = 0) /\
    readable M (detection_time_saliva c) = Some (split_seconds 0) /\
    readable M (detection_time_urine c) = Some (split_seconds 0).
Proof.
  intros HM. unfold DRUG_DIAMORPHINE, ROUTE_INTRAVENOUS.
  assert (Hq : Ztrunc (48 / dosing_interval (drugs 24)) = 12%Z).
  { apply Ztrunc_eq; change (dosing_interval (drugs 24)) with 4.0; lra. }
  assert (Hfit : dose_count_fits M 48 (dosing_interval (drugs 24))).
  { unfold dose_count_fits; rewrite Hq; unfold INT_MIN; lia. }
  destruct (calculate_defined M 24 2 1000 76 28 3 48 Hfit) as [c Hc].
  exists c. split; [exact Hc |].
  pose proof (calculate_inv _ _ _ _ _ _ _ _ _ Hc) as I; cbv zeta in I.
  rewrite scenario_params, Hq in I.
  cbn [bioavail oral_fac absorpt] in I.
  change (halflife_saliva (drugs 24)) with 8.0 in I.
  change (halflife_urine (drugs 24)) with 24.0 in I.
  change (dosing_interval (drugs 24)) with 4.0 in I.
  change (cutoff_saliva (drugs 24)) with 2.0 in I.
  change (cutoff_urine (drugs 24)) with 10.0 in I.
  change (age_factor_of 28) with 1.15 in I.
  change (metab_factor_of 3) with 1.4 in I.
  change (single_conc_of 24 1000 76 0.08 1.0) with (1000 * 0.08 * 1.0 / 76) in I.
  rewrite !flip_flop_unchanged in I by lra.
  replace (0.693 / 8.0 * 1.15 * 1.4) with 0.13946625 in I by lra.
  replace (0.693 / 24.0 * 1.15 * 1.4) with 0.04648875 in I by lra.
  assert (Xs : - (0.13946625) * 4.0 = -0.557865) by lra.
  assert (Xu : - (0.04648875) * 4.0 = -0.185955) by lra.
  rewrite Xs, Xu in I.
  change (12 + 1)%Z with 13%Z in I.
  destruct I as (Ep & En & Ess & Esu & Eks & Eku & _ & _ & Eas & Eau & Ets & Etu
                 & _ & _ & _ & _ & Eds & Edu & _).
  pose proof exp_saliva_interval as Bs. pose proof exp_urine_interval as Bu.
  assert (As : 1.7463 <= accumulation_of (1.0 - exp (-0.557865)) 13 <= 1.7473)
    by (apply (accumulation_thirteen _ _ _ _ _ Bs); lra).
  assert (Au : 1.2041 <= accumulation_of (1.0 - exp (-0.185955)) 13 <= 1.2044)
    by (apply (accumulation_thirteen _ _ _ _ _ Bu); lra).
  set (accs := accumulation_of (1.0 - exp (-0.557865)) 13) in *.
  set (accu := accumulation_of (1.0 - exp (-0.185955)) 13) in *.
  assert (Hsingle : 1.05263 < 1000 * 0.08 * 1.0 / 76 < 1.05264) by lra.
  set (single := 1000 * 0.08 * 1.0 / 76) in *.
  assert (Hts : 1.838 < single * accs < 1.840) by nra.
  assert (Htu : 1.267 < single * accu < 1.268) by nra.
  assert (Zs : detection_time_saliva c = 0)
    by (rewrite Eds, Ets; apply detection_time_of_below; nra).
  assert (Zu : detection_time_urine c = 0)
    by (rewrite Edu, Etu; apply detection_time_of_below; nra).
  assert (Hrd : readable M 0 = Some (split_seconds 0)).
  { unfold readable. rewrite (float_to_int_intro M _ 0); [reflexivity | |].
    - apply Ztrunc_eq; lra.
    - unfold INT_MIN; lia. }
  rewrite Ep; cbn [bioavail oral_fac].
  split; [lra |]. split; [reflexivity |].
  rewrite Ess, Esu, En, Eks, Eku, Eas, Eau, Ets, Etu, Zs, Zu.
  split; [lra |]. split; [reflexivity |]. split; [reflexivity |].
  split; [repeat split;
          solve [lra | apply Hts | change (cutoff_saliva (drugs 24)) with 2.0; lra] |].
  split; [repeat split;
          solve [lra | apply Htu | change (cutoff_urine (drugs 24)) with 10.0; lra] |].
  split; exact Hrd.
Qed.

(** The two elimination rates of the scenario, on their own. *)
Lemma diamorphine_scenario_facts :
  exists c,
    calculate_detection_time 32767 24 2 1000 76 28 3 48 = Some c /\
    elim_rate_saliva c = 0.13946625 /\ elim_rate_urine c = 0.04648875.
Proof.
  assert (Hfit : dose_count_fits 32767 48 (dosing_interval (drugs 24))).
  { apply small_dose_count_fits; [lia |].
    change (dosing_interval (drugs 24)) with 4.0; lra. }
  destruct (calculate_defined 32767 24 2 1000 76 28 3 48 Hfit) as [c Hc].
  exists c. split; [exact Hc |].
  pose proof (calculate_inv _ _ _ _ _ _ _ _ _ Hc) as I; cbv zeta in I.
  rewrite scenario_params in I. cbn [bioavail oral_fac absorpt] in I.
  change (halflife_saliva (drugs 24)) with 8.0 in I.
  change (halflife_urine (drugs 24)) with 24.0 in I.
  change (age_factor_of 28) with 1.15 in I.
  change (metab_factor_of 3) with 1.4 in I.
  rewrite !flip_flop_unchanged in I by lra.
  destruct I as (_ & _ & _ & _ & Eks & Eku & _).
  rewrite Eks, Eku; split; lra.
Qed.

Lemma diamorphine_scenario_witness :
  exists c,
    calculate_detection_time 32767 24 2 1000 76 28 3 48 = Some c /\
    elim_rate_saliva c = 0.13946625 /\ elim_rate_urine c = 0.04648875 /\
    accumulation_factor_saliva c < 1.748 /\ accumulation_factor_urine c < 1.205 /\
    total_conc_saliva c < 1.840 /\ total_conc_urine c < 1.268 /\
    detection_time_saliva c = 0 /\ detection_time_urine c = 0.
Proof.
  assert (HM : (13 <= 32767)%Z) by lia.
  destruct (diamorphine_scenario 32767 HM)
    as (c & Hc & _ & _ & _ & _ & _ & (_ & Eks & As & Ts & Ds) & (_ & Eku & Au & Tu & Du) & _).
  exists c. repeat split; solve [assumption | apply As | apply Au | apply Ts | apply Tu].
Defined.

(** The figures of the README run (an accumulation factor of about 13.0, a
    total of about 13.68 ng/mL, an elimination rate of about 5.74 /hr and 197
    seconds) are those of neither matrix for this input. *)
Lemma readme_scenario_counterexample :
  ~ (exists c,
       calculate_detection_time 32767 DRUG_DIAMORPHINE ROUTE_INTRAVENOUS 1000 76 28 3 48
       = Some c /\
       ((Rabs (accumulation_factor_saliva c - 13.0) < 0.1 /\
         Rabs (total_conc_saliva c - 13.68) < 0.01 /\
         Rabs (elim_rate_saliva c - 5.74) < 0.01 /\
         Rabs (detection_time_saliva c * 3600 - 197) < 1) \/
        (Rabs (accumulation_factor_urine c - 13.0) < 0.1 /\
         Rabs (total_conc_urine c - 13.68) < 0.01 /\
         Rabs (elim_rate_urine c - 5.74) < 0.01 /\
         Rabs (detection_time_urine c * 3600 - 197) < 1))).
Proof.
  intros (c & Hc & H).
  destruct diamorphine_scenario_facts as (c' & Hc' & Eks & Eku).
  unfold DRUG_DIAMORPHINE, ROUTE_INTRAVENOUS in Hc.
  rewrite Hc in Hc'; injection Hc' as <-.
  destruct H as [(_ & _ & H & _) | (_ & _ & H & _)]; apply Rabs_def2 in H; lra.
Qed.

(* ================================================================= *)
(** * Where the claims need the representable range *)

(** With a 32-bit [int], a duration of 10^12 hours at morphine's interval of
    4 hours asks for 250000000001 doses: the conversion to [int] has no
    value and the calculation returns no result. *)
Lemma dose_count_overflow :
  ~ dose_count_fits 2147483647 1000000000000 (dosing_interval (drugs 8)).
Proof.
  unfold dose_count_fits; change (dosing_interval (drugs 8)) with 4.0.
  rewrite (Ztrunc_eq _ 250000000000) by lra. lia.
Qed.

Lemma calculate_overflow (dosage weight age metab : Z) (c : Calc) :
  calculate_detection_time 2147483647 8 2 dosage weight age metab 1000000000000
  <> Some c.
Proof.
  intros H; apply calculate_some_fits in H; exact (dose_count_overflow H).
Qed.


(** C4, as written, fails at morphine, intravenous, 1000 mg, 76 kg and a
    duration of 10^12 hours, where every condition of the claim holds: no
    buildup percentage in [0, 100] is computed. *)
Lemma buildup_percent_range_counterexample :
  ~ exists c,
      calculate_detection_time 2147483647 8 2 1000 76 28 3 1000000000000 = Some c /\
      0 <= buildup_saliva c <= 100 /\ 0 <= buildup_urine c <= 100.
Proof. intros (c & Hc & _); exact (calculate_overflow _ _ _ _ _ Hc). Qed.

(** C7, as written, fails when the duration is raised from 48 hours to 10^12
    hours with the other inputs fixed: the longer run has no accumulation
    factor and no total that are at least those of the shorter one. *)
Lemma accumulation_monotone_counterexample :
  ~ exists c1 c2,
      calculate_detection_time 2147483647 8 2 1000 76 28 3 48 = Some c1 /\
      calculate_detection_time 2147483647 8 2 1000 76 28 3 1000000000000 = Some c2 /\
      accumulation_factor_saliva c1 <= accumulation_factor_saliva c2 /\
      total_conc_saliva c1 <= total_conc_saliva c2.
Proof. intros (c1 & c2 & _ & Hc & _); exact (calculate_overflow _ _ _ _ _ Hc). Qed.

(** C8, as written, fails with the 16-bit [int] of Turbo C at a detection
    time of 10 hours: 36000 seconds is not an [int], so there is no second
    count to decompose. *)
Lemma readable_round_trip_counterexample :
  ~ exists rd,
      readable 32767 10 = Some rd /\
      (rd_days rd * 86400 + rd_hours rd * 3600 + rd_minutes rd * 60 + rd_seconds rd
       = rd_total rd)%Z /\
      (0 <= rd_hours rd <= 23)%Z /\ (0 <= rd_minutes rd <= 59)%Z /\
      (0 <= rd_seconds rd <= 59)%Z.
Proof.
  intros (rd & H & _); unfold readable in H.
  destruct (float_to_int 32767 (10 * 3600.0)) as [z |] eqn:E; [| discriminate].
  apply float_to_int_some in E; destruct E as [Ez Er].
  rewrite (Ztrunc_eq _ 36000) in Ez by lra. lia.
Qed.

(* ================================================================= *)
(** * Further properties *)

(** ** Upper case and the prepared input *)

Lemma toupper_idem (c : ascii) : toupper (toupper c) = toupper c.
Proof. destruct c as [[] [] [] [] [] [] [] []]; reflexivity. Qed.

Lemma toupper_nul (c : ascii) : Ascii.eqb NUL (toupper c) = Ascii.eqb NUL c.
Proof. destruct c as [[] [] [] [] [] [] [] []]; reflexivity. Qed.

Lemma toupper_newline (c : ascii) : Ascii.eqb NEWLINE (toupper c) = Ascii.eqb NEWLINE c.
Proof. destruct c as [[] [] [] [] [] [] [] []]; reflexivity. Qed.

Lemma str_upper_idem (s : string) : str_upper (str_upper s) = str_upper s.
Proof. induction s as [| c s IH]; simpl; [reflexivity |]. rewrite toupper_idem, IH; reflexivity. Qed.

Lemma str_upper_length (s : string) : String.length (str_upper s) = String.length s.
Proof. induction s as [| c s IH]; simpl; [reflexivity | rewrite IH; reflexivity]. Qed.

Lemma take_until_upper (x : ascii) (s : string) :
  (forall c, Ascii.eqb x (toupper c) = Ascii.eqb x c) ->
  take_until (Ascii.eqb x) (str_upper s) = str_upper (take_until (Ascii.eqb x) s).
Proof.
  intros Hx; induction s as [| c s IH]; simpl; [reflexivity |].
  rewrite Hx. destruct (Ascii.eqb x c); simpl; [reflexivity | rewrite IH; reflexivity].
Qed.

Lemma str_take_prefix (p : ascii -> bool) (s : string) :
  str_take (String.length (take_until p s)) s = take_until p s.
Proof.
  unfold str_take; induction s as [| c s IH]; simpl; [reflexivity |].
  destruct (p c); simpl; [reflexivity | rewrite IH; reflexivity].
Qed.

(** The prepared input is the upper-case form of the buffer, cut at the
    first NUL or newline. *)
Lemma prepare_input_spec (buf : string) :
  prepare_input buf
  = take_until (Ascii.eqb NEWLINE) (take_until (Ascii.eqb NUL) (str_upper buf)).
Proof.
  unfold prepare_input, strcspn_newline, c_string.
  rewrite str_take_prefix.
  rewrite (take_until_upper NUL) by exact toupper_nul.
  rewrite (take_until_upper NEWLINE) by exact toupper_newline.
  reflexivity.
Qed.

Lemma take_until_no_nul (s : string) : no_nul (take_until (Ascii.eqb NUL) s) = true.
Proof.
  induction s as [| c s IH]; [reflexivity |].
  cbn [take_until]. destruct (Ascii.eqb NUL c) eqn:E; [reflexivity |].
  cbn [no_nul]. rewrite Ascii.eqb_sym, E, IH; reflexivity.
Qed.

Lemma take_until_keeps_no_nul (p : ascii -> bool) (s : string) :
  no_nul s = true -> no_nul (take_until p s) = true.
Proof.
  induction s as [| c s IH]; simpl; [reflexivity |].
  intros H; apply andb_true_iff in H; destruct H as [H1 H2].
  destruct (p c); simpl; [reflexivity | rewrite H1, IH by exact H2; reflexivity].
Qed.

Lemma prepare_input_no_nul (buf : string) : no_nul (prepare_input buf) = true.
Proof.
  rewrite prepare_input_spec. apply take_until_keeps_no_nul, take_until_no_nul.
Qed.

Lemma prepare_input_upper (buf : string) : str_upper (prepare_input buf) = prepare_input buf.
Proof. unfold prepare_input; apply str_upper_idem. Qed.

Lemma strcmp_refl (s : string) : strcmp s s = 0%Z.
Proof. induction s as [| c s IH]; simpl; [reflexivity |]. rewrite Ascii.eqb_refl; exact IH. Qed.

Lemma nat_of_ascii_zero (c : ascii) : nat_of_ascii c = 0%nat -> c = NUL.
Proof.
  intros H. rewrite <- (ascii_nat_embedding c), H. reflexivity.
Qed.

Lemma strcmp_eq (s1 s2 : string) :
  no_nul s1 = true -> no_nul s2 = true -> strcmp s1 s2 = 0%Z -> s1 = s2.
Proof.
  revert s2; induction s1 as [| c1 r1 IH]; intros [| c2 r2] H1 H2 H; simpl in *.
  - reflexivity.
  - apply andb_true_iff in H2; destruct H2 as [H2 _].
    assert (nat_of_ascii c2 = 0%nat) by lia.
    apply nat_of_ascii_zero in H0; subst c2. discriminate H2.
  - apply andb_true_iff in H1; destruct H1 as [H1 _].
    assert (nat_of_ascii c1 = 0%nat) by lia.
    apply nat_of_ascii_zero in H0; subst c1. discriminate H1.
  - apply andb_true_iff in H1, H2; destruct H1 as [_ H1], H2 as [_ H2].
    destruct (Ascii.eqb c1 c2) eqn:E.
    + apply Ascii.eqb_eq in E; subst c2. f_equal; apply IH; assumption.
    + exfalso.
      assert (nat_of_ascii c1 = nat_of_ascii c2) by lia.
      assert (c1 = c2)
        by (rewrite <- (ascii_nat_embedding c1), <- (ascii_nat_embedding c2), H0;
            reflexivity).
      subst c2; rewrite Ascii.eqb_refl in E; discriminate.
Qed.

Lemma str_take_short (k : nat) (s : string) :
  (String.length (str_take k s) < k)%nat -> str_take k s = s.
Proof.
  unfold str_take; revert s; induction k as [| k IH]; intros s H; [lia |].
  destruct s as [| c s]; simpl in *; [reflexivity |].
  f_equal; apply IH; lia.
Qed.

Lemma str_take_all (k : nat) (s : string) : (String.length s <= k)%nat -> str_take k s = s.
Proof.
  unfold str_take; revert s; induction k as [| k IH]; intros [| c s] H; simpl in *;
    try reflexivity; try lia.
  f_equal; apply IH; lia.
Qed.

Lemma str_take_upper (k : nat) (s : string) :
  str_take k (str_upper s) = str_upper (str_take k s).
Proof.
  unfold str_take; revert s; induction k as [| k IH]; intros [| c s]; simpl;
    try reflexivity.
  rewrite IH; reflexivity.
Qed.

Lemma str_take_no_nul (k : nat) (s : string) : no_nul s = true -> no_nul (str_take k s) = true.
Proof.
  unfold str_take; revert s; induction k as [| k IH]; intros [| c s] H; simpl in *;
    try reflexivity.
  apply andb_true_iff in H; destruct H as [H1 H2]; rewrite H1, IH by exact H2; reflexivity.
Qed.

(** On an upper-case input without NUL, a comparison with a well-formed name
    is zero exactly when the two are the same string. *)
Lemma str_compare_upper_zero (input n : string) :
  str_upper input = input -> no_nul input = true -> well_named n = true ->
  (str_compare_upper input n = 0%Z <-> input = n).
Proof.
  intros Hup Hnn Hn; unfold well_named in Hn.
  apply andb_true_iff in Hn; destruct Hn as [Hn Hnul].
  apply andb_true_iff in Hn; destruct Hn as [Hnup Hlen].
  apply String.eqb_eq in Hnup. apply Nat.ltb_lt in Hlen.
  unfold str_compare_upper.
  rewrite (str_take_all 99 n) by lia. rewrite Hnup.
  rewrite <- str_take_upper, Hup.
  split.
  - intros H. apply strcmp_eq in H; [| apply str_take_no_nul; exact Hnn | exact Hnul].
    rewrite <- H. symmetry; apply str_take_short. rewrite H; exact Hlen.
  - intros ->. rewrite str_take_all by lia. apply strcmp_refl.
Qed.

(** ** Exact-match resolution of names *)

Lemma search_table_sound (input : string) (names : list string) (i r : Z) :
  search_table input i names = r -> r <> 0%Z ->
  exists n, In (n, r) (numbered_from i names) /\ str_compare_upper input n = 0%Z.
Proof.
  revert i; induction names as [| n names IH]; intros i H Hr; simpl in *; [congruence |].
  destruct (str_compare_upper input n =? 0)%Z eqn:E.
  - apply Z.eqb_eq in E. subst r. exists n; split; [left; reflexivity | exact E].
  - destruct (IH (i + 1)%Z H Hr) as (m & Hin & Hm). exists m; split; [right |]; assumption.
Qed.

Lemma search_alternatives_sound (input : string) (alts : list (string * Z)) (r : Z) :
  search_alternatives input alts = r -> r <> 0%Z ->
  exists a, In (a, r) alts /\ str_compare_upper input a = 0%Z.
Proof.
  induction alts as [| [a id] alts IH]; intros H Hr; simpl in *; [congruence |].
  destruct (str_compare_upper input a =? 0)%Z eqn:E.
  - apply Z.eqb_eq in E. subst r. exists a; split; [left; reflexivity | exact E].
  - destruct (IH H Hr) as (m & Hin & Hm). exists m; split; [right |]; assumption.
Qed.

Lemma resolve_characterised (names : list string) (alts : list (string * Z)) (input : string) :
  str_upper input = input -> no_nul input = true ->
  forallb well_named (map fst (numbered names ++ alts)) = true ->
  self_resolving names alts = true ->
  (forall i, i <> 0%Z ->
     (resolve names alts input = i <-> In (input, i) (numbered names ++ alts))) /\
  (resolve names alts input = 0%Z <-> ~ In input (map fst (numbered names ++ alts))).
Proof.
  intros Hup Hnn Hwn Hself.
  unfold self_resolving in Hself. rewrite forallb_forall in Hself, Hwn.
  assert (Hkey : forall n r, In (n, r) (numbered names ++ alts) ->
                 str_compare_upper input n = 0%Z -> input = n).
  { intros n r Hin Hz.
    apply (str_compare_upper_zero input n Hup Hnn); [| exact Hz].
    apply Hwn. apply in_map_iff. exists (n, r); split; [reflexivity | exact Hin]. }
  assert (Hfwd : forall i, i <> 0%Z -> resolve names alts input = i ->
                 In (input, i) (numbered names ++ alts)).
  { intros i Hi H. unfold resolve in H.
    destruct (search_table input 1 names =? 0)%Z eqn:E.
    - destruct (search_alternatives_sound input alts i H Hi) as (a & Hin & Hz).
      assert (Hin' : In (a, i) (numbered names ++ alts)) by (apply in_or_app; right; exact Hin).
      rewrite (Hkey a i Hin' Hz). exact Hin'.
    - destruct (search_table_sound input names 1 i H Hi) as (n & Hin & Hz).
      assert (Hin' : In (n, i) (numbered names ++ alts))
        by (apply in_or_app; left; exact Hin).
      rewrite (Hkey n i Hin' Hz). exact Hin'. }
  assert (Hbwd : forall i, In (input, i) (numbered names ++ alts) ->
                 resolve names alts input = i /\ i <> 0%Z).
  { intros i Hin. specialize (Hself _ Hin). simpl in Hself.
    apply andb_true_iff in Hself; destruct Hself as [H1 H2].
    apply Z.eqb_eq in H1. apply negb_true_iff, Z.eqb_neq in H2. auto. }
  split.
  - intros i Hi; split; [apply Hfwd; exact Hi | intros H; apply Hbwd; exact H].
  - split.
    + intros H0 Hin. apply in_map_iff in Hin. destruct Hin as ([n r] & Hn & Hin).
      simpl in Hn; subst n. destruct (Hbwd r Hin) as [Hr Hnz]. congruence.
    + intros Hnot. destruct (Z.eq_dec (resolve names alts input) 0) as [H | H];
        [exact H |].
      exfalso; apply Hnot. apply in_map_iff.
      exists (input, resolve names alts input); split; [reflexivity |].
      apply Hfwd; [exact H | reflexivity].
Qed.

Lemma drug_dictionary_well_named : forallb well_named (map fst drug_dictionary) = true.
Proof. reflexivity. Qed.

Lemma route_dictionary_well_named : forallb well_named (map fst route_dictionary) = true.
Proof. reflexivity. Qed.

Lemma drug_dictionary_self_resolving :
  self_resolving (map name (tl drugs_table)) drug_alternatives = true.
Proof. reflexivity. Qed.

Lemma route_dictionary_self_resolving :
  self_resolving (map route_name (tl routes_table)) route_alternatives = true.
Proof. reflexivity. Qed.

(** The two instances of the characterisation, for use in later proofs. *)
Lemma drug_resolution_exact_key (buf : string) :
  (forall i, i <> 0%Z ->
     (In (prepare_input buf, i) drug_dictionary -> drug_of_buffer buf = i)) /\
  (forall i, i <> 0%Z ->
     (drug_of_buffer buf = i -> In (prepare_input buf, i) drug_dictionary)).
Proof.
  change (drug_of_buffer buf)
    with (resolve (map name (tl drugs_table)) drug_alternatives (prepare_input buf)).
  destruct (resolve_characterised (map name (tl drugs_table)) drug_alternatives
              (prepare_input buf) (prepare_input_upper buf) (prepare_input_no_nul buf)
              drug_dictionary_well_named drug_dictionary_self_resolving) as [H _].
  split; intros i Hi; apply (H i Hi).
Qed.

Lemma route_resolution_exact_key (buf : string) :
  (forall i, i <> 0%Z ->
     (In (prepare_input buf, i) route_dictionary -> route_of_buffer buf = i)) /\
  (forall i, i <> 0%Z ->
     (route_of_buffer buf = i -> In (prepare_input buf, i) route_dictionary)).
Proof.
  change (route_of_buffer buf)
    with (resolve (map route_name (tl routes_table)) route_alternatives (prepare_input buf)).
  destruct (resolve_characterised (map route_name (tl routes_table)) route_alternatives
              (prepare_input buf) (prepare_input_upper buf) (prepare_input_no_nul buf)
              route_dictionary_well_named route_dictionary_self_resolving) as [H _].
  split; intros i Hi; apply (H i Hi).
Qed.

(** X1.  [get_drug_selection] matches exactly: it returns a non-zero
    identifier for a buffer exactly when the prepared input (the buffer cut
    at the first NUL or newline, in upper case) is a table name with that
    index or an alternative listed with that identifier, and it returns 0
    exactly when the prepared input is none of these names.  There is no
    prefix matching and no trimming of blanks. *)
Theorem drug_resolution_exact (buf : string) :
  (forall i, i <> 0%Z ->
     (drug_of_buffer buf = i <-> In (prepare_input buf, i) drug_dictionary)) /\
  (drug_of_buffer buf = 0%Z <-> ~ In (prepare_input buf) (map fst drug_dictionary)).
Proof.
  change (drug_of_buffer buf)
    with (resolve (map name (tl drugs_table)) drug_alternatives (prepare_input buf)).
  apply resolve_characterised.
  - apply prepare_input_upper.
  - apply prepare_input_no_nul.
  - exact drug_dictionary_well_named.
  - exact drug_dictionary_self_resolving.
Qed.

(** X2.  [get_route_selection] matches exactly, in the same sense, against
    the eleven route names and the listed abbreviations. *)
Theorem route_resolution_exact (buf : string) :
  (forall i, i <> 0%Z ->
     (route_of_buffer buf = i <-> In (prepare_input buf, i) route_dictionary)) /\
  (route_of_buffer buf = 0%Z <-> ~ In (prepare_input buf) (map fst route_dictionary)).
Proof.
  change (route_of_buffer buf)
    with (resolve (map route_name (tl routes_table)) route_alternatives (prepare_input buf)).
  apply resolve_characterised.
  - apply prepare_input_upper.
  - apply prepare_input_no_nul.
  - exact route_dictionary_well_named.
  - exact route_dictionary_self_resolving.
Qed.

(** X3.  Resolution does not depend on the case of the letters typed: two
    buffers with the same upper-case form resolve to the same drug and to the
    same route. *)
Theorem resolution_case_insensitive (s t : string) :
  str_upper s = str_upper t ->
  drug_of_buffer s = drug_of_buffer t /\ route_of_buffer s = route_of_buffer t.
Proof.
  intros H.
  assert (E : prepare_input s = prepare_input t)
    by (rewrite !prepare_input_spec, H; reflexivity).
  unfold drug_of_buffer, route_of_buffer; rewrite E; split; reflexivity.
Qed.

Lemma resolution_case_insensitive_witness :
  drug_of_buffer "Heroin
" = drug_of_buffer "hEROIN
" /\
  route_of_buffer "Heroin
" = route_of_buffer "hEROIN
".
Proof. apply resolution_case_insensitive; reflexivity. Defined.

(** ** The names of the single-matrix program *)

Lemma narcdtc_compare_zero (input n : string) :
  str_upper input = input -> no_nul input = true -> well_named n = true ->
  NarcdtcNames.str_compare_upper input n = Some 0%Z -> input = n.
Proof.
  intros Hup Hnn Hn H; unfold well_named in Hn.
  apply andb_true_iff in Hn; destruct Hn as [Hn Hnul].
  apply andb_true_iff in Hn; destruct Hn as [Hnup _].
  apply String.eqb_eq in Hnup.
  unfold NarcdtcNames.str_compare_upper in H.
  destruct (_ && _)%bool; [| discriminate].
  injection H as H. rewrite Hup, Hnup in H.
  apply strcmp_eq; assumption.
Qed.

Lemma narcdtc_search_table_sound (input : string) (names : list string) (i r : Z) :
  NarcdtcNames.search_table input i names = Some r -> r <> 0%Z ->
  exists n, In (n, r) (numbered_from i names) /\
            NarcdtcNames.str_compare_upper input n = Some 0%Z.
Proof.
  revert i; induction names as [| n names IH]; intros i H Hr; simpl in *; [congruence |].
  destruct (NarcdtcNames.str_compare_upper input n) as [v |] eqn:Ev; [| discriminate].
  destruct (v =? 0)%Z eqn:E.
  - apply Z.eqb_eq in E; subst v. injection H as <-.
    exists n; split; [left; reflexivity | exact Ev].
  - destruct (IH (i + 1)%Z H Hr) as (m & Hin & Hm). exists m; split; [right |]; assumption.
Qed.

Lemma narcdtc_search_alternatives_sound (input : string) (alts : list (string * Z)) (r : Z) :
  NarcdtcNames.search_alternatives input alts = Some r -> r <> 0%Z ->
  exists a, In (a, r) alts /\ NarcdtcNames.str_compare_upper input a = Some 0%Z.
Proof.
  induction alts as [| [a id] alts IH]; intros H Hr; simpl in *; [congruence |].
  destruct (NarcdtcNames.str_compare_upper input a) as [v |] eqn:Ev; [| discriminate].
  destruct (v =? 0)%Z eqn:E.
  - apply Z.eqb_eq in E; subst v. injection H as <-.
    exists a; split; [left; reflexivity | exact Ev].
  - destruct (IH H Hr) as (m & Hin & Hm). exists m; split; [right |]; assumption.
Qed.

Lemma narcdtc_search_table_defined (input : string) (names : list string) (i : Z) :
  (String.length input < 100)%nat ->
  Forall (fun n => (String.length n < 100)%nat) names ->
  exists r, NarcdtcNames.search_table input i names = Some r.
Proof.
  intros Hin H; revert i; induction H as [| n names Hn Hnames IH]; intros i; simpl.
  - eexists; reflexivity.
  - unfold NarcdtcNames.str_compare_upper.
    apply Nat.ltb_lt in Hin, Hn. rewrite Hin, Hn. cbn [andb].
    destruct (_ =? 0)%Z; [eexists; reflexivity | apply IH].
Qed.

Lemma narcdtc_search_alternatives_defined (input : string) (alts : list (string * Z)) :
  (String.length input < 100)%nat ->
  Forall (fun a => (String.length (fst a) < 100)%nat) alts ->
  exists r, NarcdtcNames.search_alternatives input alts = Some r.
Proof.
  intros Hin H; induction H as [| [a id] alts Ha Halts IH]; simpl.
  - eexists; reflexivity.
  - unfold NarcdtcNames.str_compare_upper. simpl in Ha.
    apply Nat.ltb_lt in Hin, Ha. rewrite Hin, Ha. cbn [andb].
    destruct (_ =? 0)%Z; [eexists; reflexivity | exact IH].
Qed.

Lemma take_until_length (p : ascii -> bool) (s : string) :
  (String.length (take_until p s) <= String.length s)%nat.
Proof.
  induction s as [| c s IH]; simpl; [lia |]. destruct (p c); simpl; lia.
Qed.

Lemma prepare_input_length (buf : string) :
  (String.length (prepare_input buf) <= String.length buf)%nat.
Proof.
  rewrite prepare_input_spec.
  pose proof (take_until_length (Ascii.eqb NEWLINE)
                (take_until (Ascii.eqb NUL) (str_upper buf))).
  pose proof (take_until_length (Ascii.eqb NUL) (str_upper buf)).
  rewrite str_upper_length in H0. lia.
Qed.

Lemma dict_mem_in (e : string * Z) (d : list (string * Z)) : dict_mem e d = true -> In e d.
Proof.
  unfold dict_mem; intros H. apply existsb_exists in H. destruct H as ([n r] & Hin & H).
  apply andb_true_iff in H; destruct H as [H1 H2].
  apply String.eqb_eq in H1. apply Z.eqb_eq in H2. destruct e as [n' r']; simpl in *.
  subst; exact Hin.
Qed.

Lemma numbered_from_keys (names : list string) (i : Z) (n : string) :
  In n names -> exists r, In (n, r) (numbered_from i names).
Proof.
  revert i; induction names as [| m names IH]; intros i Hn; [destruct Hn |].
  destruct Hn as [-> | Hn]; [exists i; left; reflexivity |].
  destruct (IH (i + 1)%Z Hn) as [r Hr]. exists r; right; exact Hr.
Qed.

(** The search of the single-matrix program, on a prepared input shorter
    than its buffers: it is defined, and a non-zero result is the identifier
    of a dictionary entry equal to the input. *)
Lemma narcdtc_resolve_sound (names : list string) (alts : list (string * Z)) (input : string) :
  str_upper input = input -> no_nul input = true ->
  (String.length input < 100)%nat ->
  forallb well_named (map fst (numbered names ++ alts)) = true ->
  exists r,
    match NarcdtcNames.search_table input 1 names with
    | None => None
    | Some i => if (i =? 0)%Z then NarcdtcNames.search_alternatives input alts else Some i
    end = Some r /\
    (r <> 0%Z -> In (input, r) (numbered names ++ alts)).
Proof.
  intros Hup Hnn Hlen Hwn. rewrite forallb_forall in Hwn.
  assert (Hshort : forall n r, In (n, r) (numbered names ++ alts) ->
                   well_named n = true).
  { intros n r Hin. apply Hwn, in_map_iff. exists (n, r); split; [reflexivity | exact Hin]. }
  assert (Hlen99 : forall n, well_named n = true -> (String.length n < 100)%nat).
  { intros n Hn. unfold well_named in Hn.
    apply andb_true_iff in Hn; destruct Hn as [Hn _].
    apply andb_true_iff in Hn; destruct Hn as [_ Hn]. apply Nat.ltb_lt in Hn. lia. }
  assert (Hnames : Forall (fun n => (String.length n < 100)%nat) names).
  { apply Forall_forall; intros n Hn.
    destruct (numbered_from_keys names 1 n Hn) as [r Hr].
    apply Hlen99, (Hshort n r). apply in_or_app; left; exact Hr. }
  assert (Halts : Forall (fun a => (String.length (fst a) < 100)%nat) alts).
  { apply Forall_forall; intros [a id] Ha. simpl.
    apply Hlen99, (Hshort a id). apply in_or_app; right; exact Ha. }
  destruct (narcdtc_search_table_defined input names 1 Hlen Hnames) as [i Hi].
  rewrite Hi. destruct (i =? 0)%Z eqn:E.
  - destruct (narcdtc_search_alternatives_defined input alts Hlen Halts) as [r Hr].
    exists r; split; [exact Hr |]. intros Hnz.
    destruct (narcdtc_search_alternatives_sound input alts r Hr Hnz) as (a & Hin & Hz).
    assert (Hin' : In (a, r) (numbered names ++ alts)) by (apply in_or_app; right; exact Hin).
    rewrite (narcdtc_compare_zero input a Hup Hnn (Hshort a r Hin') Hz). exact Hin'.
  - exists i; split; [reflexivity |]. intros Hnz.
    destruct (narcdtc_search_table_sound input names 1 i Hi Hnz) as (n & Hin & Hz).
    assert (Hin' : In (n, i) (numbered names ++ alts)) by (apply in_or_app; left; exact Hin).
    rewrite (narcdtc_compare_zero input n Hup Hnn (Hshort n i Hin') Hz). exact Hin'.
Qed.

Lemma narcdtc_drug_dictionary_well_named :
  forallb well_named (map fst narcdtc_drug_dictionary) = true.
Proof. reflexivity. Qed.

Lemma narcdtc_route_dictionary_well_named :
  forallb well_named (map fst narcdtc_route_dictionary) = true.
Proof. reflexivity. Qed.

Lemma narcdtc_drug_dictionary_included :
  forallb (fun e => dict_mem e drug_dictionary) narcdtc_drug_dictionary = true.
Proof. reflexivity. Qed.

Lemma narcdtc_route_dictionary_included :
  forallb (fun e => dict_mem e route_dictionary) narcdtc_route_dictionary = true.
Proof. reflexivity. Qed.

(** X4.  Every name that NARCDTC.C accepts is accepted by the dual-matrix
    program with the same identifier: on a buffer shorter than the 100
    characters of its comparison buffers, the selection functions of
    NARCDTC.C return a value, and when that value is not 0 the selection
    functions of the dual-matrix program return the same value. *)
Theorem names_backward_compatible (buf : string) :
  (String.length buf < 100)%nat ->
  (exists d, NarcdtcNames.drug_of_buffer buf = Some d /\
             (d <> 0%Z -> drug_of_buffer buf = d)) /\
  (exists r, NarcdtcNames.route_of_buffer buf = Some r /\
             (r <> 0%Z -> route_of_buffer buf = r)).
Proof.
  intros Hlen.
  assert (Hl : (String.length (prepare_input buf) < 100)%nat)
    by (pose proof (prepare_input_length buf); lia).
  split.
  - destruct (narcdtc_resolve_sound (map Narcdtc.name (tl Narcdtc.drugs_table))
                NarcdtcNames.drug_alternatives (prepare_input buf)
                (prepare_input_upper buf) (prepare_input_no_nul buf) Hl
                narcdtc_drug_dictionary_well_named) as (d & Hd & Hin).
    exists d; split; [exact Hd |]. intros Hnz.
    apply (proj1 (drug_resolution_exact_key buf) d Hnz).
    apply dict_mem_in.
    pose proof narcdtc_drug_dictionary_included as Hinc.
    rewrite forallb_forall in Hinc. apply Hinc, Hin, Hnz.
  - destruct (narcdtc_resolve_sound (map route_name (tl routes_table))
                NarcdtcNames.route_alternatives (prepare_input buf)
                (prepare_input_upper buf) (prepare_input_no_nul buf) Hl
                narcdtc_route_dictionary_well_named) as (r & Hr & Hin).
    exists r; split; [exact Hr |]. intros Hnz.
    apply (proj1 (route_resolution_exact_key buf) r Hnz).
    apply dict_mem_in.
    pose proof narcdtc_route_dictionary_included as Hinc.
    rewrite forallb_forall in Hinc. apply Hinc, Hin, Hnz.
Qed.

Lemma names_backward_compatible_witness :
  NarcdtcNames.drug_of_buffer "Meperidine
" = Some DRUG_PETHIDINE /\
  drug_of_buffer "Meperidine
" = DRUG_PETHIDINE.
Proof.
  assert (Hlen : (String.length "Meperidine
" < 100)%nat) by (simpl; lia).
  destruct (names_backward_compatible "Meperidine
" Hlen) as [(d & Hd & Hsame) _].
  assert (E : NarcdtcNames.drug_of_buffer "Meperidine
" = Some DRUG_PETHIDINE) by reflexivity.
  split; [exact E |].
  rewrite E in Hd; injection Hd as <-. apply Hsame. discriminate.
Defined.

(** ** Route adjustment *)

Ltac bounded_cases :=
  match goal with
  | H : bounded_params _ |- _ => destruct H as ((? & ?) & (? & ?) & (? & ?))
  end;
  unfold bounded_params;
  repeat match goal with
         | |- context [if ?b then _ else _] => destruct b
         end;
  unfold set_bioavail, set_oral_fac, set_absorpt; cbn [bioavail oral_fac absorpt];
  repeat split; try assumption; lra.

Lemma adjust_route_with_bounded (o : bool) (drug route : Z) (p : RouteParams) :
  bounded_params p -> bounded_params (adjust_route_with o drug route p).
Proof.
  unfold adjust_route_with; intros H.
  assert (A : bounded_params (adjust_alcohol drug route p))
    by (unfold adjust_alcohol; bounded_cases).
  revert A; generalize (adjust_alcohol drug route p); clear; intros q A.
  assert (A' : bounded_params (adjust_fentanyl drug route q))
    by (unfold adjust_fentanyl; bounded_cases).
  revert A'; generalize (adjust_fentanyl drug route q); clear; intros q A.
  assert (A' : bounded_params (adjust_stimulants drug route q))
    by (unfold adjust_stimulants; bounded_cases).
  revert A'; generalize (adjust_stimulants drug route q); clear; intros q A.
  assert (A' : bounded_params (adjust_opioids o route q))
    by (unfold adjust_opioids; bounded_cases).
  revert A'; generalize (adjust_opioids o route q); clear; intros q A.
  assert (A' : bounded_params (adjust_psychedelics drug route q))
    by (unfold adjust_psychedelics; bounded_cases).
  revert A'; generalize (adjust_psychedelics drug route q); clear; intros q A.
  assert (A' : bounded_params (adjust_benzodiazepines drug route q))
    by (unfold adjust_benzodiazepines; bounded_cases).
  revert A'; generalize (adjust_benzodiazepines drug route q); clear; intros q A.
  assert (A' : bounded_params (adjust_ketamine drug route q))
    by (unfold adjust_ketamine; bounded_cases).
  revert A'; generalize (adjust_ketamine drug route q); clear; intros q A.
  assert (A' : bounded_params (adjust_ghb drug route q))
    by (unfold adjust_ghb; bounded_cases).
  revert A'; generalize (adjust_ghb drug route q); clear; intros q A.
  unfold adjust_topical; bounded_cases.
Qed.

Lemma base_params_bounded (route : Z) :
  (1 <= route <= NUM_ROUTES)%Z -> bounded_params (base_params route).
Proof.
  intros H; destruct (valid_index _ _ H) as [k [Hk E]].
  unfold base_params, bounded_params, routes; rewrite E; clear E H.
  change (Z.to_nat NUM_ROUTES) with 11%nat in Hk.
  do 11 (destruct k as [| k];
         [cbn [nth routes_table bioavailability absorption_rate oral_factor
               bioavail oral_fac absorpt]; repeat split; lra |]).
  lia.
Qed.

Lemma adjusted_positive_both (drug route : Z) :
  (1 <= route <= NUM_ROUTES)%Z ->
  positive_params (adjust_route_parameters drug route (base_params route)) /\
  positive_params (Narcdtc.adjust_route_parameters drug route (base_params route)).
Proof.
  intros H; destruct (routes_positive route H) as (Hb & Ha & Ho).
  assert (P : positive_params (base_params route))
    by (unfold positive_params, base_params; cbn [bioavail oral_fac absorpt]; tauto).
  split; [unfold adjust_route_parameters | unfold Narcdtc.adjust_route_parameters];
    apply adjust_route_with_positive; exact P.
Qed.

(** X5.  For every drug and every route of the table, in both programs, the
    adjusted parameters stay in range: the bioavailability is a fraction in
    (0, 1], the oral factor lies in (0, 0.08] and the absorption rate in
    (0, 12]. *)
Theorem adjusted_parameters_in_range (drug route : Z) :
  (1 <= route <= NUM_ROUTES)%Z ->
  bounded_params (adjust_route_parameters drug route (base_params route)) /\
  bounded_params (Narcdtc.adjust_route_parameters drug route (base_params route)).
Proof.
  intros H; pose proof (base_params_bounded route H) as B.
  split; [unfold adjust_route_parameters | unfold Narcdtc.adjust_route_parameters];
    apply adjust_route_with_bounded; exact B.
Qed.

Lemma adjusted_parameters_in_range_witness :
  bounded_params (adjust_route_parameters DRUG_FENTANYL ROUTE_TRANSDERMAL
                    (base_params ROUTE_TRANSDERMAL)).
Proof.
  assert (H : (1 <= ROUTE_TRANSDERMAL <= NUM_ROUTES)%Z)
    by (unfold ROUTE_TRANSDERMAL, NUM_ROUTES; lia).
  exact (proj1 (adjusted_parameters_in_range DRUG_FENTANYL ROUTE_TRANSDERMAL H)).
Defined.

Lemma topical_rules_before (o : bool) (drug : Z) (p : RouteParams) :
  adjust_alcohol drug ROUTE_TOPICAL p = p /\
  adjust_fentanyl drug ROUTE_TOPICAL p = p /\
  adjust_stimulants drug ROUTE_TOPICAL p = p /\
  adjust_opioids o ROUTE_TOPICAL p = p /\
  adjust_psychedelics drug ROUTE_TOPICAL p = p /\
  adjust_benzodiazepines drug ROUTE_TOPICAL p = p /\
  adjust_ketamine drug ROUTE_TOPICAL p = p.
Proof.
  unfold adjust_alcohol, adjust_fentanyl, adjust_stimulants, adjust_opioids,
    adjust_psychedelics, adjust_benzodiazepines, adjust_ketamine.
  repeat match goal with
         | |- context [(ROUTE_TOPICAL =? ?r)%Z] =>
             let v := eval vm_compute in (ROUTE_TOPICAL =? r)%Z in
             change (ROUTE_TOPICAL =? r)%Z with v
         end.
  cbn [orb andb negb]; rewrite ?Bool.andb_false_r.
  repeat split;
    repeat match goal with
           | |- context [if ?b then _ else _] => destruct b
           end; reflexivity.
Qed.

Lemma adjust_route_with_topical (o : bool) (drug : Z) (p : RouteParams) :
  adjust_route_with o drug ROUTE_TOPICAL p
  = adjust_topical drug ROUTE_TOPICAL (adjust_ghb drug ROUTE_TOPICAL p).
Proof.
  unfold adjust_route_with; cbv zeta.
  destruct (topical_rules_before o drug p) as (E1 & _); rewrite E1.
  destruct (topical_rules_before o drug p) as (_ & E2 & _); rewrite E2.
  destruct (topical_rules_before o drug p) as (_ & _ & E3 & _); rewrite E3.
  destruct (topical_rules_before o drug p) as (_ & _ & _ & E4 & _); rewrite E4.
  destruct (topical_rules_before o drug p) as (_ & _ & _ & _ & E5 & _); rewrite E5.
  destruct (topical_rules_before o drug p) as (_ & _ & _ & _ & _ & E6 & _); rewrite E6.
  destruct (topical_rules_before o drug p) as (_ & _ & _ & _ & _ & _ & E7); rewrite E7.
  reflexivity.
Qed.

(** X6.  The topical restriction is applied last and overrides every
    drug-specific rule: by the topical route every drug other than fentanyl
    and methadone gets bioavailability 0.05 and oral factor 0.002 with the
    route's own absorption rate, while fentanyl and methadone keep the three
    table values of the route. *)
Theorem topical_restriction (drug : Z) :
  (drug <> DRUG_FENTANYL -> drug <> DRUG_METHADONE ->
   adjust_route_parameters drug ROUTE_TOPICAL (base_params ROUTE_TOPICAL)
   = {| bioavail := 0.05; oral_fac := 0.002;
        absorpt := absorption_rate (routes ROUTE_TOPICAL) |}) /\
  (drug = DRUG_FENTANYL \/ drug = DRUG_METHADONE ->
   adjust_route_parameters drug ROUTE_TOPICAL (base_params ROUTE_TOPICAL)
   = base_params ROUTE_TOPICAL).
Proof.
  unfold adjust_route_parameters; rewrite adjust_route_with_topical.
  unfold adjust_topical, adjust_ghb.
  change (ROUTE_TOPICAL =? ROUTE_TOPICAL)%Z with true.
  change (ROUTE_TOPICAL =? ROUTE_ORAL)%Z with false.
  cbn [negb]; rewrite Bool.andb_true_r.
  split.
  - intros Hf Hm. apply Z.eqb_neq in Hf, Hm. rewrite Hf, Hm.
    destruct (drug =? DRUG_GHB)%Z; reflexivity.
  - intros [-> | ->]; reflexivity.
Qed.

Lemma topical_restriction_witness :
  adjust_route_parameters DRUG_GHB ROUTE_TOPICAL (base_params ROUTE_TOPICAL)
  = {| bioavail := 0.05; oral_fac := 0.002;
       absorpt := absorption_rate (routes ROUTE_TOPICAL) |}.
Proof.
  apply (proj1 (topical_restriction DRUG_GHB)); discriminate.
Defined.

(** ** The calculation, for every input *)

(** Every field of a defined calculation, in terms of the inputs. *)
Lemma calculate_run (M drug route dosage weight age metab : Z) (duration : R) :
  dose_count_fits M duration (dosing_interval (drugs drug)) ->
  exists c,
    calculate_detection_time M drug route dosage weight age metab duration = Some c /\
    let d := drugs drug in
    let p := adjust_route_parameters drug route (base_params route) in
    let n := (Ztrunc (duration / dosing_interval d) + 1)%Z in
    let ks := 0.693 / flip_flop (absorpt p) (halflife_saliva d)
              * age_factor_of age * metab_factor_of metab in
    let ku := 0.693 / flip_flop (absorpt p) (halflife_urine d)
              * age_factor_of age * metab_factor_of metab in
    let single := single_conc_of drug dosage weight (oral_fac p) (bioavail p) in
    let rs := 1.0 - exp (- ks * dosing_interval d) in
    let ru := 1.0 - exp (- ku * dosing_interval d) in
    res_params c = p /\ res_num_doses c = n /\
    single_conc_saliva c = single /\ single_conc_urine c = single /\
    elim_rate_saliva c = ks /\ elim_rate_urine c = ku /\
    r_factor_saliva c = rs /\ r_factor_urine c = ru /\
    accumulation_factor_saliva c = accumulation_of rs n /\
    accumulation_factor_urine c = accumulation_of ru n /\
    total_conc_saliva c = single * accumulation_of rs n /\
    total_conc_urine c = single * accumulation_of ru n /\
    buildup_saliva c = buildup_of (single * accumulation_of rs n) (single / rs) /\
    buildup_urine c = buildup_of (single * accumulation_of ru n) (single / ru) /\
    detection_time_saliva c
    = detection_time_of (single * accumulation_of rs n) (cutoff_saliva d) ks /\
    detection_time_urine c
    = detection_time_of (single * accumulation_of ru n) (cutoff_urine d) ku.
Proof.
  intros [H1 H2]; unfold calculate_detection_time.
  rewrite (float_to_int_intro M _ _ eq_refl) by lia.
  rewrite int_add_intro by lia.
  eexists; split; [reflexivity |].
  cbv zeta; cbn [res_params res_num_doses single_conc_saliva single_conc_urine
    elim_rate_saliva elim_rate_urine r_factor_saliva r_factor_urine
    accumulation_factor_saliva accumulation_factor_urine total_conc_saliva total_conc_urine
    buildup_saliva buildup_urine detection_time_saliva detection_time_urine].
  repeat split.
Qed.

Lemma narcdtc_calculate_run (M drug route dosage weight age metab : Z) (duration : R) :
  dose_count_fits M duration (Narcdtc.dosing_interval (Narcdtc.drugs drug)) ->
  exists c,
    Narcdtc.calculate_detection_time M drug route dosage weight age metab duration = Some c /\
    let d := Narcdtc.drugs drug in
    let p := Narcdtc.adjust_route_parameters drug route (base_params route) in
    let n := (Ztrunc (duration / Narcdtc.dosing_interval d) + 1)%Z in
    let k := 0.693 / flip_flop (absorpt p) (Narcdtc.halflife d)
             * age_factor_of age * metab_factor_of metab in
    let single := single_conc_of drug dosage weight (oral_fac p) (bioavail p) in
    let r := 1.0 - exp (- k * Narcdtc.dosing_interval d) in
    Narcdtc.res_params c = p /\ Narcdtc.res_num_doses c = n /\
    Narcdtc.single_conc c = single /\ Narcdtc.elim_rate c = k /\
    Narcdtc.r_factor c = r /\
    Narcdtc.accumulation_factor c = accumulation_of r n /\
    Narcdtc.total_conc c = single * accumulation_of r n /\
    Narcdtc.buildup c = buildup_of (single * accumulation_of r n) (single / r) /\
    Narcdtc.detection_time c
    = detection_time_of (single * accumulation_of r n) (Narcdtc.cutoff d) k.
Proof.
  intros [H1 H2]; unfold Narcdtc.calculate_detection_time.
  rewrite (float_to_int_intro M _ _ eq_refl) by lia.
  rewrite int_add_intro by lia.
  eexists; split; [reflexivity |].
  cbv zeta; cbn [Narcdtc.res_params Narcdtc.res_num_doses Narcdtc.single_conc
    Narcdtc.elim_rate Narcdtc.r_factor Narcdtc.accumulation_factor Narcdtc.total_conc
    Narcdtc.buildup Narcdtc.detection_time].
  repeat split.
Qed.

Lemma div_le_compat (a a' w w' : R) :
  0 <= a <= a' -> 0 < w' <= w -> a / w <= a' / w'.
Proof.
  intros [H0 Ha] [Hw' Hw].
  assert (Hi : / w <= / w') by (apply Rinv_le_contravar; assumption).
  assert (Hp : 0 < / w) by (apply Rinv_0_lt_compat; lra).
  unfold Rdiv; apply Rle_trans with (a' * / w).
  - apply Rmult_le_compat_r; lra.
  - apply Rmult_le_compat_l; lra.
Qed.

Lemma single_conc_of_monotone (drug dosage dosage' weight weight' : Z) (o b : R) :
  (0 <= dosage <= dosage')%Z -> (0 < weight' <= weight)%Z -> 0 < o -> 0 < b ->
  single_conc_of drug dosage weight o b <= single_conc_of drug dosage' weight' o b.
Proof.
  intros [Hd0 Hd] [Hw0 Hw] Ho Hb.
  assert (D0 : 0 <= IZR dosage) by (apply (IZR_le 0); exact Hd0).
  assert (D : IZR dosage <= IZR dosage') by (apply IZR_le; exact Hd).
  assert (W0 : 0 < IZR weight') by (apply (IZR_lt 0); exact Hw0).
  assert (W : IZR weight' <= IZR weight) by (apply IZR_le; exact Hw).
  assert (Hob : 0 < o * b) by (apply Rmult_lt_0_compat; assumption).
  assert (P0 : 0 <= IZR dosage * (o * b)) by (apply Rmult_le_pos; lra).
  assert (P : IZR dosage * (o * b) <= IZR dosage' * (o * b))
    by (apply Rmult_le_compat_r; lra).
  unfold single_conc_of, fentanyl_dose_constant.
  destruct (drug =? DRUG_FENTANYL)%Z; [| destruct (drug =? DRUG_ALCOHOL)%Z];
    apply div_le_compat; split; try assumption; try lra.
Qed.

Lemma detection_time_of_monotone (total total' cutoff k : R) :
  0 < cutoff -> 0 < k -> total <= total' ->
  detection_time_of total cutoff k <= detection_time_of total' cutoff k.
Proof.
  intros Hc Hk Ht.
  destruct (Rle_dec total cutoff) as [L | G].
  - rewrite (detection_time_of_below total) by exact L.
    apply detection_time_of_nonneg; assumption.
  - rewrite !detection_time_of_above by lra.
    assert (Hi : 0 < / cutoff) by (apply Rinv_0_lt_compat; exact Hc).
    assert (Hik : 0 < / k) by (apply Rinv_0_lt_compat; exact Hk).
    assert (P : 0 < total / cutoff) by (apply Rmult_lt_0_compat; lra).
    assert (Q : total / cutoff <= total' / cutoff)
      by (apply Rmult_le_compat_r; lra).
    apply Rmult_le_compat_r; [lra |].
    destruct Q as [Q | Q]; [left; apply ln_increasing; assumption | rewrite Q; lra].
Qed.

(** X8.  In both programs a larger dose or a lighter body never lowers the
    exposure: with the other inputs fixed, the single-dose concentration, the
    total concentrations and the detection times of the run with the larger
    dose and the smaller weight are at least those of the other run. *)
Theorem exposure_monotone
    (M drug route dosage dosage' weight weight' age metab : Z) (duration : R) :
  (1 <= route <= NUM_ROUTES)%Z ->
  (0 <= dosage <= dosage')%Z -> (0 < weight' <= weight)%Z -> 0 <= duration ->
  ((1 <= drug <= NUM_DRUGS)%Z ->
   dose_count_fits M duration (dosing_interval (drugs drug)) ->
   exists c c',
     calculate_detection_time M drug route dosage weight age metab duration = Some c /\
     calculate_detection_time M drug route dosage' weight' age metab duration = Some c' /\
     single_conc_saliva c <= single_conc_saliva c' /\
     total_conc_saliva c <= total_conc_saliva c' /\
     total_conc_urine c <= total_conc_urine c' /\
     detection_time_saliva c <= detection_time_saliva c' /\
     detection_time_urine c <= detection_time_urine c') /\
  ((1 <= drug <= Narcdtc.NUM_DRUGS)%Z ->
   dose_count_fits M duration (Narcdtc.dosing_interval (Narcdtc.drugs drug)) ->
   exists c c',
     Narcdtc.calculate_detection_time M drug route dosage weight age metab duration
     = Some c /\
     Narcdtc.calculate_detection_time M drug route dosage' weight' age metab duration
     = Some c' /\
     Narcdtc.single_conc c <= Narcdtc.single_conc c' /\
     Narcdtc.total_conc c <= Narcdtc.total_conc c' /\
     Narcdtc.detection_time c <= Narcdtc.detection_time c').
Proof.
  intros Hroute Hdose Hweight Hd; split; intros Hdrug Hfit.
  - destruct (calculate_run M drug route dosage weight age metab duration Hfit)
      as (c & Hc & I); cbv zeta in I.
    destruct (calculate_run M drug route dosage' weight' age metab duration Hfit)
      as (c' & Hc' & I'); cbv zeta in I'.
    destruct I as (_ & _ & Es & _ & _ & _ & _ & _ & _ & _ & Ets & Etu & _ & _ & Eds & Edu).
    destruct I' as (_ & _ & Es' & _ & _ & _ & _ & _ & _ & _ & Ets' & Etu' & _ & _
                    & Eds' & Edu').
    exists c, c'; split; [exact Hc |]; split; [exact Hc' |].
    rewrite Es, Es', Ets, Ets', Etu, Etu', Eds, Eds', Edu, Edu'.
    destruct (drugs_positive drug Hdrug) as (Hs & Hu & Hcs & Hcu & Hdi).
    destruct (num_doses_floor duration _ Hd Hdi) as [_ Hn].
    destruct (adjusted_positive_both drug route Hroute) as [(Hb & Ho & _) _].
    pose proof (single_conc_of_monotone drug _ _ _ _ _ _ Hdose Hweight Ho Hb) as Hm.
    assert (A : forall h, 0 < h ->
              0 <= accumulation_of
                     (1.0 - exp (- (0.693 / flip_flop
                        (absorpt (adjust_route_parameters drug route (base_params route))) h
                        * age_factor_of age * metab_factor_of metab)
                        * dosing_interval (drugs drug)))
                     (Ztrunc (duration / dosing_interval (drugs drug)) + 1)).
    { intros h Hh; apply accumulation_of_nonneg; [| exact Hn].
      apply r_factor_range; [apply elim_rate_pos; exact Hh | exact Hdi]. }
    pose proof (A _ Hs) as As; pose proof (A _ Hu) as Au.
    split; [exact Hm |].
    split; [apply Rmult_le_compat_r; assumption |].
    split; [apply Rmult_le_compat_r; assumption |].
    split; apply detection_time_of_monotone;
      try assumption; try (apply elim_rate_pos; assumption);
      apply Rmult_le_compat_r; assumption.
  - destruct (narcdtc_calculate_run M drug route dosage weight age metab duration Hfit)
      as (c & Hc & I); cbv zeta in I.
    destruct (narcdtc_calculate_run M drug route dosage' weight' age metab duration Hfit)
      as (c' & Hc' & I'); cbv zeta in I'.
    destruct I as (_ & _ & Es & _ & _ & _ & Et & _ & Ed).
    destruct I' as (_ & _ & Es' & _ & _ & _ & Et' & _ & Ed').
    exists c, c'; split; [exact Hc |]; split; [exact Hc' |].
    rewrite Es, Es', Et, Et', Ed, Ed'.
    destruct (narcdtc_drugs_positive drug Hdrug) as (Hh & Hcut & Hdi).
    destruct (num_doses_floor duration _ Hd Hdi) as [_ Hn].
    destruct (adjusted_positive_both drug route Hroute) as [_ (Hb & Ho & _)].
    pose proof (single_conc_of_monotone drug _ _ _ _ _ _ Hdose Hweight Ho Hb) as Hm.
    assert (A : 0 <= accumulation_of
                     (1.0 - exp (- (0.693 / flip_flop
                        (absorpt (Narcdtc.adjust_route_parameters drug route
                                    (base_params route)))
                        (Narcdtc.halflife (Narcdtc.drugs drug))
                        * age_factor_of age * metab_factor_of metab)
                        * Narcdtc.dosing_interval (Narcdtc.drugs drug)))
                     (Ztrunc (duration / Narcdtc.dosing_interval (Narcdtc.drugs drug)) + 1)).
    { apply accumulation_of_nonneg; [| exact Hn].
      apply r_factor_range; [apply elim_rate_pos; exact Hh | exact Hdi]. }
    split; [exact Hm |].
    split; [apply Rmult_le_compat_r; assumption |].
    apply detection_time_of_monotone;
      try assumption; try (apply elim_rate_pos; assumption);
      apply Rmult_le_compat_r; assumption.
Qed.

Lemma exposure_monotone_witness :
  exists c c',
    calculate_detection_time 32767 8 2 500 90 28 3 48 = Some c /\
    calculate_detection_time 32767 8 2 1000 76 28 3 48 = Some c' /\
    total_conc_saliva c <= total_conc_saliva c' /\
    detection_time_urine c <= detection_time_urine c'.
Proof.
  assert (Hr : (1 <= 2 <= NUM_ROUTES)%Z) by (unfold NUM_ROUTES; lia).
  assert (Hx : (0 <= 500 <= 1000)%Z) by lia.
  assert (Hw : (0 < 76 <= 90)%Z) by lia.
  assert (H0 : 0 <= 48) by lra.
  assert (Hd : (1 <= 8 <= NUM_DRUGS)%Z) by (unfold NUM_DRUGS; lia).
  assert (Hf : dose_count_fits 32767 48 (dosing_interval (drugs 8)))
    by (apply morphine_fits; lra).
  destruct (proj1 (exposure_monotone 32767 8 2 500 1000 90 76 28 3 48 Hr Hx Hw H0) Hd Hf)
    as (c & c' & Hc & Hc' & _ & Hts & _ & _ & Hdu).
  exists c, c'; repeat split; assumption.
Defined.

(** ** Flip-flop kinetics, age and metabolism *)

Lemma flip_flop_closed (a h : R) :
  0 < h ->
  (a <= h * 0.693 -> flip_flop a h = h) /\
  (a > h * 0.693 -> flip_flop a h = h + a / 0.693) /\
  h <= flip_flop a h.
Proof.
  intros Hh; unfold flip_flop.
  destruct (Rle_dec a (h * 0.693)) as [L | G].
  - rewrite fgt_false by exact L; repeat split; intros; lra.
  - rewrite fgt_true by lra.
    assert (E : forall k, 0 < k -> h * (1 + a / (h * k)) = h + a / k)
      by (intros k Hk; field; lra).
    replace 1.0 with 1 by lra; rewrite E by lra.
    assert (P : 0 < a / 0.693) by (apply Rmult_lt_0_compat; [nra | lra]).
    repeat split; intros; lra.
Qed.

Lemma rate_le_compat (h h' f g : R) :
  0 < h <= h' -> 0 < f -> 0 < g -> 0.693 / h' * f * g <= 0.693 / h * f * g.
Proof.
  intros [H0 H] Hf Hg.
  assert (Hi : / h' <= / h) by (apply Rinv_le_contravar; assumption).
  assert (Hfg : 0 < f * g) by (apply Rmult_lt_0_compat; assumption).
  unfold Rdiv; rewrite !Rmult_assoc.
  apply Rmult_le_compat_l; [lra |].
  apply Rmult_le_compat_r; lra.
Qed.

(** X9.  When the adjusted absorption rate exceeds 0.693 times the table
    half-life, the calculation replaces the half-life h by h + absorption /
    0.693; otherwise it keeps h.  The saliva and the urine half-life are
    corrected separately, and the correction never raises an elimination
    rate above the one of the table half-life. *)
Theorem flip_flop_kinetics (M drug route dosage weight age metab : Z) (duration : R) :
  (1 <= drug <= NUM_DRUGS)%Z ->
  dose_count_fits M duration (dosing_interval (drugs drug)) ->
  exists c,
    calculate_detection_time M drug route dosage weight age metab duration = Some c /\
    let a := absorpt (res_params c) in
    let f := age_factor_of age * metab_factor_of metab in
    let hs := halflife_saliva (drugs drug) in
    let hu := halflife_urine (drugs drug) in
    (a <= hs * 0.693 -> elim_rate_saliva c = 0.693 / hs * f) /\
    (a > hs * 0.693 -> elim_rate_saliva c = 0.693 / (hs + a / 0.693) * f) /\
    (a <= hu * 0.693 -> elim_rate_urine c = 0.693 / hu * f) /\
    (a > hu * 0.693 -> elim_rate_urine c = 0.693 / (hu + a / 0.693) * f) /\
    0 < elim_rate_saliva c <= 0.693 / hs * f /\
    0 < elim_rate_urine c <= 0.693 / hu * f.
Proof.
  intros Hdrug Hfit.
  destruct (calculate_run M drug route dosage weight age metab duration Hfit)
    as (c & Hc & I); cbv zeta in I.
  destruct I as (Ep & _ & _ & _ & Eks & Eku & _).
  exists c; split; [exact Hc |]. cbv zeta.
  rewrite Eks, Eku, Ep.
  destruct (drugs_positive drug Hdrug) as (Hs & Hu & _).
  set (a := absorpt (adjust_route_parameters drug route (base_params route))).
  destruct (flip_flop_closed a _ Hs) as (S1 & S2 & S3).
  destruct (flip_flop_closed a _ Hu) as (U1 & U2 & U3).
  pose proof (age_factor_pos age) as Ha; pose proof (metab_factor_pos metab) as Hm.
  repeat split.
  - intros L; rewrite (S1 L); ring.
  - intros G; rewrite (S2 G); ring.
  - intros L; rewrite (U1 L); ring.
  - intros G; rewrite (U2 G); ring.
  - apply elim_rate_pos; exact Hs.
  - rewrite <- Rmult_assoc; apply rate_le_compat; [lra | exact Ha | exact Hm].
  - apply elim_rate_pos; exact Hu.
  - rewrite <- Rmult_assoc; apply rate_le_compat; [lra | exact Ha | exact Hm].
Qed.

Lemma flip_flop_kinetics_witness :
  exists c,
    calculate_detection_time 32767 DRUG_FENTANYL ROUTE_TRANSDERMAL 5 76 28 3 48 = Some c /\
    0 < elim_rate_saliva c /\ 0 < elim_rate_urine c.
Proof.
  assert (Hd : (1 <= DRUG_FENTANYL <= NUM_DRUGS)%Z)
    by (unfold DRUG_FENTANYL, NUM_DRUGS; lia).
  destruct (flip_flop_kinetics 32767 DRUG_FENTANYL ROUTE_TRANSDERMAL 5 76 28 3 48
              Hd fentanyl_fits) as (c & Hc & _ & _ & _ & _ & Hs & Hu).
  exists c; repeat split; [exact Hc | apply Hs | apply Hu].
Defined.

Lemma age_factor_antitone (age age' : Z) :
  (age <= age')%Z -> age_factor_of age' <= age_factor_of age.
Proof.
  intros H; unfold age_factor_of.
  destruct (Z.ltb_spec age 35), (Z.ltb_spec age 50), (Z.ltb_spec age 65),
    (Z.ltb_spec age' 35), (Z.ltb_spec age' 50), (Z.ltb_spec age' 65);
    try lia; lra.
Qed.

(** X10.  An older subject never eliminates faster: with the other inputs
    fixed, both elimination rates of the run with the greater age are at most
    those of the other run, while the concentration of a single dose and the
    number of doses do not depend on the age. *)
Theorem age_slows_elimination
    (M drug route dosage weight age age' metab : Z) (duration : R) :
  (1 <= drug <= NUM_DRUGS)%Z -> (age <= age')%Z ->
  dose_count_fits M duration (dosing_interval (drugs drug)) ->
  exists c c',
    calculate_detection_time M drug route dosage weight age metab duration = Some c /\
    calculate_detection_time M drug route dosage weight age' metab duration = Some c' /\
    elim_rate_saliva c' <= elim_rate_saliva c /\
    elim_rate_urine c' <= elim_rate_urine c /\
    single_conc_saliva c' = single_conc_saliva c /\
    res_num_doses c' = res_num_doses c.
Proof.
  intros Hdrug Hage Hfit.
  destruct (calculate_run M drug route dosage weight age metab duration Hfit)
    as (c & Hc & I); cbv zeta in I.
  destruct (calculate_run M drug route dosage weight age' metab duration Hfit)
    as (c' & Hc' & I'); cbv zeta in I'.
  destruct I as (_ & En & Es & _ & Eks & Eku & _).
  destruct I' as (_ & En' & Es' & _ & Eks' & Eku' & _).
  exists c, c'; split; [exact Hc |]; split; [exact Hc' |].
  rewrite En, En', Es, Es', Eks, Eks', Eku, Eku'.
  destruct (drugs_positive drug Hdrug) as (Hs & Hu & _).
  pose proof (age_factor_antitone age age' Hage) as Ha.
  pose proof (metab_factor_pos metab) as Hm.
  assert (K : forall h, 0 < h ->
            0.693 / flip_flop
              (absorpt (adjust_route_parameters drug route (base_params route))) h
            * age_factor_of age' * metab_factor_of metab
            <= 0.693 / flip_flop
                 (absorpt (adjust_route_parameters drug route (base_params route))) h
               * age_factor_of age * metab_factor_of metab).
  { intros h Hh.
    pose proof (flip_flop_pos
                  (absorpt (adjust_route_parameters drug route (base_params route))) h Hh)
      as Hf.
    assert (Hq : 0 < 0.693 / flip_flop
                   (absorpt (adjust_route_parameters drug route (base_params route))) h)
      by (apply Rmult_lt_0_compat; [lra | apply Rinv_0_lt_compat; exact Hf]).
    apply Rmult_le_compat_r; [lra |].
    apply Rmult_le_compat_l; lra. }
  repeat split; [apply K; exact Hs | apply K; exact Hu].
Qed.

Lemma age_slows_elimination_witness :
  exists c c',
    calculate_detection_time 32767 8 2 1000 76 28 3 48 = Some c /\
    calculate_detection_time 32767 8 2 1000 76 70 3 48 = Some c' /\
    elim_rate_saliva c' <= elim_rate_saliva c /\
    elim_rate_urine c' <= elim_rate_urine c.
Proof.
  assert (Hd : (1 <= 8 <= NUM_DRUGS)%Z) by (unfold NUM_DRUGS; lia).
  assert (Ha : (28 <= 70)%Z) by lia.
  assert (Hf : dose_count_fits 32767 48 (dosing_interval (drugs 8)))
    by (apply morphine_fits; lra).
  destruct (age_slows_elimination 32767 8 2 1000 76 28 70 3 48 Hd Ha Hf)
    as (c & c' & Hc & Hc' & Hs & Hu & _).
  exists c, c'; repeat split; assumption.
Defined.

(** X11.  The metabolism code is not validated: every code other than 1 and
    2 is treated as code 3.  In both programs the whole calculation with such
    a code equals the calculation with code 3. *)
Theorem metabolism_code_default
    (M drug route dosage weight age metab : Z) (duration : R) :
  metab <> 1%Z -> metab <> 2%Z ->
  calculate_detection_time M drug route dosage weight age metab duration
  = calculate_detection_time M drug route dosage weight age 3 duration /\
  Narcdtc.calculate_detection_time M drug route dosage weight age metab duration
  = Narcdtc.calculate_detection_time M drug route dosage weight age 3 duration.
Proof.
  intros H1 H2.
  assert (E : metab_factor_of metab = metab_factor_of 3).
  { unfold metab_factor_of.
    apply Z.eqb_neq in H1, H2; rewrite H1, H2; reflexivity. }
  unfold calculate_detection_time, Narcdtc.calculate_detection_time.
  rewrite E; split; reflexivity.
Qed.

Lemma metabolism_code_default_witness :
  calculate_detection_time 32767 8 2 1000 76 28 0 48
  = calculate_detection_time 32767 8 2 1000 76 28 3 48.
Proof.
  assert (H1 : 0%Z <> 1%Z) by discriminate.
  assert (H2 : 0%Z <> 2%Z) by discriminate.
  exact (proj1 (metabolism_code_default 32767 8 2 1000 76 28 0 48 H1 H2)).
Defined.

(** ** The sampled curve *)

(** The fields of a plotted curve, in terms of the arguments. *)
Lemma plot_run (M : Z) (c0 kelim cutoff thalf duration di single a : R) :
  dose_count_fits M duration di ->
  exists cv,
    plot_concentration_curve M c0 kelim cutoff thalf duration di single a = Some cv /\
    let n := (Ztrunc (duration / di) + 1)%Z in
    let tmax := max_float (duration + 8.0 * thalf) 24.0 in
    let time := map (fun i => IZR i * (tmax / 60.0)) (indices 61) in
    let conc := map (sample_conc kelim duration di single a (ka_of a) n) time in
    let m0 := fold_left track_max conc 0.0 in
    let m1 := if flt m0 (cutoff * 2.0) then cutoff * 2.0 else m0 in
    let m2 := if flt m1 1.0 then 1.0 else m1 in
    cv_tmax cv = tmax /\ cv_num_doses cv = n /\ cv_time cv = time /\ cv_conc cv = conc /\
    cv_cmax cv = m2 /\ cv_analysis cv = analysis_of cutoff m2 time conc.
Proof.
  intros [H1 H2]; unfold plot_concentration_curve.
  rewrite (float_to_int_intro M _ _ eq_refl) by lia.
  rewrite int_add_intro by lia.
  eexists; split; [reflexivity |].
  cbv zeta; cbn [cv_tmax cv_num_doses cv_time cv_conc cv_cmax cv_analysis].
  repeat split.
Qed.

Lemma fold_track_max_ge (conc : list R) (m : R) :
  m <= fold_left track_max conc m /\
  Forall (fun c => c <= fold_left track_max conc m) conc.
Proof.
  revert m; induction conc as [| c conc IH]; intros m; simpl.
  - split; [lra | constructor].
  - destruct (IH (track_max m c)) as [H1 H2].
    assert (Hm : m <= track_max m c /\ c <= track_max m c)
      by (unfold track_max, fgt; destruct (Rgt_dec c m); lra).
    split; [lra |]. constructor; [lra | exact H2].
Qed.

Lemma scaled_maximum (m0 cutoff : R) :
  let m1 := if flt m0 (cutoff * 2.0) then cutoff * 2.0 else m0 in
  let m2 := if flt m1 1.0 then 1.0 else m1 in
  m0 <= m2 /\ cutoff * 2 <= m2 /\ 1 <= m2 /\ m2 <= Rmax (Rmax m0 (cutoff * 2)) 1.
Proof.
  cbv zeta; unfold flt, Rmax.
  destruct (Rlt_dec m0 (cutoff * 2.0));
    destruct (Rlt_dec _ 1.0); destruct (Rle_dec m0 (cutoff * 2));
    destruct (Rle_dec _ 1); lra.
Qed.

(** X13.  For a dose count that fits, a positive dosing interval and
    absorption rate, and non-negative elimination rate, single-dose
    concentration and duration, the curve has 61 time points starting at 0,
    every sampled concentration lies between 0 and the number of doses times
    the single-dose concentration, and the scaling maximum is at least every
    sample, at least 1 and at least twice the cutoff. *)
Theorem curve_samples_bounded
    (M : Z) (c0 kelim cutoff thalf duration di single a : R) :
  0 <= kelim -> 0 <= single -> 0 <= duration -> 0 < di -> 0 < a ->
  dose_count_fits M duration di ->
  exists cv,
    plot_concentration_curve M c0 kelim cutoff thalf duration di single a = Some cv /\
    List.length (cv_time cv) = 61%nat /\ List.length (cv_conc cv) = 61%nat /\
    nth 0 (cv_time cv) 0 = 0 /\
    Forall (fun c => 0 <= c <= IZR (cv_num_doses cv) * single) (cv_conc cv) /\
    Forall (fun c => c <= cv_cmax cv) (cv_conc cv) /\
    1 <= cv_cmax cv /\ cutoff * 2 <= cv_cmax cv /\
    cv_cmax cv <= Rmax (Rmax (IZR (cv_num_doses cv) * single) (cutoff * 2)) 1.
Proof.
  intros Hk Hs Hdur Hdi Ha Hfit.
  destruct (plot_run M c0 kelim cutoff thalf duration di single a Hfit)
    as (cv & Hcv & I); cbv zeta in I.
  destruct I as (_ & En & Et & Ec & Em & _).
  destruct (num_doses_floor duration di Hdur Hdi) as [_ Hn].
  exists cv; split; [exact Hcv |].
  rewrite Em, Ec, Et, En.
  set (n := (Ztrunc (duration / di) + 1)%Z) in *.
  set (time := map _ (indices 61)).
  set (conc := map _ time).
  assert (Hb : Forall (fun c => 0 <= c <= IZR n * single) conc).
  { subst conc; apply Forall_forall; intros c Hin.
    apply in_map_iff in Hin; destruct Hin as [t [<- _]].
    apply sample_conc_bounds;
      [exact Hs | exact Hk | left; apply ka_of_pos | lia]. }
  destruct (fold_track_max_ge conc 0.0) as [G0 G].
  assert (U : fold_left track_max conc 0.0 <= IZR n * single).
  { apply fold_track_max_bound.
    - revert Hb; apply Forall_impl; intros c Hc; lra.
    - assert (0 <= IZR n) by (apply (IZR_le 0); lia).
      replace 0.0 with 0 by lra; apply Rmult_le_pos; assumption. }
  pose proof (scaled_maximum (fold_left track_max conc 0.0) cutoff) as S;
    cbv zeta in S; destruct S as (S1 & S2 & S3 & S4).
  split; [subst time; rewrite length_map; apply indices_length |].
  split; [subst conc time; rewrite !length_map; apply indices_length |].
  split; [subst time; change (indices 61) with (0%Z :: map Z.of_nat (seq 1 60));
          cbn [map nth]; lra |].
  split; [exact Hb |].
  split; [revert G; apply Forall_impl; intros c Hc; lra |].
  split; [exact S3 |]. split; [exact S2 |].
  eapply Rle_trans; [exact S4 |].
  apply Rle_max_compat_r, Rle_max_compat_r; exact U.
Qed.

Lemma curve_samples_bounded_witness :
  exists cv,
    plot_concentration_curve 32767 0 0.2 10 3.5 48 4 1 0.1 = Some cv /\
    Forall (fun c => c <= cv_cmax cv) (cv_conc cv) /\ 20 <= cv_cmax cv.
Proof.
  assert (H1 : 0 <= 0.2) by lra.
  assert (H2 : 0 <= 1) by lra.
  assert (H3 : 0 <= 48) by lra.
  assert (H4 : 0 < 4) by lra.
  assert (H5 : 0 < 0.1) by lra.
  assert (Hf : dose_count_fits 32767 48 4).
  { apply small_dose_count_fits; [lia | lra]. }
  destruct (curve_samples_bounded 32767 0 0.2 10 3.5 48 4 1 0.1 H1 H2 H3 H4 H5 Hf)
    as (cv & Hcv & _ & _ & _ & _ & Hm & _ & Hc & _).
  exists cv; repeat split; [exact Hcv | exact Hm | lra].
Defined.

Lemma scan_above_spec (cutoff : R) (rows : list (R * R)) :
  (Forall (fun row => snd row <= cutoff) rows /\ scan_above cutoff rows = 0) \/
  (exists pre t c post,
     rows = pre ++ (t, c) :: post /\
     Forall (fun row => snd row <= cutoff) pre /\ c > cutoff /\
     scan_above cutoff rows = t).
Proof.
  induction rows as [| [t c] rows IH]; simpl.
  - left; split; [constructor | lra].
  - destruct (Rgt_dec c cutoff) as [G | L].
    + rewrite fgt_true by exact G.
      right; exists [], t, c, rows; repeat split; [constructor | exact G].
    + rewrite fgt_false by lra.
      destruct IH as [[Hall E] | (pre & t' & c' & post & E & Hpre & G & Es)].
      * left; split; [constructor; [simpl; lra | exact Hall] | exact E].
      * right; exists ((t, c) :: pre), t', c', post.
        repeat split; [rewrite E; reflexivity | constructor; [simpl; lra | exact Hpre]
                      | exact G | exact Es].
Qed.

Lemma combine_map_r {A B : Type} (f : A -> B) (l : list A) :
  combine l (map f l) = map (fun x => (x, f x)) l.
Proof. induction l as [| x l IH]; simpl; [reflexivity | rewrite IH; reflexivity]. Qed.

(** X14.  With a positive cutoff the analysis always reports a time to
    non-detection, and that time is the time of the last sample above the
    cutoff: every later sample is at most the cutoff.  When no sample is
    above the cutoff the reported time is 0. *)
Theorem analysis_time_is_last_above
    (M : Z) (c0 kelim cutoff thalf duration di single a : R) :
  0 < cutoff -> dose_count_fits M duration di ->
  exists cv t,
    plot_concentration_curve M c0 kelim cutoff thalf duration di single a = Some cv /\
    cv_analysis cv = TimeToNonDetection t (cv_cmax cv) /\
    ((t = 0 /\ Forall (fun c => c <= cutoff) (cv_conc cv)) \/
     (exists before c after,
        combine (cv_time cv) (cv_conc cv) = before ++ (t, c) :: after /\
        c > cutoff /\ Forall (fun row => snd row <= cutoff) after)).
Proof.
  intros Hc Hfit.
  destruct (plot_run M c0 kelim cutoff thalf duration di single a Hfit)
    as (cv & Hcv & I); cbv zeta in I.
  destruct I as (_ & _ & Et & Ec & Em & Ea).
  pose proof (scaled_maximum
                (fold_left track_max
                   (map (sample_conc kelim duration di single a (ka_of a)
                           (Ztrunc (duration / di) + 1))
                      (map (fun i => IZR i * (max_float (duration + 8.0 * thalf) 24.0 / 60.0))
                         (indices 61))) 0.0) cutoff) as S;
    cbv zeta in S; destruct S as (_ & S2 & _).
  rewrite <- Em in S2, Ea.
  unfold analysis_of in Ea; rewrite fgt_true in Ea by lra.
  rewrite <- Et in Ea; rewrite <- Et in Ec; rewrite <- Ec in Ea.
  exists cv, (scan_above cutoff (rev (combine (cv_time cv) (cv_conc cv)))).
  split; [exact Hcv |]. split; [exact Ea |].
  destruct (scan_above_spec cutoff (rev (combine (cv_time cv) (cv_conc cv))))
    as [[Hall E] | (pre & t & c & post & E & Hpre & G & Es)].
  - left; split; [exact E |].
    apply Forall_rev in Hall; rewrite rev_involutive in Hall.
    rewrite Ec in Hall |- *. rewrite combine_map_r in Hall.
    rewrite Forall_map in Hall |- *. exact Hall.
  - right; exists (rev post), c, (rev pre).
    rewrite Es.
    split; [| split; [exact G | apply Forall_rev; exact Hpre]].
    rewrite <- (rev_involutive (combine (cv_time cv) (cv_conc cv))), E.
    rewrite rev_app_distr; simpl; rewrite <- app_assoc; reflexivity.
Qed.

Lemma analysis_time_is_last_above_witness :
  exists cv t,
    plot_concentration_curve 32767 0 0.2 10 3.5 48 4 1 0.1 = Some cv /\
    cv_analysis cv = TimeToNonDetection t (cv_cmax cv).
Proof.
  assert (H1 : 0 < 10) by lra.
  assert (Hf : dose_count_fits 32767 48 4).
  { apply small_dose_count_fits; [lia | lra]. }
  destruct (analysis_time_is_last_above 32767 0 0.2 10 3.5 48 4 1 0.1 H1 Hf)
    as (cv & t & Hcv & Ha & _).
  exists cv, t; split; assumption.
Defined.

(** ** The rows of the concentration chart *)

Lemma store_length (l : list ascii) (k : nat) (c : ascii) :
  List.length (store l k c) = List.length l.
Proof.
  revert k; induction l as [| a l IH]; intros [| k]; simpl; try reflexivity.
  rewrite IH; reflexivity.
Qed.

Lemma store_nth_same (l : list ascii) (k : nat) (c d : ascii) :
  (k < List.length l)%nat -> nth k (store l k c) d = c.
Proof.
  revert k; induction l as [| a l IH]; intros [| k] H; simpl in *; try lia.
  - reflexivity.
  - apply IH; lia.
Qed.

Lemma store_nth_other (l : list ascii) (k j : nat) (c d : ascii) :
  j <> k -> nth j (store l k c) d = nth j l d.
Proof.
  revert k j; induction l as [| a l IH]; intros [| k] [| j] H; simpl;
    try reflexivity; try lia.
  apply IH; lia.
Qed.

Lemma store_no_marker (l : list ascii) (k : nat) (c : ascii) :
  c <> "*"%char -> no_marker l -> no_marker (store l k c).
Proof.
  intros Hc H; revert k; induction H as [| a l Ha Hl IH]; intros [| k]; simpl.
  - constructor.
  - constructor.
  - constructor; [exact Hc | exact Hl].
  - constructor; [exact Ha | apply IH].
Qed.

Lemma mapi_from_length {A B : Type} (f : Z -> A -> B) (i : Z) (l : list A) :
  List.length (mapi_from f i l) = List.length l.
Proof.
  revert i; induction l as [| a l IH]; intros i; simpl; [reflexivity |].
  rewrite IH; reflexivity.
Qed.

Lemma time_grid_line (i : Z) :
  List.length (time_grid i clear_plot_line) = Z.to_nat PLOT_WIDTH /\
  no_marker (time_grid i clear_plot_line).
Proof.
  assert (N : no_marker clear_plot_line).
  { unfold clear_plot_line; apply Forall_forall; intros c Hin.
    apply repeat_spec in Hin; subst c; discriminate. }
  unfold time_grid; destruct (Z.rem i 6 =? 0)%Z.
  - split; [rewrite mapi_from_length; apply repeat_length |].
    apply mapi_from_no_marker; [| exact N].
    intros j c Hc; destruct (_ && _); [discriminate | exact Hc].
  - split; [apply repeat_length | exact N].
Qed.

Lemma end_marker_line (M : Z) (duration dt time_i : R) (l : list ascii) :
  (11 <= M)%Z -> no_marker l ->
  exists l', end_marker M duration dt time_i l = Some l' /\
             List.length l' = List.length l /\ no_marker l'.
Proof.
  intros HM N; unfold end_marker.
  destruct (fgt duration 0 && flt (Rabs (time_i - duration)) dt);
    [| exists l; repeat split; exact N].
  assert (E : Ztrunc (IZR PLOT_WIDTH * 0.1) = 11%Z).
  { apply Ztrunc_eq; unfold PLOT_WIDTH; lra. }
  rewrite (float_to_int_intro M _ 11 E) by (unfold INT_MIN; lia).
  eexists; split; [reflexivity |].
  destruct (_ && _); [| split; [reflexivity | exact N]].
  split; [apply store_length | apply store_no_marker; [discriminate | exact N]].
Qed.

Lemma column_in_range (x cmax b : R) (hi : Z) :
  0 < cmax -> 0 <= x -> x * 117 <= b * cmax -> b < IZR hi + 1 ->
  (0 <= Ztrunc (x * IZR (PLOT_WIDTH - 2) / cmax) <= hi)%Z.
Proof.
  intros Hm Hx Hb Hhi.
  change (IZR (PLOT_WIDTH - 2)) with 117.
  assert (Hi : 0 < / cmax) by (apply Rinv_0_lt_compat; exact Hm).
  assert (Q0 : 0 <= x * 117 / cmax) by (apply Rmult_le_pos; lra).
  assert (Q1 : x * 117 / cmax <= b).
  { apply (Rmult_le_reg_r cmax); [exact Hm |].
    unfold Rdiv; rewrite Rmult_assoc, Rinv_l by lra; lra. }
  rewrite Ztrunc_nonneg by exact Q0.
  split; [apply Zfloor_nonneg; exact Q0 |].
  apply Z.lt_succ_r, lt_IZR.
  apply Rle_lt_trans with (x * 117 / cmax); [apply Zfloor_bound |].
  rewrite succ_IZR; lra.
Qed.

Lemma no_marker_nth (l : list ascii) (j : nat) :
  no_marker l -> nth j l " "%char <> "*"%char.
Proof.
  intros N; destruct (Nat.lt_ge_cases j (List.length l)) as [H | H].
  - unfold no_marker in N; rewrite Forall_forall in N; apply N, nth_In; exact H.
  - rewrite nth_overflow by exact H; discriminate.
Qed.

Lemma store_star (l : list ascii) (k j : nat) (c : ascii) :
  nth j (store l k c) " "%char = "*"%char -> j = k \/ nth j l " "%char = "*"%char.
Proof.
  intros H; destruct (Nat.eq_dec j k) as [E | N]; [left; exact E | right].
  rewrite store_nth_other in H by exact N; exact H.
Qed.

Lemma chart_row_drawn (M : Z) (duration dt cutoff cmax : R) (i : Z) (time_i conc_i : R) :
  (117 <= M)%Z -> 0 < cutoff -> cutoff * 2 <= cmax -> 0 <= conc_i <= cmax ->
  exists line,
    chart_row M duration dt cutoff cmax i time_i conc_i = Some line /\
    row_drawn conc_i line.
Proof.
  intros HM Hc Hm Hconc; unfold chart_row.
  destruct (time_grid_line i) as [L0 N0].
  destruct (end_marker_line M duration dt time_i _ ltac:(lia) N0) as (l1 & E1 & L1 & N1).
  rewrite E1, L0 in *; clear E1.
  assert (Cp : (0 <= Ztrunc (cutoff * IZR (PLOT_WIDTH - 2) / cmax) <= 58)%Z).
  { apply (column_in_range cutoff cmax 58.5); simpl; lra. }
  assert (Pp : (0 <= Ztrunc (conc_i * IZR (PLOT_WIDTH - 2) / cmax) <= PLOT_WIDTH - 2)%Z).
  { apply (column_in_range conc_i cmax 117); simpl; lra. }
  unfold conc_point, cutoff_point, row_drawn.
  set (cpos := Ztrunc (cutoff * IZR (PLOT_WIDTH - 2) / cmax)) in *.
  set (pos := Ztrunc (conc_i * IZR (PLOT_WIDTH - 2) / cmax)) in *.
  assert (Bc : ((0 <=? cpos) && (cpos <? PLOT_WIDTH))%Z = true).
  { apply andb_true_iff; split; [apply Z.leb_le | apply Z.ltb_lt]; unfold PLOT_WIDTH; lia. }
  assert (Bp : ((0 <=? pos) && (pos <? PLOT_WIDTH))%Z = true).
  { apply andb_true_iff; split; [apply Z.leb_le | apply Z.ltb_lt];
      unfold PLOT_WIDTH in *; lia. }
  assert (Wc : (Z.to_nat cpos < Z.to_nat PLOT_WIDTH)%nat) by (unfold PLOT_WIDTH; lia).
  assert (Wp : (Z.to_nat pos < Z.to_nat PLOT_WIDTH)%nat) by (unfold PLOT_WIDTH in *; lia).
  assert (Cn : (Z.to_nat cpos <= 58)%nat) by lia.
  assert (Pn : (Z.to_nat pos <= 117)%nat) by (unfold PLOT_WIDTH in *; lia).
  destruct (Rgt_dec conc_i 0.001) as [G | G].
  - rewrite fgt_true by exact G.
    rewrite (float_to_int_intro M _ pos eq_refl)
      by (unfold INT_MIN, PLOT_WIDTH in *; lia).
    rewrite Bp.
    rewrite (float_to_int_intro M _ cpos eq_refl) by (unfold INT_MIN; lia).
    rewrite Bc; cbn [andb].
    eexists; split; [reflexivity |].
    destruct (Z.eq_dec cpos pos) as [Ecp | Ncp].
    + rewrite Ecp, store_nth_same by (rewrite L1; exact Wp).
      cbn [ascii_eqb Ascii.eqb Bool.eqb negb andb].
      assert (S : nth (Z.to_nat pos) (store l1 (Z.to_nat pos) "*"%char) " "%char = "*"%char)
        by (apply store_nth_same; rewrite L1; exact Wp).
      split; [rewrite store_length; exact L1 |].
      split; [exists (Z.to_nat pos); split; [lia | right; exact S] |].
      split; [intros _; exists (Z.to_nat pos); split; [exact Pn | exact S] |].
      intros j Hj; split; [| exact G].
      apply store_star in Hj; destruct Hj as [-> | Hj]; [exact Pn |].
      exfalso; exact (no_marker_nth l1 j N1 Hj).
    + assert (Nn : Z.to_nat cpos <> Z.to_nat pos) by lia.
      rewrite store_nth_other by exact Nn.
      assert (Ns : ascii_eqb (nth (Z.to_nat cpos) l1 " "%char) "*" = false)
        by (apply Ascii.eqb_neq, no_marker_nth; exact N1).
      rewrite Ns; cbn [negb].
      split; [rewrite !store_length; exact L1 |].
      split.
      { exists (Z.to_nat cpos); split; [exact Cn | left].
        apply store_nth_same; rewrite store_length, L1; exact Wc. }
      split.
      { intros _; exists (Z.to_nat pos); split; [exact Pn |].
        rewrite store_nth_other by lia.
        apply store_nth_same; rewrite L1; exact Wp. }
      intros j Hj; split; [| exact G].
      pose proof (store_star _ _ _ _ Hj) as [E | Hj'].
      * subst j.
        rewrite store_nth_same in Hj by (rewrite store_length, L1; exact Wc).
        discriminate.
      * clear Hj; rename Hj' into Hj.
        apply store_star in Hj; destruct Hj as [-> | Hj]; [exact Pn |].
        exfalso; exact (no_marker_nth l1 j N1 Hj).
  - rewrite fgt_false by lra.
    rewrite (float_to_int_intro M _ cpos eq_refl) by (unfold INT_MIN; lia).
    rewrite Bc; cbn [andb].
    assert (Ns : ascii_eqb (nth (Z.to_nat cpos) l1 " "%char) "*" = false)
      by (apply Ascii.eqb_neq, no_marker_nth; exact N1).
    rewrite Ns; cbn [negb].
    eexists; split; [reflexivity |].
    split; [rewrite store_length; exact L1 |].
    split.
    { exists (Z.to_nat cpos); split; [exact Cn | left].
      apply store_nth_same; rewrite L1; exact Wc. }
    split; [intros C; contradiction |].
    intros j Hj; exfalso.
    assert (N2 : no_marker (store l1 (Z.to_nat cpos) "-"%char))
      by (apply store_no_marker; [discriminate | exact N1]).
    exact (no_marker_nth _ j N2 Hj).
Qed.

Lemma Forall2_rows {A : Type} (P : R -> A -> Prop) (g : Z * (R * R) -> A)
    (idx : list Z) (time conc : list R) :
  List.length idx = List.length conc -> List.length time = List.length conc ->
  (forall i t c, In c conc -> P c (g (i, (t, c)))) ->
  Forall2 P conc (map g (combine idx (combine time conc))).
Proof.
  revert idx time; induction conc as [| c conc IH]; intros [| i idx] [| t time] H1 H2 H;
    simpl in *; try discriminate; constructor.
  - apply H; left; reflexivity.
  - apply IH; [lia | lia |]. intros i' t' c' Hin; apply H; right; exact Hin.
Qed.

Lemma plot_within_maximum
    (M : Z) (c0 kelim cutoff thalf duration di single a : R) (cv : Curve) :
  0 <= kelim -> 0 <= single -> 0 <= duration -> 0 < di -> 0 < a ->
  dose_count_fits M duration di ->
  plot_concentration_curve M c0 kelim cutoff thalf duration di single a = Some cv ->
  cv_num_doses cv = (Ztrunc (duration / di) + 1)%Z /\
  List.length (cv_time cv) = 61%nat /\ List.length (cv_conc cv) = 61%nat /\
  Forall (fun c => 0 <= c <= IZR (cv_num_doses cv) * single) (cv_conc cv) /\
  Forall (fun c => 0 <= c <= cv_cmax cv) (cv_conc cv) /\
  cutoff * 2 <= cv_cmax cv.
Proof.
  intros Hk Hs Hdur Hdi Ha Hfit H.
  destruct (plot_run M c0 kelim cutoff thalf duration di single a Hfit)
    as (cv' & Hcv & I); cbv zeta in I.
  rewrite H in Hcv; apply some_eq in Hcv; subst cv'.
  destruct I as (_ & En & Et & Ec & Em & _).
  destruct (num_doses_floor duration di Hdur Hdi) as [_ Hn].
  split; [exact En |].
  split; [rewrite Et, length_map; apply indices_length |].
  split; [rewrite Ec, !length_map; apply indices_length |].
  rewrite Em, Ec, En.
  set (conc := map _ (map _ (indices 61))).
  assert (Hb : Forall (fun c => 0 <= c <= IZR (Ztrunc (duration / di) + 1) * single) conc).
  { subst conc; apply Forall_forall; intros c Hin.
    apply in_map_iff in Hin; destruct Hin as [t [<- _]].
    apply sample_conc_bounds; [exact Hs | exact Hk | left; apply ka_of_pos | lia]. }
  destruct (fold_track_max_ge conc 0.0) as [_ G].
  pose proof (scaled_maximum (fold_left track_max conc 0.0) cutoff) as S;
    cbv zeta in S; destruct S as (S1 & S2 & _).
  split; [exact Hb |]. split; [| exact S2].
  apply Forall_forall; intros c Hin.
  rewrite Forall_forall in G, Hb; specialize (G c Hin); specialize (Hb c Hin).
  split; [apply Hb | lra].
Qed.

Lemma chart_rows_of_curve (M : Z) (duration cutoff : R) (cv : Curve) :
  (117 <= M)%Z -> 0 < cutoff -> cutoff * 2 <= cv_cmax cv ->
  List.length (cv_time cv) = 61%nat -> List.length (cv_conc cv) = 61%nat ->
  Forall (fun c => 0 <= c <= cv_cmax cv) (cv_conc cv) ->
  List.length (chart_rows M duration cutoff cv) = 61%nat /\
  Forall2 (fun conc_i row =>
             exists line, row = Some line /\ row_drawn conc_i line)
          (cv_conc cv) (chart_rows M duration cutoff cv).
Proof.
  intros HM Hc Hm2 Lt Lc Hb; unfold chart_rows; split.
  - rewrite length_map, !length_combine, indices_length, Lt, Lc; reflexivity.
  - apply Forall2_rows.
    + rewrite indices_length, Lc; reflexivity.
    + rewrite Lt, Lc; reflexivity.
    + intros i t c Hin; cbn [fst snd].
      rewrite Forall_forall in Hb.
      apply chart_row_drawn; [exact HM | exact Hc | exact Hm2 | apply Hb; exact Hin].
Qed.

(** X15.  Every one of the 61 rows of the concentration chart is printed
    without a store outside the line: each row has 119 characters; a sample
    above 0.001 has its curve marker, and a curve marker is only drawn for
    such a sample and never right of column 117; the cutoff marker, or the
    curve marker in its place, stands in a column between 0 and 58.  The
    statement does not say which column a sample gets. *)
Theorem chart_rows_drawn
    (M : Z) (c0 kelim cutoff thalf duration di single a : R) :
  (117 <= M)%Z ->
  0 < cutoff -> 0 <= kelim -> 0 <= single -> 0 <= duration -> 0 < di -> 0 < a ->
  dose_count_fits M duration di ->
  exists cv,
    plot_concentration_curve M c0 kelim cutoff thalf duration di single a = Some cv /\
    List.length (chart_rows M duration cutoff cv) = 61%nat /\
    Forall2 (fun conc_i row =>
               exists line, row = Some line /\ row_drawn conc_i line)
            (cv_conc cv) (chart_rows M duration cutoff cv).
Proof.
  intros HM Hc Hk Hs Hdur Hdi Ha Hfit.
  destruct (plot_defined M c0 kelim cutoff thalf duration di single a Hfit)
    as (cv & Hcv & _).
  destruct (plot_within_maximum M c0 kelim cutoff thalf duration di single a cv
              Hk Hs Hdur Hdi Ha Hfit Hcv) as (_ & Lt & Lc & _ & Hb & Hm2).
  exists cv; split; [exact Hcv |].
  apply chart_rows_of_curve; assumption.
Qed.

Lemma chart_rows_drawn_witness :
  exists cv,
    plot_concentration_curve 32767 0 0.2 10 3.5 48 4 1 0.1 = Some cv /\
    List.length (chart_rows 32767 48 10 cv) = 61%nat.
Proof.
  assert (HM : (117 <= 32767)%Z) by lia.
  assert (H0 : 0 < 10) by lra.
  assert (H1 : 0 <= 0.2) by lra.
  assert (H2 : 0 <= 1) by lra.
  assert (H3 : 0 <= 48) by lra.
  assert (H4 : 0 < 4) by lra.
  assert (H5 : 0 < 0.1) by lra.
  assert (Hf : dose_count_fits 32767 48 4).
  { apply small_dose_count_fits; [lia | lra]. }
  destruct (chart_rows_drawn 32767 0 0.2 10 3.5 48 4 1 0.1 HM H0 H1 H2 H3 H4 H5 Hf)
    as (cv & Hcv & Hl & _).
  exists cv; split; assumption.
Defined.

(** X16.  The chart that the calculation plots is always drawn: for a drug
    and a route of the tables, a dose that is not negative, a positive
    weight, a duration that is not negative and a dose count that fits an
    [int] whose maximum is at least 117, the calculation returns its result,
    the curve of the saliva matrix is computed from it with the same number
    of doses, every sample is between 0 and the number of doses times the
    single-dose concentration, and each of the 61 rows is printed inside its
    line. *)
Theorem plotted_chart_drawn (M drug route dosage weight age metab : Z) (duration : R) :
  (117 <= M)%Z -> (1 <= drug <= NUM_DRUGS)%Z -> (1 <= route <= NUM_ROUTES)%Z ->
  (0 <= dosage)%Z -> (0 < weight)%Z -> 0 <= duration ->
  dose_count_fits M duration (dosing_interval (drugs drug)) ->
  exists c cv,
    calculate_detection_time M drug route dosage weight age metab duration = Some c /\
    plotted_curve M drug route dosage weight age metab duration = Some cv /\
    cv_num_doses cv = res_num_doses c /\
    Forall (fun x => 0 <= x <= IZR (res_num_doses c) * single_conc_saliva c) (cv_conc cv) /\
    List.length (chart_rows M duration (cutoff_saliva (drugs drug)) cv) = 61%nat /\
    Forall2 (fun conc_i row =>
               exists line,
                 row = Some line /\ row_drawn conc_i line)
            (cv_conc cv) (chart_rows M duration (cutoff_saliva (drugs drug)) cv).
Proof.
  intros HM Hdrug Hroute Hx Hw Hdur Hfit.
  destruct (calculate_run M drug route dosage weight age metab duration Hfit)
    as (c & Hc & I); cbv zeta in I.
  destruct I as (Ep & En & Es & _ & Eks & _).
  destruct (drugs_positive drug Hdrug) as (Hs & _ & Hcs & _ & Hdi).
  destruct (adjusted_positive_both drug route Hroute) as [(Hb & Ho & Ha) _].
  assert (Hk : 0 <= elim_rate_saliva c)
    by (rewrite Eks; left; apply elim_rate_pos; exact Hs).
  assert (Hsingle : 0 <= single_conc_saliva c)
    by (rewrite Es; apply single_conc_of_nonneg; assumption).
  assert (Hab : 0 < absorpt (res_params c)) by (rewrite Ep; exact Ha).
  destruct (plot_defined M (total_conc_saliva c) (elim_rate_saliva c)
              (cutoff_saliva (drugs drug)) (res_halflife_saliva c) duration
              (dosing_interval (drugs drug)) (single_conc_saliva c)
              (absorpt (res_params c)) Hfit) as (cv & Hcv & _).
  destruct (plot_within_maximum M _ _ _ _ _ _ _ _ cv Hk Hsingle Hdur Hdi Hab Hfit Hcv)
    as (En' & Lt & Lc & Hbound & Hb' & Hm2).
  exists c, cv. split; [exact Hc |].
  split; [unfold plotted_curve; rewrite Hc; exact Hcv |].
  assert (Enum : cv_num_doses cv = res_num_doses c) by (rewrite En, En'; reflexivity).
  split; [exact Enum |].
  split; [rewrite <- Enum; exact Hbound |].
  apply chart_rows_of_curve; assumption.
Qed.

Lemma plotted_chart_drawn_witness :
  exists c cv,
    calculate_detection_time 32767 8 2 1000 76 28 3 48 = Some c /\
    plotted_curve 32767 8 2 1000 76 28 3 48 = Some cv /\
    cv_num_doses cv = res_num_doses c /\
    List.length (chart_rows 32767 48 (cutoff_saliva (drugs 8)) cv) = 61%nat.
Proof.
  assert (HM : (117 <= 32767)%Z) by lia.
  assert (Hd : (1 <= 8 <= NUM_DRUGS)%Z) by (unfold NUM_DRUGS; lia).
  assert (Hr : (1 <= 2 <= NUM_ROUTES)%Z) by (unfold NUM_ROUTES; lia).
  assert (Hx : (0 <= 1000)%Z) by lia.
  assert (Hw : (0 < 76)%Z) by lia.
  assert (H0 : 0 <= 48) by lra.
  assert (Hf : dose_count_fits 32767 48 (dosing_interval (drugs 8)))
    by (apply morphine_fits; lra).
  destruct (plotted_chart_drawn 32767 8 2 1000 76 28 3 48 HM Hd Hr Hx Hw H0 Hf)
    as (c & cv & Hc & Hcv & Hn & _ & Hl & _).
  exists c, cv; repeat split; assumption.
Defined.

(** ** The chart of the single-matrix program *)

Lemma nth_indices (n : Z) (j : nat) (d : Z) :
  (j < Z.to_nat n)%nat -> nth j (indices n) d = Z.of_nat j.
Proof.
  intros H; unfold indices.
  rewrite (nth_indep _ d (Z.of_nat 0)) by (rewrite length_map, length_seq; exact H).
  rewrite map_nth, seq_nth by exact H; reflexivity.
Qed.

Lemma nth_map_in {A B : Type} (f : A -> B) (l : list A) (j : nat) (d : B) (d' : A) :
  (j < List.length l)%nat -> nth j (map f l) d = f (nth j l d').
Proof.
  intros H. rewrite (nth_indep _ d (f d')) by (rewrite length_map; exact H).
  apply map_nth.
Qed.

Lemma narcdtc_sample (c0 kelim cutoff thalf duration : R) (j : nat) :
  (j < 61)%nat ->
  nth j (NarcdtcChart.cv_conc
           (NarcdtcChart.plot_concentration_curve c0 kelim cutoff thalf duration)) 0
  = c0 * exp (- kelim * (INR j * (max_float (8.0 * thalf) (duration * 2.0) / 60.0))).
Proof.
  intros H; unfold NarcdtcChart.plot_concentration_curve; cbv zeta;
    cbn [NarcdtcChart.cv_conc].
  rewrite (nth_map_in _ _ j 0 0) by (rewrite length_map, indices_length; exact H).
  rewrite (nth_map_in _ _ j 0 0%Z) by (rewrite indices_length; exact H).
  rewrite nth_indices by exact H.
  rewrite <- INR_IZR_INZ; reflexivity.
Qed.

Lemma exp_le_compat (x y : R) : x <= y -> exp x <= exp y.
Proof.
  intros [H | H]; [left; apply exp_increasing; exact H | rewrite H; lra].
Qed.

(** X17.  In the single-matrix program the chart agrees with the report: the
    time to non-detection printed under the chart is the detection time of
    the report, and it is printed exactly when the total concentration
    exceeds the cutoff.  The 61 samples start at the total concentration,
    never increase, and stay between 0 and the total concentration. *)
Theorem narcdtc_chart_consistent
    (M drug route dosage weight age metab : Z) (duration : R) :
  (1 <= drug <= Narcdtc.NUM_DRUGS)%Z -> (1 <= route <= NUM_ROUTES)%Z ->
  (0 <= dosage)%Z -> (0 < weight)%Z -> 0 <= duration ->
  dose_count_fits M duration (Narcdtc.dosing_interval (Narcdtc.drugs drug)) ->
  exists c,
    Narcdtc.calculate_detection_time M drug route dosage weight age metab duration
    = Some c /\
    let cv := NarcdtcChart.plotted_curve drug duration c in
    let conc := NarcdtcChart.cv_conc cv in
    (Narcdtc.total_conc c > Narcdtc.cutoff (Narcdtc.drugs drug) ->
     NarcdtcChart.cv_final_time cv = Some (Narcdtc.detection_time c)) /\
    (Narcdtc.total_conc c <= Narcdtc.cutoff (Narcdtc.drugs drug) ->
     NarcdtcChart.cv_final_time cv = None /\ Narcdtc.detection_time c = 0) /\
    List.length conc = 61%nat /\
    nth 0 conc 0 = Narcdtc.total_conc c /\
    (forall i j, (i <= j < 61)%nat -> 0 <= nth j conc 0 <= nth i conc 0).
Proof.
  intros Hdrug Hroute Hx Hw Hdur Hfit.
  destruct (narcdtc_calculate_run M drug route dosage weight age metab duration Hfit)
    as (c & Hc & I); cbv zeta in I.
  destruct I as (_ & _ & Es & Ek & _ & _ & Et & _ & Ed).
  destruct (narcdtc_drugs_positive drug Hdrug) as (Hh & Hcut & Hdi).
  destruct (adjusted_positive_both drug route Hroute) as [_ (Hb & Ho & _)].
  destruct (num_doses_floor duration _ Hdur Hdi) as [_ Hn].
  assert (Hk : 0 < Narcdtc.elim_rate c) by (rewrite Ek; apply elim_rate_pos; exact Hh).
  assert (Htot : 0 <= Narcdtc.total_conc c).
  { rewrite Et; apply Rmult_le_pos.
    - apply single_conc_of_nonneg; assumption.
    - apply accumulation_of_nonneg; [| exact Hn].
      apply r_factor_range; [apply elim_rate_pos; exact Hh | exact Hdi]. }
  rewrite <- Et, <- Ek in Ed.
  exists c; split; [exact Hc |]. cbv zeta.
  unfold NarcdtcChart.plotted_curve.
  set (c0 := Narcdtc.total_conc c) in *.
  set (k := Narcdtc.elim_rate c) in *.
  set (cutoff := Narcdtc.cutoff (Narcdtc.drugs drug)) in *.
  set (thalf := Narcdtc.res_halflife c).
  assert (Hdt : 0 <= max_float (8.0 * thalf) (duration * 2.0) / 60.0).
  { apply Rmult_le_pos; [| lra].
    unfold max_float; destruct (Rgt_dec (8.0 * thalf) (duration * 2.0)); lra. }
  split; [| split; [| split; [| split]]].
  - intros G. unfold NarcdtcChart.plot_concentration_curve; cbv zeta;
      cbn [NarcdtcChart.cv_final_time].
    rewrite fgt_true by exact G.
    rewrite Ed, detection_time_of_above by exact G; reflexivity.
  - intros L. unfold NarcdtcChart.plot_concentration_curve; cbv zeta;
      cbn [NarcdtcChart.cv_final_time].
    rewrite fgt_false by exact L.
    split; [reflexivity | rewrite Ed; apply detection_time_of_below; exact L].
  - unfold NarcdtcChart.plot_concentration_curve; cbv zeta; cbn [NarcdtcChart.cv_conc].
    rewrite !length_map; apply indices_length.
  - rewrite narcdtc_sample by lia.
    simpl INR; rewrite Rmult_0_l, Rmult_0_r, exp_0; lra.
  - intros i j Hij. rewrite !narcdtc_sample by lia.
    set (dt := max_float (8.0 * thalf) (duration * 2.0) / 60.0) in *.
    assert (Hle : INR i <= INR j) by (apply le_INR; lia).
    assert (Hi : 0 <= INR i) by apply pos_INR.
    assert (Hkd : 0 <= k * dt) by (apply Rmult_le_pos; lra).
    assert (Hd : 0 <= (INR j - INR i) * (k * dt)) by (apply Rmult_le_pos; lra).
    assert (E : - k * (INR j * dt) <= - k * (INR i * dt)) by lra.
    pose proof (exp_le_compat _ _ E) as E'.
    pose proof (exp_pos (- k * (INR j * dt))) as P.
    split; [apply Rmult_le_pos; lra | apply Rmult_le_compat_l; assumption].
Qed.

Lemma narcdtc_chart_consistent_witness :
  exists c,
    Narcdtc.calculate_detection_time 32767 8 2 1000 76 28 3 48 = Some c /\
    nth 0 (NarcdtcChart.cv_conc (NarcdtcChart.plotted_curve 8 48 c)) 0
    = Narcdtc.total_conc c.
Proof.
  assert (Hd : (1 <= 8 <= Narcdtc.NUM_DRUGS)%Z) by (unfold Narcdtc.NUM_DRUGS; lia).
  assert (Hr : (1 <= 2 <= NUM_ROUTES)%Z) by (unfold NUM_ROUTES; lia).
  assert (Hx : (0 <= 1000)%Z) by lia.
  assert (Hw : (0 < 76)%Z) by lia.
  assert (H0 : 0 <= 48) by lra.
  destruct (narcdtc_chart_consistent 32767 8 2 1000 76 28 3 48 Hd Hr Hx Hw H0
              narcdtc_morphine_fits) as (c & Hc & _ & _ & _ & Hs & _).
  exists c; split; assumption.
Defined.

(** ** The synthetic spectrum, for every drug *)

Lemma width_in_range (r : Z) :
  (0 <= r)%Z ->
  0.08 <= 0.08 + IZR (Z.rem r 20) / 1000.0 < 0.1 /\
  max_float 0.05 (0.08 + IZR (Z.rem r 20) / 1000.0) = 0.08 + IZR (Z.rem r 20) / 1000.0.
Proof.
  intros H.
  assert (B : (0 <= Z.rem r 20 < 20)%Z) by (apply Z.rem_bound_pos; lia).
  assert (B0 : 0 <= IZR (Z.rem r 20)) by (apply (IZR_le 0); lia).
  assert (B1 : IZR (Z.rem r 20) <= 19) by (apply (IZR_le _ 19); lia).
  split; [lra |].
  unfold max_float; destruct (Rgt_dec _ _); [lra | reflexivity].
Qed.

(** X18.  Whatever the drug, and for a [rand] that returns no negative
    value, [generate_nmr_data] fills three arrays of 20 cells with between 3
    and 6 peaks; every peak counted has a shift in (0, 12], so that the plot
    skips none, a positive intensity, and a width in [0.08, 0.1), which the
    lower clamp of the plot at 0.05 leaves unchanged. *)
Theorem generated_peaks_well_formed (rand : nat -> Z) (drug : Z) :
  (forall k, (0 <= rand k)%Z) ->
  let d := generate_nmr_data rand drug in
  (3 <= num_peaks d <= 6)%Z /\
  List.length (shifts d) = MAX_PEAKS /\
  List.length (intensities d) = MAX_PEAKS /\
  List.length (widths d) = MAX_PEAKS /\
  forall j, (j < Z.to_nat (num_peaks d))%nat ->
    0 < nth j (shifts d) 0 <= 12 /\
    0 < nth j (intensities d) 0 /\
    0.08 <= nth j (widths d) 0 < 0.1 /\
    max_float 0.05 (nth j (widths d) 0) = nth j (widths d) 0.
Proof.
  intros Hrand; cbv zeta.
  unfold generate_nmr_data, peaks_of.
  destruct (drug =? DRUG_METHAMPHETAMINE)%Z; cbn [negb];
  repeat match goal with
         | |- context [if ?b then _ else _] => destruct b
         end;
    cbn [num_peaks shifts intensities widths];
    (split; [lia |]); (split; [reflexivity |]); (split; [reflexivity |]);
    (split; [reflexivity |]);
    repeat match goal with
           | |- context [Z.to_nat ?p] =>
               let v := eval vm_compute in (Z.to_nat p) in change (Z.to_nat p) with v
           end;
    intros j Hj;
    repeat (destruct j as [| j];
            [cbn [cells firstn app repeat map seq nth MAX_PEAKS];
             split; [lra |]; split; [lra |]; apply width_in_range, Hrand |]);
    lia.
Qed.

Lemma generated_peaks_well_formed_witness :
  (3 <= num_peaks (generate_nmr_data (fun _ => 7%Z) DRUG_LSD) <= 6)%Z.
Proof.
  assert (H : forall k : nat, (0 <= (fun _ : nat => 7%Z) k)%Z) by (intros k; lia).
  exact (proj1 (generated_peaks_well_formed (fun _ => 7%Z) DRUG_LSD H)).
Defined.

Lemma fge_iff (x y : R) : fge x y = true <-> x >= y.
Proof.
  unfold fge; destruct (Rge_dec x y); split; intros H;
    try reflexivity; try assumption; try discriminate; contradiction.
Qed.

Lemma mapi_from_star (f : Z -> ascii -> ascii) (k : Z) (l : list ascii) (i : nat) :
  (forall j c, f j c = "*"%char <-> c = "*"%char) ->
  nth i (mapi_from f k l) " "%char = "*"%char <-> nth i l " "%char = "*"%char.
Proof.
  intros Hf; revert k i; induction l as [| a l IH]; intros k [| i]; simpl;
    try tauto; [apply Hf | apply IH].
Qed.

Lemma major_grid_star (l : list ascii) (i : nat) :
  nth i (major_grid l) " "%char = "*"%char <-> nth i l " "%char = "*"%char.
Proof.
  apply mapi_from_star; intros j c; cbv beta.
  destruct (ascii_eqb c "*") eqn:E; rewrite Bool.andb_comm; cbn [negb andb].
  - tauto.
  - destruct (Z.rem j 20 =? 0)%Z; [| tauto].
    apply Ascii.eqb_neq in E; split; [discriminate | intros C; contradiction].
Qed.

Lemma minor_grid_star (l : list ascii) (i : nat) :
  nth i (minor_grid l) " "%char = "*"%char <-> nth i l " "%char = "*"%char.
Proof.
  apply mapi_from_star; intros j c; cbv beta.
  destruct (ascii_eqb c "*") eqn:E.
  - cbn [negb]; rewrite Bool.andb_false_r; cbn [andb]; tauto.
  - destruct (_ && _); [| tauto].
    apply Ascii.eqb_neq in E; split; [discriminate | intros C; contradiction].
Qed.

Lemma mark_points_length (thresh : R) (spectrum : list R) (l : list ascii) :
  List.length (mark_points thresh spectrum l) = List.length l.
Proof.
  revert l; induction spectrum as [| s spectrum IH]; intros [| c l]; simpl;
    try reflexivity.
  rewrite IH; reflexivity.
Qed.

Lemma mark_points_star (thresh : R) (spectrum : list R) (l : list ascii) (i : nat) :
  no_marker l -> List.length spectrum = List.length l ->
  nth i (mark_points thresh spectrum l) " "%char = "*"%char
  <-> (i < List.length spectrum)%nat /\ nth i spectrum 0 >= thresh.
Proof.
  intros N; revert spectrum i; induction N as [| c l Hc Hl IH];
    intros [| s spectrum] [| i] H; simpl in *; try discriminate.
  - split; [discriminate | lia].
  - split; [discriminate | lia].
  - destruct (fge s thresh) eqn:E.
    + apply fge_iff in E; split; [intros _; split; [lia | exact E] | reflexivity].
    + split; [intros C; contradiction |].
      intros [_ G]; apply fge_iff in G; congruence.
  - rewrite IH by lia. split; intros [A B]; (split; [lia | exact B]).
Qed.

Lemma horizontal_grid_length (line : Z) (l : list ascii) :
  List.length (horizontal_grid line l) = List.length l.
Proof.
  unfold horizontal_grid.
  destruct (Z.rem line 10 =? 0)%Z; [apply length_map |].
  destruct (Z.rem line 5 =? 0)%Z; [apply length_map | reflexivity].
Qed.

Lemma spectrum_row_star (spec_max : R) (spectrum : list R) (line : Z) (i : nat) :
  List.length spectrum = SPECTRUM_WIDTH ->
  List.length (spectrum_row spec_max spectrum line) = SPECTRUM_WIDTH /\
  (nth i (spectrum_row spec_max spectrum line) " "%char = "*"%char
   <-> (i < SPECTRUM_WIDTH)%nat /\
       nth i spectrum 0 >= spec_max * IZR line / IZR PLOT_HEIGHT).
Proof.
  intros L; unfold spectrum_row; cbv zeta.
  assert (Lh : List.length (horizontal_grid line clear_line) = SPECTRUM_WIDTH)
    by (rewrite horizontal_grid_length; apply repeat_length).
  split.
  - unfold minor_grid, major_grid.
    rewrite !mapi_from_length, mark_points_length; exact Lh.
  - rewrite minor_grid_star, major_grid_star.
    rewrite mark_points_star, L;
      [tauto | apply horizontal_grid_no_marker, clear_line_no_marker | congruence].
Qed.

Lemma fold_max_float_ge (l : list R) (m : R) :
  m <= fold_left max_float l m /\ Forall (fun s => s <= fold_left max_float l m) l.
Proof.
  revert m; induction l as [| s l IH]; intros m; simpl.
  - split; [lra | constructor].
  - destruct (IH (max_float m s)) as [H1 H2].
    assert (Hm : m <= max_float m s /\ s <= max_float m s)
      by (unfold max_float; destruct (Rgt_dec m s); lra).
    split; [lra |]. constructor; [lra | exact H2].
Qed.

Lemma spec_max_of_bounds (spectrum : list R) :
  0 < spec_max_of spectrum /\ Forall (fun s => s <= spec_max_of spectrum) spectrum.
Proof.
  unfold spec_max_of; cbv zeta.
  destruct (fold_max_float_ge spectrum 0.0) as [G0 G].
  unfold fle; destruct (Rle_dec (fold_left max_float spectrum 0.0) 0.0) as [L | L].
  - split; [lra |]. revert G; apply Forall_impl; intros s Hs; lra.
  - split; [lra | exact G].
Qed.

(** X19.  In every spectrum plot the scaling maximum is positive and at
    least every point of the spectrum, and each of the 50 rows has 121
    characters.  A peak marker is only drawn in a column whose spectrum
    point is positive; a column whose point is the maximum is marked in
    every row below the top one; and the bars are solid: a marker in a row
    is repeated in the same column of every row below it.  Nothing is said
    of the top row, where the threshold is the maximum itself. *)
Theorem spectrum_rows_marked (nmr_data : NMRData) (concentration : R) :
  let sp := nmr_plot nmr_data concentration in
  let row k := nth k (sp_rows sp) [] in
  0 < sp_max sp /\
  Forall (fun s => s <= sp_max sp) (sp_spectrum sp) /\
  List.length (sp_spectrum sp) = SPECTRUM_WIDTH /\
  List.length (sp_rows sp) = 50%nat /\
  (forall k, (k < 50)%nat -> List.length (row k) = SPECTRUM_WIDTH) /\
  (forall k i, (k < 50)%nat -> nth i (row k) " "%char = "*"%char ->
     (i < SPECTRUM_WIDTH)%nat /\ 0 < nth i (sp_spectrum sp) 0) /\
  (forall k i, (1 <= k < 50)%nat -> (i < SPECTRUM_WIDTH)%nat ->
     nth i (sp_spectrum sp) 0 = sp_max sp -> nth i (row k) " "%char = "*"%char) /\
  (forall k k' i, (k <= k' < 50)%nat ->
     nth i (row k) " "%char = "*"%char -> nth i (row k') " "%char = "*"%char).
Proof.
  cbv zeta; unfold nmr_plot; cbv zeta; cbn [sp_max sp_spectrum sp_rows].
  set (spectrum := spectrum_of nmr_data concentration).
  destruct (spec_max_of_bounds spectrum) as [Hpos Hmax].
  assert (L : List.length spectrum = SPECTRUM_WIDTH).
  { subst spectrum; unfold spectrum_of.
    rewrite length_map, indices_length; apply Nat2Z.id. }
  assert (Hrow : forall k, (k < 50)%nat ->
            nth k (map (fun k => spectrum_row (spec_max_of spectrum) spectrum
                                   (PLOT_HEIGHT - k)) (indices PLOT_HEIGHT)) []
            = spectrum_row (spec_max_of spectrum) spectrum (PLOT_HEIGHT - Z.of_nat k)).
  { intros k Hk.
    rewrite (nth_map_in _ _ k [] 0%Z) by (rewrite indices_length; exact Hk).
    rewrite nth_indices by exact Hk; reflexivity. }
  assert (Hthr : forall k k', (k <= k' < 50)%nat ->
            spec_max_of spectrum * IZR (PLOT_HEIGHT - Z.of_nat k') / IZR PLOT_HEIGHT
            <= spec_max_of spectrum * IZR (PLOT_HEIGHT - Z.of_nat k) / IZR PLOT_HEIGHT).
  { intros k k' Hk.
    assert (Hle : IZR (PLOT_HEIGHT - Z.of_nat k') <= IZR (PLOT_HEIGHT - Z.of_nat k))
      by (apply IZR_le; lia).
    apply Rmult_le_compat_r;
      [left; apply Rinv_0_lt_compat; unfold PLOT_HEIGHT; lra |].
    apply Rmult_le_compat_l; lra. }
  assert (Htop : spec_max_of spectrum * IZR (PLOT_HEIGHT - Z.of_nat 0) / IZR PLOT_HEIGHT
                 = spec_max_of spectrum).
  { change (IZR (PLOT_HEIGHT - Z.of_nat 0)) with 50.
    change (IZR PLOT_HEIGHT) with 50. field. }
  assert (Hlow : forall k, (k < 50)%nat ->
            0 < spec_max_of spectrum * IZR (PLOT_HEIGHT - Z.of_nat k) / IZR PLOT_HEIGHT).
  { intros k Hk.
    assert (H1 : 1 <= IZR (PLOT_HEIGHT - Z.of_nat k))
      by (apply (IZR_le 1); unfold PLOT_HEIGHT; lia).
    apply Rmult_lt_0_compat;
      [apply Rmult_lt_0_compat; lra
      | apply Rinv_0_lt_compat; unfold PLOT_HEIGHT; lra]. }
  split; [exact Hpos |]. split; [exact Hmax |]. split; [exact L |].
  split; [rewrite length_map; apply indices_length |].
  split; [| split; [| split]].
  - intros k Hk; rewrite Hrow by exact Hk.
    apply (spectrum_row_star (spec_max_of spectrum) spectrum _ 0 L).
  - intros k i Hk; rewrite Hrow by exact Hk.
    destruct (spectrum_row_star (spec_max_of spectrum) spectrum
                (PLOT_HEIGHT - Z.of_nat k) i L) as [_ S].
    rewrite S; intros [Hi G]; split; [exact Hi |].
    pose proof (Hlow k Hk); lra.
  - intros k i Hk Hi E; rewrite Hrow by lia.
    destruct (spectrum_row_star (spec_max_of spectrum) spectrum
                (PLOT_HEIGHT - Z.of_nat k) i L) as [_ S].
    apply S; split; [exact Hi |].
    assert (H0 : (0 <= k < 50)%nat) by lia.
    pose proof (Hthr 0%nat k H0) as T; rewrite Htop in T.
    rewrite E; lra.
  - intros k k' i Hk; rewrite !Hrow by lia.
    destruct (spectrum_row_star (spec_max_of spectrum) spectrum
                (PLOT_HEIGHT - Z.of_nat k) i L) as [_ S].
    destruct (spectrum_row_star (spec_max_of spectrum) spectrum
                (PLOT_HEIGHT - Z.of_nat k') i L) as [_ S'].
    rewrite S, S'; intros [Hi G]; split; [exact Hi |].
    pose proof (Hthr k k' Hk); lra.
Qed.

(** ** Peak labels *)

Lemma generated_shifts_in_range (rand : nat -> Z) (drug : Z) (j : nat) :
  let d := generate_nmr_data rand drug in
  (j < Z.to_nat (num_peaks d))%nat -> 0 < nth j (shifts d) 0 <= 12.
Proof.
  cbv zeta; unfold generate_nmr_data, peaks_of.
  destruct (drug =? DRUG_METHAMPHETAMINE)%Z; cbn [negb];
  repeat match goal with
         | |- context [if ?b then _ else _] => destruct b
         end;
    cbn [num_peaks shifts];
    repeat match goal with
           | |- context [Z.to_nat ?p] =>
               let v := eval vm_compute in (Z.to_nat p) in change (Z.to_nat p) with v
           end;
    intros Hj;
    repeat (destruct j as [| j]; [cbn [cells firstn app repeat nth MAX_PEAKS]; lra |]);
    lia.
Qed.

Lemma filter_all {A : Type} (test : A -> bool) (l : list A) :
  Forall (fun x => test x = true) l -> filter test l = l.
Proof.
  induction 1 as [| x l Hx Hl IH]; simpl; [reflexivity |].
  rewrite Hx, IH; reflexivity.
Qed.

(** X20.  Every label that [get_peak_label] can write has at most 16
    characters, so that with its terminator it fits the 25 bytes of its
    buffer; and the labels listed for a generated spectrum are as many as
    its peaks. *)
Theorem peak_labels_fit (rand : nat -> Z) (drug peak_no : Z) (shift : R) :
  (String.length (get_peak_label drug peak_no shift) <= 16)%nat /\
  List.length (peak_labels drug (generate_nmr_data rand drug))
  = Z.to_nat (num_peaks (generate_nmr_data rand drug)).
Proof.
  split.
  - unfold get_peak_label, region_label; cbv zeta.
    repeat match goal with
           | |- context [if ?b then _ else _] => destruct b
           end; cbn [String.length]; lia.
  - unfold peak_labels; rewrite length_map, filter_all; [apply indices_length |].
    apply Forall_forall; intros j Hin; cbv zeta.
    unfold indices in Hin; apply in_map_iff in Hin; destruct Hin as (k & <- & Hk).
    apply in_seq in Hk; rewrite Nat2Z.id.
    pose proof (generated_shifts_in_range rand drug k) as B; cbv zeta in B.
    assert (Hk' : (k < Z.to_nat (num_peaks (generate_nmr_data rand drug)))%nat) by lia.
    specialize (B Hk').
    rewrite fge_true, fle_true by lra.
    reflexivity.
Qed.

(** ** The two matrices and the two programs *)

Lemma matrices_ordered (drug : Z) :
  (1 <= drug <= NUM_DRUGS)%Z ->
  halflife_saliva (drugs drug) < halflife_urine (drugs drug) /\
  cutoff_saliva (drugs drug) <= cutoff_urine (drugs drug).
Proof.
  intros H; destruct (valid_index _ _ H) as [k [Hk E]].
  unfold drugs; rewrite E; clear E H.
  change (Z.to_nat NUM_DRUGS) with 24%nat in Hk.
  do 24 (destruct k as [| k];
         [cbn [nth drugs_table mk_drug halflife_saliva halflife_urine cutoff_saliva
               cutoff_urine]; split; lra |]).
  lia.
Qed.

Lemma rate_lt_compat (h h' f g : R) :
  0 < h < h' -> 0 < f -> 0 < g -> 0.693 / h' * f * g < 0.693 / h * f * g.
Proof.
  intros [H0 H] Hf Hg.
  assert (Hi : / h' < / h) by (apply Rinv_lt_contravar; [nra | exact H]).
  assert (Hfg : 0 < f * g) by (apply Rmult_lt_0_compat; assumption).
  unfold Rdiv; rewrite !Rmult_assoc.
  apply Rmult_lt_compat_l; [lra |].
  apply Rmult_lt_compat_r; lra.
Qed.

(** X21.  In the table every urine half-life is longer than the saliva
    half-life and every urine cutoff is at least the saliva cutoff.  The
    calculation keeps urine the slower matrix when the flip-flop correction
    applies to neither half-life or to both; when it applies to the saliva
    half-life only, the corrected saliva half-life hs + absorption / 0.693
    decides, and the saliva elimination rate can fall below the urine
    rate. *)
Theorem matrix_order (M drug route dosage weight age metab : Z) (duration : R) :
  (1 <= drug <= NUM_DRUGS)%Z ->
  dose_count_fits M duration (dosing_interval (drugs drug)) ->
  exists c,
    calculate_detection_time M drug route dosage weight age metab duration = Some c /\
    let a := absorpt (res_params c) in
    let hs := halflife_saliva (drugs drug) in
    let hu := halflife_urine (drugs drug) in
    hs < hu /\ cutoff_saliva (drugs drug) <= cutoff_urine (drugs drug) /\
    (a <= hs * 0.693 \/ a > hu * 0.693 -> elim_rate_urine c < elim_rate_saliva c) /\
    (hs * 0.693 < a <= hu * 0.693 ->
     (hu < hs + a / 0.693 -> elim_rate_saliva c < elim_rate_urine c) /\
     (hs + a / 0.693 < hu -> elim_rate_urine c < elim_rate_saliva c)).
Proof.
  intros Hdrug Hfit.
  destruct (calculate_run M drug route dosage weight age metab duration Hfit)
    as (c & Hc & I); cbv zeta in I.
  destruct I as (Ep & _ & _ & _ & Eks & Eku & _).
  exists c; split; [exact Hc |]. cbv zeta.
  rewrite Eks, Eku, Ep.
  destruct (drugs_positive drug Hdrug) as (Hs & Hu & _).
  destruct (matrices_ordered drug Hdrug) as [Ho Hcut].
  set (a := absorpt (adjust_route_parameters drug route (base_params route))).
  destruct (flip_flop_closed a _ Hs) as (S1 & S2 & _).
  destruct (flip_flop_closed a _ Hu) as (U1 & U2 & _).
  pose proof (age_factor_pos age) as Ha; pose proof (metab_factor_pos metab) as Hm.
  split; [exact Ho |]. split; [exact Hcut |]. split.
  - intros [L | G].
    + rewrite (S1 L), U1 by lra. apply rate_lt_compat; [lra | exact Ha | exact Hm].
    + rewrite S2, (U2 G) by lra.
      assert (P : 0 < a / 0.693) by (apply Rmult_lt_0_compat; [nra | lra]).
      apply rate_lt_compat; [lra | exact Ha | exact Hm].
  - intros [G L]. rewrite S2, (U1 L) by lra.
    assert (P : 0 < a / 0.693) by (apply Rmult_lt_0_compat; [nra | lra]).
    split; intros H; apply rate_lt_compat; try assumption; lra.
Qed.

Lemma matrix_order_witness :
  exists c,
    calculate_detection_time 32767 DRUG_FENTANYL ROUTE_TRANSDERMAL 5 76 28 3 48 = Some c /\
    elim_rate_saliva c < elim_rate_urine c.
Proof.
  assert (Hd : (1 <= DRUG_FENTANYL <= NUM_DRUGS)%Z)
    by (unfold DRUG_FENTANYL, NUM_DRUGS; lia).
  destruct (matrix_order 32767 DRUG_FENTANYL ROUTE_TRANSDERMAL 5 76 28 3 48
              Hd fentanyl_fits) as (c & Hc & _ & _ & _ & Hmid).
  exists c; split; [exact Hc |].
  destruct (calculate_run 32767 DRUG_FENTANYL ROUTE_TRANSDERMAL 5 76 28 3 48
              fentanyl_fits) as (c' & Hc' & I); cbv zeta in I.
  rewrite Hc in Hc'; apply some_eq in Hc'; subst c'.
  destruct I as (Ep & _).
  assert (Ea : absorpt (res_params c) = 12.0) by (rewrite Ep; reflexivity).
  cbv zeta in Hmid; rewrite Ea in Hmid.
  change (halflife_saliva (drugs DRUG_FENTANYL)) with 7.0 in Hmid.
  change (halflife_urine (drugs DRUG_FENTANYL)) with 20.0 in Hmid.
  apply Hmid; lra.
Defined.

Lemma narcdtc_tables_agree (drug : Z) :
  (1 <= drug <= Narcdtc.NUM_DRUGS)%Z ->
  Narcdtc.dosing_interval (Narcdtc.drugs drug) = dosing_interval (drugs drug) /\
  Narcdtc.adjust_route_parameters drug = adjust_route_parameters drug.
Proof.
  intros H; split.
  - destruct (valid_index _ _ H) as [k [Hk E]].
    unfold drugs, Narcdtc.drugs; rewrite E; clear E H.
    change (Z.to_nat Narcdtc.NUM_DRUGS) with 23%nat in Hk.
    do 23 (destruct k as [| k]; [reflexivity |]).
    lia.
  - unfold Narcdtc.adjust_route_parameters, adjust_route_parameters.
    assert (E : (drug =? DRUG_DIAMORPHINE)%Z = false)
      by (apply Z.eqb_neq; unfold Narcdtc.NUM_DRUGS, DRUG_DIAMORPHINE in *; lia).
    rewrite E, Bool.orb_false_r; reflexivity.
Qed.

(** X22.  For each of the 23 drugs of the single-matrix program the two
    programs use the same dosing interval and the same route rules, so for
    the same inputs both return a result with the same adjusted route
    parameters, the same number of doses and the same single-dose
    concentration. *)
Theorem programs_agree_on_dose (M drug route dosage weight age metab : Z) (duration : R) :
  (1 <= drug <= Narcdtc.NUM_DRUGS)%Z ->
  dose_count_fits M duration (dosing_interval (drugs drug)) ->
  exists c c',
    calculate_detection_time M drug route dosage weight age metab duration = Some c /\
    Narcdtc.calculate_detection_time M drug route dosage weight age metab duration
    = Some c' /\
    Narcdtc.res_params c' = res_params c /\
    Narcdtc.res_num_doses c' = res_num_doses c /\
    Narcdtc.single_conc c' = single_conc_saliva c /\
    Narcdtc.single_conc c' = single_conc_urine c.
Proof.
  intros Hdrug Hfit.
  destruct (narcdtc_tables_agree drug Hdrug) as [Edi Eadj].
  destruct (calculate_run M drug route dosage weight age metab duration Hfit)
    as (c & Hc & I); cbv zeta in I.
  assert (Hfit' : dose_count_fits M duration (Narcdtc.dosing_interval (Narcdtc.drugs drug)))
    by (rewrite Edi; exact Hfit).
  destruct (narcdtc_calculate_run M drug route dosage weight age metab duration Hfit')
    as (c' & Hc' & I'); cbv zeta in I'.
  destruct I as (Ep & En & Es & Eu & _).
  destruct I' as (Ep' & En' & Es' & _).
  exists c, c'; split; [exact Hc |]; split; [exact Hc' |].
  rewrite Ep, Ep', En, En', Es, Es', Eu, Edi, Eadj.
  repeat split.
Qed.

Lemma programs_agree_on_dose_witness :
  exists c c',
    calculate_detection_time 32767 8 2 1000 76 28 3 48 = Some c /\
    Narcdtc.calculate_detection_time 32767 8 2 1000 76 28 3 48 = Some c' /\
    Narcdtc.single_conc c' = single_conc_saliva c.
Proof.
  assert (Hd : (1 <= 8 <= Narcdtc.NUM_DRUGS)%Z) by (unfold Narcdtc.NUM_DRUGS; lia).
  assert (Hf : dose_count_fits 32767 48 (dosing_interval (drugs 8)))
    by (apply morphine_fits; lra).
  destruct (programs_agree_on_dose 32767 8 2 1000 76 28 3 48 Hd Hf)
    as (c & c' & Hc & Hc' & _ & _ & Hs & _).
  exists c, c'; repeat split; assumption.
Defined.
